(** * The OMP command processor of the manager daemon (src/omp.c)

    A shallow embedding of the protocol engine: the bounded output buffer
    with its drain callback ([send_to_client]), the element state machine
    driven by the XML parser callbacks ([omp_xml_handle_start_element],
    [omp_xml_handle_end_element]) and the dispatch of the task commands.

    What lives outside omp.c is taken as an interface: the host that owns
    the socket ([Host]: the write callback and the buffer capacity) and the
    management library ([Manage]: manage.h). *)

From Stdlib Require Import List String Ascii ZArith Lia Bool Arith.
Import ListNotations.

Local Open Scope string_scope.
Local Open Scope list_scope.
Local Open Scope Z_scope.

(** ** Strings *)

Infix "+++" := String.append (right associativity, at level 60).

(** The double quote, for the XML attribute syntax. *)
Definition dq : string := String (ascii_of_nat 34) EmptyString.

(** The characters of a C string, up to its terminator. *)
Definition chars (s : string) : list ascii := list_ascii_of_string s.

Definition strlen (s : string) : nat := String.length s.

(** [tolower] of the C locale. *)
Definition tolower (c : ascii) : ascii :=
  let n := nat_of_ascii c in
  if (65 <=? n)%nat && (n <=? 90)%nat then ascii_of_nat (n + 32) else c.

(** [strcasecmp]: the difference of the first pair of characters that differ
    once lowered, 0 when there is none. *)
Fixpoint strcasecmp (a b : string) : Z :=
  match a, b with
  | EmptyString, EmptyString => 0
  | EmptyString, String d _ => - Z.of_nat (nat_of_ascii (tolower d))
  | String c _, EmptyString => Z.of_nat (nat_of_ascii (tolower c))
  | String c a', String d b' =>
      if Ascii.eqb (tolower c) (tolower d) then strcasecmp a' b'
      else Z.of_nat (nat_of_ascii (tolower c)) - Z.of_nat (nat_of_ascii (tolower d))
  end.

(** [strcmp], used on attribute names. *)
Fixpoint strcmp (a b : string) : Z :=
  match a, b with
  | EmptyString, EmptyString => 0
  | EmptyString, String d _ => - Z.of_nat (nat_of_ascii d)
  | String c _, EmptyString => Z.of_nat (nat_of_ascii c)
  | String c a', String d b' =>
      if Ascii.eqb c d then strcmp a' b'
      else Z.of_nat (nat_of_ascii c) - Z.of_nat (nat_of_ascii d)
  end.

(** ** Status codes *)

Definition STATUS_ERROR_SYNTAX : string := "400".
Definition STATUS_ERROR_MUST_AUTH : string := "401".
Definition STATUS_ERROR_MUST_AUTH_TEXT : string := "Authenticate first".
Definition STATUS_ERROR_ACCESS : string := "403".
Definition STATUS_ERROR_ACCESS_TEXT : string := "Access to resource forbidden".
Definition STATUS_ERROR_MISSING : string := "404".
Definition STATUS_ERROR_MISSING_TEXT : string := "Resource missing".
Definition STATUS_ERROR_BUSY : string := "409".
Definition STATUS_ERROR_BUSY_TEXT : string := "Resource busy".
Definition STATUS_ERROR_AUTH_FAILED : string := "400".
Definition STATUS_ERROR_AUTH_FAILED_TEXT : string := "Authentication failed".
Definition STATUS_OK : string := "200".
Definition STATUS_OK_TEXT : string := "OK".
Definition STATUS_OK_CREATED : string := "201".
Definition STATUS_OK_CREATED_TEXT : string := "OK, resource created".
Definition STATUS_OK_REQUESTED : string := "202".
Definition STATUS_OK_REQUESTED_TEXT : string := "OK, request submitted".
Definition STATUS_INTERNAL_ERROR : string := "500".
Definition STATUS_INTERNAL_ERROR_TEXT : string := "Internal error".
Definition STATUS_SERVICE_DOWN : string := "503".
Definition STATUS_SERVICE_DOWN_TEXT : string := "Service temporarily down".

(** ** Response macros *)

(** The shape every one-element response shares:
    <tag_response status=.. status_text=../> *)
Definition xml_response (tag status text : string) : string :=
  "<" +++ tag +++ "_response"
  +++ " status=" +++ dq +++ status +++ dq
  +++ " status_text=" +++ dq +++ text +++ dq +++ "/>".

Definition XML_ERROR_SYNTAX (tag text : string) : string :=
  xml_response tag STATUS_ERROR_SYNTAX text.
Definition XML_ERROR_ACCESS (tag : string) : string :=
  xml_response tag STATUS_ERROR_ACCESS STATUS_ERROR_ACCESS_TEXT.
Definition XML_ERROR_MISSING (tag : string) : string :=
  xml_response tag STATUS_ERROR_MISSING STATUS_ERROR_MISSING_TEXT.
Definition XML_ERROR_AUTH_FAILED (tag : string) : string :=
  xml_response tag STATUS_ERROR_AUTH_FAILED STATUS_ERROR_AUTH_FAILED_TEXT.
Definition XML_OK (tag : string) : string :=
  xml_response tag STATUS_OK STATUS_OK_TEXT.
Definition XML_OK_REQUESTED (tag : string) : string :=
  xml_response tag STATUS_OK_REQUESTED STATUS_OK_REQUESTED_TEXT.
(** XML_OK_CREATED_ID with its %s filled in. *)
Definition XML_OK_CREATED_ID (tag id : string) : string :=
  "<" +++ tag +++ "_response" +++ " status=" +++ dq +++ STATUS_OK_CREATED +++ dq
  +++ " status_text=" +++ dq +++ STATUS_OK_CREATED_TEXT +++ dq
  +++ " id=" +++ dq +++ id +++ dq +++ "/>".
Definition XML_INTERNAL_ERROR (tag : string) : string :=
  xml_response tag STATUS_INTERNAL_ERROR STATUS_INTERNAL_ERROR_TEXT.
Definition XML_SERVICE_DOWN (tag : string) : string :=
  xml_response tag STATUS_SERVICE_DOWN STATUS_SERVICE_DOWN_TEXT.

(** The status attribute a response opens with, for reading a response. *)
Definition has_status (status msg : string) : Prop :=
  exists tag rest,
    msg = "<" +++ tag +++ "_response" +++ " status=" +++ dq +++ status +++ dq +++ rest.

(** ** Outcomes of a call

    A C call of this file returns, or ends the process ([abort ()], a failed
    [assert]), or is still inside a loop when the fuel of the model is spent. *)
Inductive outcome (A : Type) : Type :=
| Returns (a : A)
| Aborted
| Spinning.
Arguments Returns {A} a.
Arguments Aborted {A}.
Arguments Spinning {A}.

Definition bind {A B : Type} (o : outcome A) (k : A -> outcome B) : outcome B :=
  match o with
  | Returns a => k a
  | Aborted => Aborted
  | Spinning => Spinning
  end.

Notation "'do' x <- o ; k" := (bind o (fun x => k))
  (at level 10, x pattern, o at level 100, k at level 200).

(** ** The host: the output buffer's consumer

    [to_client] is a char array of [TO_CLIENT_BUFFER_SIZE] bytes with two
    cursors; the bytes queued are those from [to_client_start] to
    [to_client_end]. *)
Record to_client_t : Type := {
  to_client : list ascii;
  to_client_start : nat;
  to_client_end : nat
}.

(** The host supplies the capacity, the write callback with its argument (the
    connection of the peer) and the build: under [NDEBUG] an [assert] checks
    nothing.  The callback answers 0 (wrote everything), -1 (error) or -2
    (wrote as much as the client accepts) and moves the cursors, which are
    globals of the program.  [wire] reads back the bytes the connection has
    taken so far. *)
Class Host : Type := {
  TO_CLIENT_BUFFER_SIZE : nat;
  NDEBUG : bool;
  client : Type;
  write_to_client : client -> to_client_t -> Z * client * to_client_t;
  wire : client -> list ascii
}.

Section OutputBuffer.
Context {host : Host}.

(** [assert (c)]: the process ends unless [c] holds or the build has NDEBUG. *)
Definition assert {A : Type} (c : bool) (k : outcome A) : outcome A :=
  if c || NDEBUG then k else Aborted.

(** The bytes queued in the buffer. *)
Definition queued (b : to_client_t) : list ascii :=
  firstn (to_client_end b - to_client_start b) (skipn (to_client_start b) (to_client b)).

(** The invariant of the buffer: start <= end <= capacity. *)
Definition buffer_ok (b : to_client_t) : Prop :=
  (to_client_start b <= to_client_end b)%nat
  /\ (to_client_end b <= TO_CLIENT_BUFFER_SIZE)%nat
  /\ List.length (to_client b) = TO_CLIENT_BUFFER_SIZE.

(** [memmove (to_client + off, src, n)] with n the length of [src]. *)
Definition memmove (dst : list ascii) (off : nat) (src : list ascii) : list ascii :=
  firstn off dst ++ src ++ skipn (off + List.length src) dst.

(** [memmove (to_client + to_client_end, msg, n); to_client_end += n]. *)
Definition queue_bytes (b : to_client_t) (bytes : list ascii) : to_client_t :=
  {| to_client := memmove (to_client b) (to_client_end b) bytes;
     to_client_start := to_client_start b;
     to_client_end := (to_client_end b + List.length bytes)%nat |}.

(** The part of [send_to_client] after its loop. *)
Definition send_to_client_tail (msg : list ascii) (c : client) (b : to_client_t)
  : outcome (bool * client * to_client_t) :=
  if (0 <? List.length msg)%nat then
    assert (List.length msg <=? TO_CLIENT_BUFFER_SIZE - to_client_end b)%nat
           (Returns (false, c, queue_bytes b msg))
  else Returns (false, c, b).

(** The loop of [send_to_client]; [msg] is what is left of the message.  One
    unit of fuel pays for one call of the callback.  The subtraction is the
    one of buffer_size_t as long as [to_client_end] is within the capacity,
    which the assertion at the entry asks for. *)
Fixpoint send_to_client_loop (fuel : nat) (msg : list ascii) (c : client) (b : to_client_t)
  : outcome (bool * client * to_client_t) :=
  if (TO_CLIENT_BUFFER_SIZE - to_client_end b <? List.length msg)%nat then
    match fuel with
    | O => Spinning
    | S fuel' =>
        let '(r, c', b') := write_to_client c b in
        if r =? -1 then Returns (true, c', b')
        else
          assert ((r =? 0) || (r =? -2))
            (let len := (TO_CLIENT_BUFFER_SIZE - to_client_end b')%nat in
             if (List.length msg <? len)%nat then send_to_client_tail msg c' b'
             else send_to_client_loop fuel' (skipn len msg) c'
                    (queue_bytes b' (firstn len msg)))
    end
  else send_to_client_tail msg c b.

(** [send_to_client]: TRUE (the first component) if the write to the client
    failed, else FALSE. *)
Definition send_to_client (fuel : nat) (msg : string) (c : client) (b : to_client_t)
  : outcome (bool * client * to_client_t) :=
  assert (to_client_end b <=? TO_CLIENT_BUFFER_SIZE)%nat
         (send_to_client_loop fuel (chars msg) c b).

(** A run of [send_to_client] calls, stopping at the first that fails. *)
Fixpoint send_all (fuel : nat) (msgs : list string) (c : client) (b : to_client_t)
  : outcome (bool * client * to_client_t) :=
  match msgs with
  | [] => Returns (false, c, b)
  | msg :: rest =>
      do (failed, c', b') <- send_to_client fuel msg c b;
      if (failed : bool) then Returns (true, c', b') else send_all fuel rest c' b'
  end.

(** [send_element_error_to_client]: g_strdup_printf of the command and the
    element into the syntax error response. *)
Definition element_error_message (command element : string) : string :=
  "<" +++ command +++ "_response status=" +++ dq +++ STATUS_ERROR_SYNTAX +++ dq
  +++ " status_text=" +++ dq +++ "Bogus element: " +++ element +++ dq +++ "/>".

Definition send_element_error_to_client (fuel : nat) (command element : string)
  (c : client) (b : to_client_t) : outcome (bool * client * to_client_t) :=
  send_to_client fuel (element_error_message command element) c b.

(** [send_find_error_to_client]. *)
Definition find_error_message (command type id : string) : string :=
  "<" +++ command +++ "_response status=" +++ dq +++ STATUS_ERROR_MISSING +++ dq
  +++ " status_text=" +++ dq +++ "Failed to find " +++ type +++ " '" +++ id +++ "'"
  +++ dq +++ "/>".

Definition send_find_error_to_client (fuel : nat) (command type id : string)
  (c : client) (b : to_client_t) : outcome (bool * client * to_client_t) :=
  send_to_client fuel (find_error_message command type id) c b.

(** Everything the session has put out: what the connection took, then what
    is still queued. *)
Definition output (c : client) (b : to_client_t) : list ascii :=
  wire c ++ queued b.

End OutputBuffer.

(** ** Client state

    The states of the client, in the order of the enumeration (the entry
    for GET_CERTIFICATES is compiled out). *)
Inductive client_state_t : Set :=
| CLIENT_TOP
| CLIENT_AUTHENTIC
| CLIENT_AUTHENTICATE
| CLIENT_AUTHENTICATE_CREDENTIALS
| CLIENT_AUTHENTICATE_CREDENTIALS_PASSWORD
| CLIENT_AUTHENTICATE_CREDENTIALS_USERNAME
| CLIENT_AUTHENTIC_COMMANDS
| CLIENT_COMMANDS
| CLIENT_CREATE_AGENT
| CLIENT_CREATE_AGENT_NAME
| CLIENT_CREATE_AGENT_COMMENT
| CLIENT_CREATE_AGENT_INSTALLER
| CLIENT_CREATE_AGENT_INSTALLER_FILENAME
| CLIENT_CREATE_AGENT_INSTALLER_SIGNATURE
| CLIENT_CREATE_AGENT_HOWTO_INSTALL
| CLIENT_CREATE_AGENT_HOWTO_USE
| CLIENT_CREATE_CONFIG
| CLIENT_CREATE_CONFIG_COMMENT
| CLIENT_CREATE_CONFIG_COPY
| CLIENT_CREATE_CONFIG_NAME
| CLIENT_CREATE_CONFIG_RCFILE
| CLIENT_C_C_GCR
| CLIENT_C_C_GCR_CONFIG
| CLIENT_C_C_GCR_CONFIG_COMMENT
| CLIENT_C_C_GCR_CONFIG_NAME
| CLIENT_C_C_GCR_CONFIG_NVT_SELECTORS
| CLIENT_C_C_GCR_CONFIG_NVT_SELECTORS_NVT_SELECTOR
| CLIENT_C_C_GCR_CONFIG_NVT_SELECTORS_NVT_SELECTOR_NAME
| CLIENT_C_C_GCR_CONFIG_NVT_SELECTORS_NVT_SELECTOR_INCLUDE
| CLIENT_C_C_GCR_CONFIG_NVT_SELECTORS_NVT_SELECTOR_TYPE
| CLIENT_C_C_GCR_CONFIG_NVT_SELECTORS_NVT_SELECTOR_FAMILY_OR_NVT
| CLIENT_C_C_GCR_CONFIG_PREFERENCES
| CLIENT_C_C_GCR_CONFIG_PREFERENCES_PREFERENCE
| CLIENT_C_C_GCR_CONFIG_PREFERENCES_PREFERENCE_ALT
| CLIENT_C_C_GCR_CONFIG_PREFERENCES_PREFERENCE_NAME
| CLIENT_C_C_GCR_CONFIG_PREFERENCES_PREFERENCE_NVT
| CLIENT_C_C_GCR_CONFIG_PREFERENCES_PREFERENCE_NVT_NAME
| CLIENT_C_C_GCR_CONFIG_PREFERENCES_PREFERENCE_TYPE
| CLIENT_C_C_GCR_CONFIG_PREFERENCES_PREFERENCE_VALUE
| CLIENT_CREATE_ESCALATOR
| CLIENT_CREATE_ESCALATOR_COMMENT
| CLIENT_CREATE_ESCALATOR_CONDITION
| CLIENT_CREATE_ESCALATOR_CONDITION_DATA
| CLIENT_CREATE_ESCALATOR_CONDITION_DATA_NAME
| CLIENT_CREATE_ESCALATOR_EVENT
| CLIENT_CREATE_ESCALATOR_EVENT_DATA
| CLIENT_CREATE_ESCALATOR_EVENT_DATA_NAME
| CLIENT_CREATE_ESCALATOR_METHOD
| CLIENT_CREATE_ESCALATOR_METHOD_DATA
| CLIENT_CREATE_ESCALATOR_METHOD_DATA_NAME
| CLIENT_CREATE_ESCALATOR_NAME
| CLIENT_CREATE_LSC_CREDENTIAL
| CLIENT_CREATE_LSC_CREDENTIAL_COMMENT
| CLIENT_CREATE_LSC_CREDENTIAL_NAME
| CLIENT_CREATE_LSC_CREDENTIAL_PASSWORD
| CLIENT_CREATE_LSC_CREDENTIAL_LOGIN
| CLIENT_CREATE_NOTE
| CLIENT_CREATE_NOTE_HOSTS
| CLIENT_CREATE_NOTE_NVT
| CLIENT_CREATE_NOTE_PORT
| CLIENT_CREATE_NOTE_RESULT
| CLIENT_CREATE_NOTE_TASK
| CLIENT_CREATE_NOTE_TEXT
| CLIENT_CREATE_NOTE_THREAT
| CLIENT_CREATE_OVERRIDE
| CLIENT_CREATE_OVERRIDE_HOSTS
| CLIENT_CREATE_OVERRIDE_NEW_THREAT
| CLIENT_CREATE_OVERRIDE_NVT
| CLIENT_CREATE_OVERRIDE_PORT
| CLIENT_CREATE_OVERRIDE_RESULT
| CLIENT_CREATE_OVERRIDE_TASK
| CLIENT_CREATE_OVERRIDE_TEXT
| CLIENT_CREATE_OVERRIDE_THREAT
| CLIENT_CREATE_REPORT_FORMAT
| CLIENT_CRF_GRFR
| CLIENT_CRF_GRFR_REPORT_FORMAT
| CLIENT_CRF_GRFR_REPORT_FORMAT_CONTENT_TYPE
| CLIENT_CRF_GRFR_REPORT_FORMAT_DESCRIPTION
| CLIENT_CRF_GRFR_REPORT_FORMAT_EXTENSION
| CLIENT_CRF_GRFR_REPORT_FORMAT_FILE
| CLIENT_CRF_GRFR_REPORT_FORMAT_GLOBAL
| CLIENT_CRF_GRFR_REPORT_FORMAT_NAME
| CLIENT_CRF_GRFR_REPORT_FORMAT_PARAM
| CLIENT_CRF_GRFR_REPORT_FORMAT_PARAM_NAME
| CLIENT_CRF_GRFR_REPORT_FORMAT_PARAM_VALUE
| CLIENT_CRF_GRFR_REPORT_FORMAT_SIGNATURE
| CLIENT_CRF_GRFR_REPORT_FORMAT_SUMMARY
| CLIENT_CRF_GRFR_REPORT_FORMAT_TRUST
| CLIENT_CREATE_SCHEDULE
| CLIENT_CREATE_SCHEDULE_NAME
| CLIENT_CREATE_SCHEDULE_COMMENT
| CLIENT_CREATE_SCHEDULE_FIRST_TIME
| CLIENT_CREATE_SCHEDULE_FIRST_TIME_DAY_OF_MONTH
| CLIENT_CREATE_SCHEDULE_FIRST_TIME_HOUR
| CLIENT_CREATE_SCHEDULE_FIRST_TIME_MINUTE
| CLIENT_CREATE_SCHEDULE_FIRST_TIME_MONTH
| CLIENT_CREATE_SCHEDULE_FIRST_TIME_YEAR
| CLIENT_CREATE_SCHEDULE_DURATION
| CLIENT_CREATE_SCHEDULE_DURATION_UNIT
| CLIENT_CREATE_SCHEDULE_PERIOD
| CLIENT_CREATE_SCHEDULE_PERIOD_UNIT
| CLIENT_CREATE_SLAVE
| CLIENT_CREATE_SLAVE_COMMENT
| CLIENT_CREATE_SLAVE_HOST
| CLIENT_CREATE_SLAVE_LOGIN
| CLIENT_CREATE_SLAVE_NAME
| CLIENT_CREATE_SLAVE_PASSWORD
| CLIENT_CREATE_SLAVE_PORT
| CLIENT_CREATE_TARGET
| CLIENT_CREATE_TARGET_COMMENT
| CLIENT_CREATE_TARGET_HOSTS
| CLIENT_CREATE_TARGET_LSC_CREDENTIAL
| CLIENT_CREATE_TARGET_NAME
| CLIENT_CREATE_TARGET_TARGET_LOCATOR
| CLIENT_CREATE_TARGET_TARGET_LOCATOR_PASSWORD
| CLIENT_CREATE_TARGET_TARGET_LOCATOR_USERNAME
| CLIENT_CREATE_TASK
| CLIENT_CREATE_TASK_COMMENT
| CLIENT_CREATE_TASK_CONFIG
| CLIENT_CREATE_TASK_ESCALATOR
| CLIENT_CREATE_TASK_NAME
| CLIENT_CREATE_TASK_RCFILE
| CLIENT_CREATE_TASK_SCHEDULE
| CLIENT_CREATE_TASK_SLAVE
| CLIENT_CREATE_TASK_TARGET
| CLIENT_DELETE_AGENT
| CLIENT_DELETE_CONFIG
| CLIENT_DELETE_ESCALATOR
| CLIENT_DELETE_LSC_CREDENTIAL
| CLIENT_DELETE_NOTE
| CLIENT_DELETE_OVERRIDE
| CLIENT_DELETE_REPORT
| CLIENT_DELETE_REPORT_FORMAT
| CLIENT_DELETE_SCHEDULE
| CLIENT_DELETE_SLAVE
| CLIENT_DELETE_TASK
| CLIENT_DELETE_TARGET
| CLIENT_GET_AGENTS
| CLIENT_GET_CONFIGS
| CLIENT_GET_DEPENDENCIES
| CLIENT_GET_ESCALATORS
| CLIENT_GET_LSC_CREDENTIALS
| CLIENT_GET_NOTES
| CLIENT_GET_NVTS
| CLIENT_GET_NVT_FAMILIES
| CLIENT_GET_NVT_FEED_CHECKSUM
| CLIENT_GET_OVERRIDES
| CLIENT_GET_PREFERENCES
| CLIENT_GET_REPORTS
| CLIENT_GET_REPORT_FORMATS
| CLIENT_GET_RESULTS
| CLIENT_GET_SCHEDULES
| CLIENT_GET_SLAVES
| CLIENT_GET_SYSTEM_REPORTS
| CLIENT_GET_TARGET_LOCATORS
| CLIENT_GET_TARGETS
| CLIENT_GET_TASKS
| CLIENT_GET_VERSION
| CLIENT_GET_VERSION_AUTHENTIC
| CLIENT_HELP
| CLIENT_MODIFY_REPORT
| CLIENT_MODIFY_REPORT_COMMENT
| CLIENT_MODIFY_REPORT_FORMAT
| CLIENT_MODIFY_REPORT_FORMAT_NAME
| CLIENT_MODIFY_REPORT_FORMAT_SUMMARY
| CLIENT_MODIFY_CONFIG
| CLIENT_MODIFY_CONFIG_PREFERENCE
| CLIENT_MODIFY_CONFIG_PREFERENCE_NAME
| CLIENT_MODIFY_CONFIG_PREFERENCE_NVT
| CLIENT_MODIFY_CONFIG_PREFERENCE_VALUE
| CLIENT_MODIFY_CONFIG_FAMILY_SELECTION
| CLIENT_MODIFY_CONFIG_FAMILY_SELECTION_FAMILY
| CLIENT_MODIFY_CONFIG_FAMILY_SELECTION_FAMILY_ALL
| CLIENT_MODIFY_CONFIG_FAMILY_SELECTION_FAMILY_GROWING
| CLIENT_MODIFY_CONFIG_FAMILY_SELECTION_FAMILY_NAME
| CLIENT_MODIFY_CONFIG_FAMILY_SELECTION_GROWING
| CLIENT_MODIFY_CONFIG_NVT_SELECTION
| CLIENT_MODIFY_CONFIG_NVT_SELECTION_FAMILY
| CLIENT_MODIFY_CONFIG_NVT_SELECTION_NVT
| CLIENT_MODIFY_NOTE
| CLIENT_MODIFY_NOTE_HOSTS
| CLIENT_MODIFY_NOTE_PORT
| CLIENT_MODIFY_NOTE_RESULT
| CLIENT_MODIFY_NOTE_TASK
| CLIENT_MODIFY_NOTE_TEXT
| CLIENT_MODIFY_NOTE_THREAT
| CLIENT_MODIFY_OVERRIDE
| CLIENT_MODIFY_OVERRIDE_HOSTS
| CLIENT_MODIFY_OVERRIDE_NEW_THREAT
| CLIENT_MODIFY_OVERRIDE_PORT
| CLIENT_MODIFY_OVERRIDE_RESULT
| CLIENT_MODIFY_OVERRIDE_TASK
| CLIENT_MODIFY_OVERRIDE_TEXT
| CLIENT_MODIFY_OVERRIDE_THREAT
| CLIENT_MODIFY_TASK
| CLIENT_MODIFY_TASK_COMMENT
| CLIENT_MODIFY_TASK_ESCALATOR
| CLIENT_MODIFY_TASK_FILE
| CLIENT_MODIFY_TASK_NAME
| CLIENT_MODIFY_TASK_RCFILE
| CLIENT_MODIFY_TASK_SCHEDULE
| CLIENT_PAUSE_TASK
| CLIENT_RESUME_OR_START_TASK
| CLIENT_RESUME_PAUSED_TASK
| CLIENT_RESUME_STOPPED_TASK
| CLIENT_START_TASK
| CLIENT_STOP_TASK
| CLIENT_TEST_ESCALATOR
| CLIENT_VERIFY_AGENT
| CLIENT_VERIFY_REPORT_FORMAT.

(** The integer behind each enumerator: [CLIENT_TOP] is 0. *)
Definition client_state_value (s : client_state_t) : Z :=
  match s with
  | CLIENT_TOP => 0
  | CLIENT_AUTHENTIC => 1
  | CLIENT_AUTHENTICATE => 2
  | CLIENT_AUTHENTICATE_CREDENTIALS => 3
  | CLIENT_AUTHENTICATE_CREDENTIALS_PASSWORD => 4
  | CLIENT_AUTHENTICATE_CREDENTIALS_USERNAME => 5
  | CLIENT_AUTHENTIC_COMMANDS => 6
  | CLIENT_COMMANDS => 7
  | CLIENT_CREATE_AGENT => 8
  | CLIENT_CREATE_AGENT_NAME => 9
  | CLIENT_CREATE_AGENT_COMMENT => 10
  | CLIENT_CREATE_AGENT_INSTALLER => 11
  | CLIENT_CREATE_AGENT_INSTALLER_FILENAME => 12
  | CLIENT_CREATE_AGENT_INSTALLER_SIGNATURE => 13
  | CLIENT_CREATE_AGENT_HOWTO_INSTALL => 14
  | CLIENT_CREATE_AGENT_HOWTO_USE => 15
  | CLIENT_CREATE_CONFIG => 16
  | CLIENT_CREATE_CONFIG_COMMENT => 17
  | CLIENT_CREATE_CONFIG_COPY => 18
  | CLIENT_CREATE_CONFIG_NAME => 19
  | CLIENT_CREATE_CONFIG_RCFILE => 20
  | CLIENT_C_C_GCR => 21
  | CLIENT_C_C_GCR_CONFIG => 22
  | CLIENT_C_C_GCR_CONFIG_COMMENT => 23
  | CLIENT_C_C_GCR_CONFIG_NAME => 24
  | CLIENT_C_C_GCR_CONFIG_NVT_SELECTORS => 25
  | CLIENT_C_C_GCR_CONFIG_NVT_SELECTORS_NVT_SELECTOR => 26
  | CLIENT_C_C_GCR_CONFIG_NVT_SELECTORS_NVT_SELECTOR_NAME => 27
  | CLIENT_C_C_GCR_CONFIG_NVT_SELECTORS_NVT_SELECTOR_INCLUDE => 28
  | CLIENT_C_C_GCR_CONFIG_NVT_SELECTORS_NVT_SELECTOR_TYPE => 29
  | CLIENT_C_C_GCR_CONFIG_NVT_SELECTORS_NVT_SELECTOR_FAMILY_OR_NVT => 30
  | CLIENT_C_C_GCR_CONFIG_PREFERENCES => 31
  | CLIENT_C_C_GCR_CONFIG_PREFERENCES_PREFERENCE => 32
  | CLIENT_C_C_GCR_CONFIG_PREFERENCES_PREFERENCE_ALT => 33
  | CLIENT_C_C_GCR_CONFIG_PREFERENCES_PREFERENCE_NAME => 34
  | CLIENT_C_C_GCR_CONFIG_PREFERENCES_PREFERENCE_NVT => 35
  | CLIENT_C_C_GCR_CONFIG_PREFERENCES_PREFERENCE_NVT_NAME => 36
  | CLIENT_C_C_GCR_CONFIG_PREFERENCES_PREFERENCE_TYPE => 37
  | CLIENT_C_C_GCR_CONFIG_PREFERENCES_PREFERENCE_VALUE => 38
  | CLIENT_CREATE_ESCALATOR => 39
  | CLIENT_CREATE_ESCALATOR_COMMENT => 40
  | CLIENT_CREATE_ESCALATOR_CONDITION => 41
  | CLIENT_CREATE_ESCALATOR_CONDITION_DATA => 42
  | CLIENT_CREATE_ESCALATOR_CONDITION_DATA_NAME => 43
  | CLIENT_CREATE_ESCALATOR_EVENT => 44
  | CLIENT_CREATE_ESCALATOR_EVENT_DATA => 45
  | CLIENT_CREATE_ESCALATOR_EVENT_DATA_NAME => 46
  | CLIENT_CREATE_ESCALATOR_METHOD => 47
  | CLIENT_CREATE_ESCALATOR_METHOD_DATA => 48
  | CLIENT_CREATE_ESCALATOR_METHOD_DATA_NAME => 49
  | CLIENT_CREATE_ESCALATOR_NAME => 50
  | CLIENT_CREATE_LSC_CREDENTIAL => 51
  | CLIENT_CREATE_LSC_CREDENTIAL_COMMENT => 52
  | CLIENT_CREATE_LSC_CREDENTIAL_NAME => 53
  | CLIENT_CREATE_LSC_CREDENTIAL_PASSWORD => 54
  | CLIENT_CREATE_LSC_CREDENTIAL_LOGIN => 55
  | CLIENT_CREATE_NOTE => 56
  | CLIENT_CREATE_NOTE_HOSTS => 57
  | CLIENT_CREATE_NOTE_NVT => 58
  | CLIENT_CREATE_NOTE_PORT => 59
  | CLIENT_CREATE_NOTE_RESULT => 60
  | CLIENT_CREATE_NOTE_TASK => 61
  | CLIENT_CREATE_NOTE_TEXT => 62
  | CLIENT_CREATE_NOTE_THREAT => 63
  | CLIENT_CREATE_OVERRIDE => 64
  | CLIENT_CREATE_OVERRIDE_HOSTS => 65
  | CLIENT_CREATE_OVERRIDE_NEW_THREAT => 66
  | CLIENT_CREATE_OVERRIDE_NVT => 67
  | CLIENT_CREATE_OVERRIDE_PORT => 68
  | CLIENT_CREATE_OVERRIDE_RESULT => 69
  | CLIENT_CREATE_OVERRIDE_TASK => 70
  | CLIENT_CREATE_OVERRIDE_TEXT => 71
  | CLIENT_CREATE_OVERRIDE_THREAT => 72
  | CLIENT_CREATE_REPORT_FORMAT => 73
  | CLIENT_CRF_GRFR => 74
  | CLIENT_CRF_GRFR_REPORT_FORMAT => 75
  | CLIENT_CRF_GRFR_REPORT_FORMAT_CONTENT_TYPE => 76
  | CLIENT_CRF_GRFR_REPORT_FORMAT_DESCRIPTION => 77
  | CLIENT_CRF_GRFR_REPORT_FORMAT_EXTENSION => 78
  | CLIENT_CRF_GRFR_REPORT_FORMAT_FILE => 79
  | CLIENT_CRF_GRFR_REPORT_FORMAT_GLOBAL => 80
  | CLIENT_CRF_GRFR_REPORT_FORMAT_NAME => 81
  | CLIENT_CRF_GRFR_REPORT_FORMAT_PARAM => 82
  | CLIENT_CRF_GRFR_REPORT_FORMAT_PARAM_NAME => 83
  | CLIENT_CRF_GRFR_REPORT_FORMAT_PARAM_VALUE => 84
  | CLIENT_CRF_GRFR_REPORT_FORMAT_SIGNATURE => 85
  | CLIENT_CRF_GRFR_REPORT_FORMAT_SUMMARY => 86
  | CLIENT_CRF_GRFR_REPORT_FORMAT_TRUST => 87
  | CLIENT_CREATE_SCHEDULE => 88
  | CLIENT_CREATE_SCHEDULE_NAME => 89
  | CLIENT_CREATE_SCHEDULE_COMMENT => 90
  | CLIENT_CREATE_SCHEDULE_FIRST_TIME => 91
  | CLIENT_CREATE_SCHEDULE_FIRST_TIME_DAY_OF_MONTH => 92
  | CLIENT_CREATE_SCHEDULE_FIRST_TIME_HOUR => 93
  | CLIENT_CREATE_SCHEDULE_FIRST_TIME_MINUTE => 94
  | CLIENT_CREATE_SCHEDULE_FIRST_TIME_MONTH => 95
  | CLIENT_CREATE_SCHEDULE_FIRST_TIME_YEAR => 96
  | CLIENT_CREATE_SCHEDULE_DURATION => 97
  | CLIENT_CREATE_SCHEDULE_DURATION_UNIT => 98
  | CLIENT_CREATE_SCHEDULE_PERIOD => 99
  | CLIENT_CREATE_SCHEDULE_PERIOD_UNIT => 100
  | CLIENT_CREATE_SLAVE => 101
  | CLIENT_CREATE_SLAVE_COMMENT => 102
  | CLIENT_CREATE_SLAVE_HOST => 103
  | CLIENT_CREATE_SLAVE_LOGIN => 104
  | CLIENT_CREATE_SLAVE_NAME => 105
  | CLIENT_CREATE_SLAVE_PASSWORD => 106
  | CLIENT_CREATE_SLAVE_PORT => 107
  | CLIENT_CREATE_TARGET => 108
  | CLIENT_CREATE_TARGET_COMMENT => 109
  | CLIENT_CREATE_TARGET_HOSTS => 110
  | CLIENT_CREATE_TARGET_LSC_CREDENTIAL => 111
  | CLIENT_CREATE_TARGET_NAME => 112
  | CLIENT_CREATE_TARGET_TARGET_LOCATOR => 113
  | CLIENT_CREATE_TARGET_TARGET_LOCATOR_PASSWORD => 114
  | CLIENT_CREATE_TARGET_TARGET_LOCATOR_USERNAME => 115
  | CLIENT_CREATE_TASK => 116
  | CLIENT_CREATE_TASK_COMMENT => 117
  | CLIENT_CREATE_TASK_CONFIG => 118
  | CLIENT_CREATE_TASK_ESCALATOR => 119
  | CLIENT_CREATE_TASK_NAME => 120
  | CLIENT_CREATE_TASK_RCFILE => 121
  | CLIENT_CREATE_TASK_SCHEDULE => 122
  | CLIENT_CREATE_TASK_SLAVE => 123
  | CLIENT_CREATE_TASK_TARGET => 124
  | CLIENT_DELETE_AGENT => 125
  | CLIENT_DELETE_CONFIG => 126
  | CLIENT_DELETE_ESCALATOR => 127
  | CLIENT_DELETE_LSC_CREDENTIAL => 128
  | CLIENT_DELETE_NOTE => 129
  | CLIENT_DELETE_OVERRIDE => 130
  | CLIENT_DELETE_REPORT => 131
  | CLIENT_DELETE_REPORT_FORMAT => 132
  | CLIENT_DELETE_SCHEDULE => 133
  | CLIENT_DELETE_SLAVE => 134
  | CLIENT_DELETE_TASK => 135
  | CLIENT_DELETE_TARGET => 136
  | CLIENT_GET_AGENTS => 137
  | CLIENT_GET_CONFIGS => 138
  | CLIENT_GET_DEPENDENCIES => 139
  | CLIENT_GET_ESCALATORS => 140
  | CLIENT_GET_LSC_CREDENTIALS => 141
  | CLIENT_GET_NOTES => 142
  | CLIENT_GET_NVTS => 143
  | CLIENT_GET_NVT_FAMILIES => 144
  | CLIENT_GET_NVT_FEED_CHECKSUM => 145
  | CLIENT_GET_OVERRIDES => 146
  | CLIENT_GET_PREFERENCES => 147
  | CLIENT_GET_REPORTS => 148
  | CLIENT_GET_REPORT_FORMATS => 149
  | CLIENT_GET_RESULTS => 150
  | CLIENT_GET_SCHEDULES => 151
  | CLIENT_GET_SLAVES => 152
  | CLIENT_GET_SYSTEM_REPORTS => 153
  | CLIENT_GET_TARGET_LOCATORS => 154
  | CLIENT_GET_TARGETS => 155
  | CLIENT_GET_TASKS => 156
  | CLIENT_GET_VERSION => 157
  | CLIENT_GET_VERSION_AUTHENTIC => 158
  | CLIENT_HELP => 159
  | CLIENT_MODIFY_REPORT => 160
  | CLIENT_MODIFY_REPORT_COMMENT => 161
  | CLIENT_MODIFY_REPORT_FORMAT => 162
  | CLIENT_MODIFY_REPORT_FORMAT_NAME => 163
  | CLIENT_MODIFY_REPORT_FORMAT_SUMMARY => 164
  | CLIENT_MODIFY_CONFIG => 165
  | CLIENT_MODIFY_CONFIG_PREFERENCE => 166
  | CLIENT_MODIFY_CONFIG_PREFERENCE_NAME => 167
  | CLIENT_MODIFY_CONFIG_PREFERENCE_NVT => 168
  | CLIENT_MODIFY_CONFIG_PREFERENCE_VALUE => 169
  | CLIENT_MODIFY_CONFIG_FAMILY_SELECTION => 170
  | CLIENT_MODIFY_CONFIG_FAMILY_SELECTION_FAMILY => 171
  | CLIENT_MODIFY_CONFIG_FAMILY_SELECTION_FAMILY_ALL => 172
  | CLIENT_MODIFY_CONFIG_FAMILY_SELECTION_FAMILY_GROWING => 173
  | CLIENT_MODIFY_CONFIG_FAMILY_SELECTION_FAMILY_NAME => 174
  | CLIENT_MODIFY_CONFIG_FAMILY_SELECTION_GROWING => 175
  | CLIENT_MODIFY_CONFIG_NVT_SELECTION => 176
  | CLIENT_MODIFY_CONFIG_NVT_SELECTION_FAMILY => 177
  | CLIENT_MODIFY_CONFIG_NVT_SELECTION_NVT => 178
  | CLIENT_MODIFY_NOTE => 179
  | CLIENT_MODIFY_NOTE_HOSTS => 180
  | CLIENT_MODIFY_NOTE_PORT => 181
  | CLIENT_MODIFY_NOTE_RESULT => 182
  | CLIENT_MODIFY_NOTE_TASK => 183
  | CLIENT_MODIFY_NOTE_TEXT => 184
  | CLIENT_MODIFY_NOTE_THREAT => 185
  | CLIENT_MODIFY_OVERRIDE => 186
  | CLIENT_MODIFY_OVERRIDE_HOSTS => 187
  | CLIENT_MODIFY_OVERRIDE_NEW_THREAT => 188
  | CLIENT_MODIFY_OVERRIDE_PORT => 189
  | CLIENT_MODIFY_OVERRIDE_RESULT => 190
  | CLIENT_MODIFY_OVERRIDE_TASK => 191
  | CLIENT_MODIFY_OVERRIDE_TEXT => 192
  | CLIENT_MODIFY_OVERRIDE_THREAT => 193
  | CLIENT_MODIFY_TASK => 194
  | CLIENT_MODIFY_TASK_COMMENT => 195
  | CLIENT_MODIFY_TASK_ESCALATOR => 196
  | CLIENT_MODIFY_TASK_FILE => 197
  | CLIENT_MODIFY_TASK_NAME => 198
  | CLIENT_MODIFY_TASK_RCFILE => 199
  | CLIENT_MODIFY_TASK_SCHEDULE => 200
  | CLIENT_PAUSE_TASK => 201
  | CLIENT_RESUME_OR_START_TASK => 202
  | CLIENT_RESUME_PAUSED_TASK => 203
  | CLIENT_RESUME_STOPPED_TASK => 204
  | CLIENT_START_TASK => 205
  | CLIENT_STOP_TASK => 206
  | CLIENT_TEST_ESCALATOR => 207
  | CLIENT_VERIFY_AGENT => 208
  | CLIENT_VERIFY_REPORT_FORMAT => 209
  end.

Definition client_state_eqb (s t : client_state_t) : bool :=
  client_state_value s =? client_state_value t.

(** ** The element tables of [omp_xml_handle_start_element]

    Each case of the switch is a chain of [strcasecmp] tests on the element
    name, in this order, each setting the state of the child, and a last
    branch for any other name. *)

(** The commands accepted in [CLIENT_AUTHENTIC] and
    [CLIENT_AUTHENTIC_COMMANDS], with the state each one opens. *)
Definition authentic_commands : list (string * client_state_t) :=
  [ ("AUTHENTICATE", CLIENT_AUTHENTICATE);
    ("COMMANDS", CLIENT_AUTHENTIC_COMMANDS);
    ("CREATE_AGENT", CLIENT_CREATE_AGENT);
    ("CREATE_CONFIG", CLIENT_CREATE_CONFIG);
    ("CREATE_ESCALATOR", CLIENT_CREATE_ESCALATOR);
    ("CREATE_LSC_CREDENTIAL", CLIENT_CREATE_LSC_CREDENTIAL);
    ("CREATE_NOTE", CLIENT_CREATE_NOTE);
    ("CREATE_OVERRIDE", CLIENT_CREATE_OVERRIDE);
    ("CREATE_REPORT_FORMAT", CLIENT_CREATE_REPORT_FORMAT);
    ("CREATE_SLAVE", CLIENT_CREATE_SLAVE);
    ("CREATE_SCHEDULE", CLIENT_CREATE_SCHEDULE);
    ("CREATE_TARGET", CLIENT_CREATE_TARGET);
    ("CREATE_TASK", CLIENT_CREATE_TASK);
    ("DELETE_AGENT", CLIENT_DELETE_AGENT);
    ("DELETE_CONFIG", CLIENT_DELETE_CONFIG);
    ("DELETE_ESCALATOR", CLIENT_DELETE_ESCALATOR);
    ("DELETE_LSC_CREDENTIAL", CLIENT_DELETE_LSC_CREDENTIAL);
    ("DELETE_NOTE", CLIENT_DELETE_NOTE);
    ("DELETE_OVERRIDE", CLIENT_DELETE_OVERRIDE);
    ("DELETE_REPORT", CLIENT_DELETE_REPORT);
    ("DELETE_REPORT_FORMAT", CLIENT_DELETE_REPORT_FORMAT);
    ("DELETE_SCHEDULE", CLIENT_DELETE_SCHEDULE);
    ("DELETE_SLAVE", CLIENT_DELETE_SLAVE);
    ("DELETE_TARGET", CLIENT_DELETE_TARGET);
    ("DELETE_TASK", CLIENT_DELETE_TASK);
    ("GET_AGENTS", CLIENT_GET_AGENTS);
    ("GET_CONFIGS", CLIENT_GET_CONFIGS);
    ("GET_DEPENDENCIES", CLIENT_GET_DEPENDENCIES);
    ("GET_ESCALATORS", CLIENT_GET_ESCALATORS);
    ("GET_LSC_CREDENTIALS", CLIENT_GET_LSC_CREDENTIALS);
    ("GET_NOTES", CLIENT_GET_NOTES);
    ("GET_NVT_FEED_CHECKSUM", CLIENT_GET_NVT_FEED_CHECKSUM);
    ("GET_NVTS", CLIENT_GET_NVTS);
    ("GET_NVT_FAMILIES", CLIENT_GET_NVT_FAMILIES);
    ("GET_OVERRIDES", CLIENT_GET_OVERRIDES);
    ("GET_PREFERENCES", CLIENT_GET_PREFERENCES);
    ("GET_REPORTS", CLIENT_GET_REPORTS);
    ("GET_REPORT_FORMATS", CLIENT_GET_REPORT_FORMATS);
    ("GET_RESULTS", CLIENT_GET_RESULTS);
    ("GET_SCHEDULES", CLIENT_GET_SCHEDULES);
    ("GET_SLAVES", CLIENT_GET_SLAVES);
    ("GET_TARGET_LOCATORS", CLIENT_GET_TARGET_LOCATORS);
    ("GET_SYSTEM_REPORTS", CLIENT_GET_SYSTEM_REPORTS);
    ("GET_TARGETS", CLIENT_GET_TARGETS);
    ("GET_TASKS", CLIENT_GET_TASKS);
    ("GET_VERSION", CLIENT_GET_VERSION_AUTHENTIC);
    ("HELP", CLIENT_HELP);
    ("MODIFY_CONFIG", CLIENT_MODIFY_CONFIG);
    ("MODIFY_NOTE", CLIENT_MODIFY_NOTE);
    ("MODIFY_OVERRIDE", CLIENT_MODIFY_OVERRIDE);
    ("MODIFY_REPORT", CLIENT_MODIFY_REPORT);
    ("MODIFY_REPORT_FORMAT", CLIENT_MODIFY_REPORT_FORMAT);
    ("MODIFY_TASK", CLIENT_MODIFY_TASK);
    ("PAUSE_TASK", CLIENT_PAUSE_TASK);
    ("RESUME_OR_START_TASK", CLIENT_RESUME_OR_START_TASK);
    ("RESUME_PAUSED_TASK", CLIENT_RESUME_PAUSED_TASK);
    ("RESUME_STOPPED_TASK", CLIENT_RESUME_STOPPED_TASK);
    ("START_TASK", CLIENT_START_TASK);
    ("STOP_TASK", CLIENT_STOP_TASK);
    ("TEST_ESCALATOR", CLIENT_TEST_ESCALATOR);
    ("VERIFY_AGENT", CLIENT_VERIFY_AGENT);
    ("VERIFY_REPORT_FORMAT", CLIENT_VERIFY_REPORT_FORMAT) ].

(** A case inside a command: the accepted children, and for any other element
    the command named in the error response and the state set afterwards. *)
Record start_case : Type := Build_start_case {
  bogus_command : string;
  bogus_state : client_state_t;
  children : list (string * client_state_t)
}.

(** The cases of the switch below the top level; [None] is its default. *)
Definition start_element_case (s : client_state_t) : option start_case :=
  match s with
  | CLIENT_AUTHENTICATE =>
      Some (Build_start_case "authenticate" CLIENT_TOP
        [ ("CREDENTIALS", CLIENT_AUTHENTICATE_CREDENTIALS) ])
  | CLIENT_AUTHENTICATE_CREDENTIALS =>
      Some (Build_start_case "authenticate" CLIENT_TOP
        [ ("USERNAME", CLIENT_AUTHENTICATE_CREDENTIALS_USERNAME);
          ("PASSWORD", CLIENT_AUTHENTICATE_CREDENTIALS_PASSWORD) ])
  | CLIENT_CREATE_SCHEDULE =>
      Some (Build_start_case "create_schedule" CLIENT_AUTHENTIC
        [ ("COMMENT", CLIENT_CREATE_SCHEDULE_COMMENT);
          ("DURATION", CLIENT_CREATE_SCHEDULE_DURATION);
          ("FIRST_TIME", CLIENT_CREATE_SCHEDULE_FIRST_TIME);
          ("NAME", CLIENT_CREATE_SCHEDULE_NAME);
          ("PERIOD", CLIENT_CREATE_SCHEDULE_PERIOD) ])
  | CLIENT_CREATE_SCHEDULE_FIRST_TIME =>
      Some (Build_start_case "create_schedule" CLIENT_AUTHENTIC
        [ ("DAY_OF_MONTH", CLIENT_CREATE_SCHEDULE_FIRST_TIME_DAY_OF_MONTH);
          ("HOUR", CLIENT_CREATE_SCHEDULE_FIRST_TIME_HOUR);
          ("MINUTE", CLIENT_CREATE_SCHEDULE_FIRST_TIME_MINUTE);
          ("MONTH", CLIENT_CREATE_SCHEDULE_FIRST_TIME_MONTH);
          ("YEAR", CLIENT_CREATE_SCHEDULE_FIRST_TIME_YEAR) ])
  | CLIENT_CREATE_SCHEDULE_DURATION =>
      Some (Build_start_case "create_schedule" CLIENT_AUTHENTIC
        [ ("UNIT", CLIENT_CREATE_SCHEDULE_DURATION_UNIT) ])
  | CLIENT_CREATE_SCHEDULE_PERIOD =>
      Some (Build_start_case "create_schedule" CLIENT_AUTHENTIC
        [ ("UNIT", CLIENT_CREATE_SCHEDULE_PERIOD_UNIT) ])
  | CLIENT_CREATE_SCHEDULE_COMMENT =>
      Some (Build_start_case "create_schedule" CLIENT_AUTHENTIC
        [])
  | CLIENT_CREATE_SCHEDULE_NAME =>
      Some (Build_start_case "create_schedule" CLIENT_AUTHENTIC
        [])
  | CLIENT_CREATE_SCHEDULE_FIRST_TIME_DAY_OF_MONTH =>
      Some (Build_start_case "create_schedule" CLIENT_AUTHENTIC
        [])
  | CLIENT_CREATE_SCHEDULE_FIRST_TIME_HOUR =>
      Some (Build_start_case "create_schedule" CLIENT_AUTHENTIC
        [])
  | CLIENT_CREATE_SCHEDULE_FIRST_TIME_MINUTE =>
      Some (Build_start_case "create_schedule" CLIENT_AUTHENTIC
        [])
  | CLIENT_CREATE_SCHEDULE_FIRST_TIME_MONTH =>
      Some (Build_start_case "create_schedule" CLIENT_AUTHENTIC
        [])
  | CLIENT_CREATE_SCHEDULE_FIRST_TIME_YEAR =>
      Some (Build_start_case "create_schedule" CLIENT_AUTHENTIC
        [])
  | CLIENT_CREATE_SCHEDULE_DURATION_UNIT =>
      Some (Build_start_case "create_schedule" CLIENT_AUTHENTIC
        [])
  | CLIENT_CREATE_SCHEDULE_PERIOD_UNIT =>
      Some (Build_start_case "create_schedule" CLIENT_AUTHENTIC
        [])
  | CLIENT_DELETE_AGENT =>
      Some (Build_start_case "delete_agent" CLIENT_AUTHENTIC
        [])
  | CLIENT_DELETE_CONFIG =>
      Some (Build_start_case "delete_config" CLIENT_AUTHENTIC
        [])
  | CLIENT_DELETE_ESCALATOR =>
      Some (Build_start_case "delete_escalator" CLIENT_AUTHENTIC
        [])
  | CLIENT_DELETE_LSC_CREDENTIAL =>
      Some (Build_start_case "delete_lsc_credential" CLIENT_AUTHENTIC
        [])
  | CLIENT_DELETE_NOTE =>
      Some (Build_start_case "delete_note" CLIENT_AUTHENTIC
        [])
  | CLIENT_DELETE_OVERRIDE =>
      Some (Build_start_case "delete_override" CLIENT_AUTHENTIC
        [])
  | CLIENT_DELETE_REPORT =>
      Some (Build_start_case "delete_report" CLIENT_AUTHENTIC
        [])
  | CLIENT_DELETE_REPORT_FORMAT =>
      Some (Build_start_case "delete_report_format" CLIENT_AUTHENTIC
        [])
  | CLIENT_DELETE_SCHEDULE =>
      Some (Build_start_case "delete_schedule" CLIENT_AUTHENTIC
        [])
  | CLIENT_DELETE_SLAVE =>
      Some (Build_start_case "delete_slave" CLIENT_AUTHENTIC
        [])
  | CLIENT_DELETE_TARGET =>
      Some (Build_start_case "delete_target" CLIENT_AUTHENTIC
        [])
  | CLIENT_DELETE_TASK =>
      Some (Build_start_case "delete_task" CLIENT_AUTHENTIC
        [])
  | CLIENT_GET_AGENTS =>
      Some (Build_start_case "get_agents" CLIENT_AUTHENTIC
        [])
  | CLIENT_GET_CONFIGS =>
      Some (Build_start_case "get_configs" CLIENT_AUTHENTIC
        [])
  | CLIENT_GET_DEPENDENCIES =>
      Some (Build_start_case "get_dependencies" CLIENT_AUTHENTIC
        [])
  | CLIENT_GET_ESCALATORS =>
      Some (Build_start_case "get_escalators" CLIENT_AUTHENTIC
        [])
  | CLIENT_GET_LSC_CREDENTIALS =>
      Some (Build_start_case "get_lsc_credentials" CLIENT_AUTHENTIC
        [])
  | CLIENT_GET_NOTES =>
      Some (Build_start_case "get_notes" CLIENT_AUTHENTIC
        [])
  | CLIENT_GET_NVT_FEED_CHECKSUM =>
      Some (Build_start_case "get_nvt_feed_checksum" CLIENT_AUTHENTIC
        [])
  | CLIENT_GET_NVTS =>
      Some (Build_start_case "get_nvts" CLIENT_AUTHENTIC
        [])
  | CLIENT_GET_NVT_FAMILIES =>
      Some (Build_start_case "get_nvt_families" CLIENT_AUTHENTIC
        [])
  | CLIENT_GET_OVERRIDES =>
      Some (Build_start_case "get_overrides" CLIENT_AUTHENTIC
        [])
  | CLIENT_GET_PREFERENCES =>
      Some (Build_start_case "get_preferences" CLIENT_AUTHENTIC
        [])
  | CLIENT_GET_REPORTS =>
      Some (Build_start_case "get_reports" CLIENT_AUTHENTIC
        [])
  | CLIENT_GET_REPORT_FORMATS =>
      Some (Build_start_case "get_report_formats" CLIENT_AUTHENTIC
        [])
  | CLIENT_GET_RESULTS =>
      Some (Build_start_case "get_results" CLIENT_AUTHENTIC
        [])
  | CLIENT_GET_SCHEDULES =>
      Some (Build_start_case "get_schedules" CLIENT_AUTHENTIC
        [])
  | CLIENT_GET_SLAVES =>
      Some (Build_start_case "get_slaves" CLIENT_AUTHENTIC
        [])
  | CLIENT_GET_SYSTEM_REPORTS =>
      Some (Build_start_case "get_system_reports" CLIENT_AUTHENTIC
        [])
  | CLIENT_GET_TARGETS =>
      Some (Build_start_case "get_targets" CLIENT_AUTHENTIC
        [])
  | CLIENT_GET_TARGET_LOCATORS =>
      Some (Build_start_case "get_target_locators" CLIENT_AUTHENTIC
        [])
  | CLIENT_GET_TASKS =>
      Some (Build_start_case "get_tasks" CLIENT_AUTHENTIC
        [])
  | CLIENT_HELP =>
      Some (Build_start_case "help" CLIENT_AUTHENTIC
        [])
  | CLIENT_MODIFY_CONFIG =>
      Some (Build_start_case "modify_config" CLIENT_AUTHENTIC
        [ ("FAMILY_SELECTION", CLIENT_MODIFY_CONFIG_FAMILY_SELECTION);
          ("NVT_SELECTION", CLIENT_MODIFY_CONFIG_NVT_SELECTION);
          ("PREFERENCE", CLIENT_MODIFY_CONFIG_PREFERENCE) ])
  | CLIENT_MODIFY_CONFIG_NVT_SELECTION =>
      Some (Build_start_case "modify_config" CLIENT_AUTHENTIC
        [ ("FAMILY", CLIENT_MODIFY_CONFIG_NVT_SELECTION_FAMILY);
          ("NVT", CLIENT_MODIFY_CONFIG_NVT_SELECTION_NVT) ])
  | CLIENT_MODIFY_CONFIG_FAMILY_SELECTION =>
      Some (Build_start_case "modify_config" CLIENT_AUTHENTIC
        [ ("FAMILY", CLIENT_MODIFY_CONFIG_FAMILY_SELECTION_FAMILY);
          ("GROWING", CLIENT_MODIFY_CONFIG_FAMILY_SELECTION_GROWING) ])
  | CLIENT_MODIFY_CONFIG_FAMILY_SELECTION_FAMILY =>
      Some (Build_start_case "modify_config" CLIENT_AUTHENTIC
        [ ("ALL", CLIENT_MODIFY_CONFIG_FAMILY_SELECTION_FAMILY_ALL);
          ("GROWING", CLIENT_MODIFY_CONFIG_FAMILY_SELECTION_FAMILY_GROWING);
          ("NAME", CLIENT_MODIFY_CONFIG_FAMILY_SELECTION_FAMILY_NAME) ])
  | CLIENT_MODIFY_CONFIG_PREFERENCE =>
      Some (Build_start_case "modify_config" CLIENT_AUTHENTIC
        [ ("NAME", CLIENT_MODIFY_CONFIG_PREFERENCE_NAME);
          ("NVT", CLIENT_MODIFY_CONFIG_PREFERENCE_NVT);
          ("VALUE", CLIENT_MODIFY_CONFIG_PREFERENCE_VALUE) ])
  | CLIENT_MODIFY_REPORT =>
      Some (Build_start_case "modify_report" CLIENT_AUTHENTIC
        [ ("COMMENT", CLIENT_MODIFY_REPORT_COMMENT) ])
  | CLIENT_MODIFY_REPORT_FORMAT =>
      Some (Build_start_case "modify_report_format" CLIENT_AUTHENTIC
        [ ("NAME", CLIENT_MODIFY_REPORT_FORMAT_NAME);
          ("SUMMARY", CLIENT_MODIFY_REPORT_FORMAT_SUMMARY) ])
  | CLIENT_MODIFY_TASK =>
      Some (Build_start_case "modify_task" CLIENT_AUTHENTIC
        [ ("COMMENT", CLIENT_MODIFY_TASK_COMMENT);
          ("ESCALATOR", CLIENT_MODIFY_TASK_ESCALATOR);
          ("NAME", CLIENT_MODIFY_TASK_NAME);
          ("RCFILE", CLIENT_MODIFY_TASK_RCFILE);
          ("SCHEDULE", CLIENT_MODIFY_TASK_SCHEDULE);
          ("FILE", CLIENT_MODIFY_TASK_FILE) ])
  | CLIENT_CREATE_AGENT =>
      Some (Build_start_case "create_agent" CLIENT_AUTHENTIC
        [ ("COMMENT", CLIENT_CREATE_AGENT_COMMENT);
          ("HOWTO_INSTALL", CLIENT_CREATE_AGENT_HOWTO_INSTALL);
          ("HOWTO_USE", CLIENT_CREATE_AGENT_HOWTO_USE);
          ("INSTALLER", CLIENT_CREATE_AGENT_INSTALLER);
          ("NAME", CLIENT_CREATE_AGENT_NAME) ])
  | CLIENT_CREATE_AGENT_INSTALLER =>
      Some (Build_start_case "create_agent" CLIENT_AUTHENTIC
        [ ("FILENAME", CLIENT_CREATE_AGENT_INSTALLER_FILENAME);
          ("SIGNATURE", CLIENT_CREATE_AGENT_INSTALLER_SIGNATURE) ])
  | CLIENT_CREATE_CONFIG =>
      Some (Build_start_case "create_config" CLIENT_AUTHENTIC
        [ ("COMMENT", CLIENT_CREATE_CONFIG_COMMENT);
          ("COPY", CLIENT_CREATE_CONFIG_COPY);
          ("GET_CONFIGS_RESPONSE", CLIENT_C_C_GCR);
          ("NAME", CLIENT_CREATE_CONFIG_NAME);
          ("RCFILE", CLIENT_CREATE_CONFIG_RCFILE) ])
  | CLIENT_C_C_GCR =>
      Some (Build_start_case "create_config" CLIENT_AUTHENTIC
        [ ("CONFIG", CLIENT_C_C_GCR_CONFIG) ])
  | CLIENT_C_C_GCR_CONFIG =>
      Some (Build_start_case "create_config" CLIENT_AUTHENTIC
        [ ("COMMENT", CLIENT_C_C_GCR_CONFIG_COMMENT);
          ("NAME", CLIENT_C_C_GCR_CONFIG_NAME);
          ("NVT_SELECTORS", CLIENT_C_C_GCR_CONFIG_NVT_SELECTORS);
          ("PREFERENCES", CLIENT_C_C_GCR_CONFIG_PREFERENCES) ])
  | CLIENT_C_C_GCR_CONFIG_NVT_SELECTORS =>
      Some (Build_start_case "create_config" CLIENT_AUTHENTIC
        [ ("NVT_SELECTOR", CLIENT_C_C_GCR_CONFIG_NVT_SELECTORS_NVT_SELECTOR) ])
  | CLIENT_C_C_GCR_CONFIG_NVT_SELECTORS_NVT_SELECTOR =>
      Some (Build_start_case "create_config" CLIENT_AUTHENTIC
        [ ("INCLUDE", CLIENT_C_C_GCR_CONFIG_NVT_SELECTORS_NVT_SELECTOR_INCLUDE);
          ("NAME", CLIENT_C_C_GCR_CONFIG_NVT_SELECTORS_NVT_SELECTOR_NAME);
          ("TYPE", CLIENT_C_C_GCR_CONFIG_NVT_SELECTORS_NVT_SELECTOR_TYPE);
          ("FAMILY_OR_NVT", CLIENT_C_C_GCR_CONFIG_NVT_SELECTORS_NVT_SELECTOR_FAMILY_OR_NVT) ])
  | CLIENT_C_C_GCR_CONFIG_PREFERENCES =>
      Some (Build_start_case "create_config" CLIENT_AUTHENTIC
        [ ("PREFERENCE", CLIENT_C_C_GCR_CONFIG_PREFERENCES_PREFERENCE) ])
  | CLIENT_C_C_GCR_CONFIG_PREFERENCES_PREFERENCE =>
      Some (Build_start_case "create_config" CLIENT_AUTHENTIC
        [ ("ALT", CLIENT_C_C_GCR_CONFIG_PREFERENCES_PREFERENCE_ALT);
          ("NAME", CLIENT_C_C_GCR_CONFIG_PREFERENCES_PREFERENCE_NAME);
          ("NVT", CLIENT_C_C_GCR_CONFIG_PREFERENCES_PREFERENCE_NVT);
          ("TYPE", CLIENT_C_C_GCR_CONFIG_PREFERENCES_PREFERENCE_TYPE);
          ("VALUE", CLIENT_C_C_GCR_CONFIG_PREFERENCES_PREFERENCE_VALUE) ])
  | CLIENT_C_C_GCR_CONFIG_PREFERENCES_PREFERENCE_NVT =>
      Some (Build_start_case "create_config" CLIENT_AUTHENTIC
        [ ("NAME", CLIENT_C_C_GCR_CONFIG_PREFERENCES_PREFERENCE_NVT_NAME) ])
  | CLIENT_C_C_GCR_CONFIG_COMMENT =>
      Some (Build_start_case "create_config" CLIENT_AUTHENTIC
        [])
  | CLIENT_C_C_GCR_CONFIG_NAME =>
      Some (Build_start_case "create_config" CLIENT_AUTHENTIC
        [])
  | CLIENT_C_C_GCR_CONFIG_NVT_SELECTORS_NVT_SELECTOR_INCLUDE =>
      Some (Build_start_case "create_config" CLIENT_AUTHENTIC
        [])
  | CLIENT_C_C_GCR_CONFIG_NVT_SELECTORS_NVT_SELECTOR_NAME =>
      Some (Build_start_case "create_config" CLIENT_AUTHENTIC
        [])
  | CLIENT_C_C_GCR_CONFIG_NVT_SELECTORS_NVT_SELECTOR_TYPE =>
      Some (Build_start_case "create_config" CLIENT_AUTHENTIC
        [])
  | CLIENT_C_C_GCR_CONFIG_NVT_SELECTORS_NVT_SELECTOR_FAMILY_OR_NVT =>
      Some (Build_start_case "create_config" CLIENT_AUTHENTIC
        [])
  | CLIENT_C_C_GCR_CONFIG_PREFERENCES_PREFERENCE_ALT =>
      Some (Build_start_case "create_config" CLIENT_AUTHENTIC
        [])
  | CLIENT_C_C_GCR_CONFIG_PREFERENCES_PREFERENCE_NAME =>
      Some (Build_start_case "create_config" CLIENT_AUTHENTIC
        [])
  | CLIENT_C_C_GCR_CONFIG_PREFERENCES_PREFERENCE_NVT_NAME =>
      Some (Build_start_case "create_config" CLIENT_AUTHENTIC
        [])
  | CLIENT_C_C_GCR_CONFIG_PREFERENCES_PREFERENCE_TYPE =>
      Some (Build_start_case "create_config" CLIENT_AUTHENTIC
        [])
  | CLIENT_C_C_GCR_CONFIG_PREFERENCES_PREFERENCE_VALUE =>
      Some (Build_start_case "create_config" CLIENT_AUTHENTIC
        [])
  | CLIENT_CREATE_ESCALATOR =>
      Some (Build_start_case "create_escalator" CLIENT_AUTHENTIC
        [ ("COMMENT", CLIENT_CREATE_ESCALATOR_COMMENT);
          ("CONDITION", CLIENT_CREATE_ESCALATOR_CONDITION);
          ("EVENT", CLIENT_CREATE_ESCALATOR_EVENT);
          ("METHOD", CLIENT_CREATE_ESCALATOR_METHOD);
          ("NAME", CLIENT_CREATE_ESCALATOR_NAME) ])
  | CLIENT_CREATE_ESCALATOR_CONDITION =>
      Some (Build_start_case "create_escalator" CLIENT_AUTHENTIC
        [ ("DATA", CLIENT_CREATE_ESCALATOR_CONDITION_DATA) ])
  | CLIENT_CREATE_ESCALATOR_CONDITION_DATA =>
      Some (Build_start_case "create_escalator" CLIENT_AUTHENTIC
        [ ("NAME", CLIENT_CREATE_ESCALATOR_CONDITION_DATA_NAME) ])
  | CLIENT_CREATE_ESCALATOR_EVENT =>
      Some (Build_start_case "create_escalator" CLIENT_AUTHENTIC
        [ ("DATA", CLIENT_CREATE_ESCALATOR_EVENT_DATA) ])
  | CLIENT_CREATE_ESCALATOR_EVENT_DATA =>
      Some (Build_start_case "create_escalator" CLIENT_AUTHENTIC
        [ ("NAME", CLIENT_CREATE_ESCALATOR_EVENT_DATA_NAME) ])
  | CLIENT_CREATE_ESCALATOR_METHOD =>
      Some (Build_start_case "create_escalator" CLIENT_AUTHENTIC
        [ ("DATA", CLIENT_CREATE_ESCALATOR_METHOD_DATA) ])
  | CLIENT_CREATE_ESCALATOR_METHOD_DATA =>
      Some (Build_start_case "create_escalator" CLIENT_AUTHENTIC
        [ ("NAME", CLIENT_CREATE_ESCALATOR_METHOD_DATA_NAME) ])
  | CLIENT_CREATE_LSC_CREDENTIAL =>
      Some (Build_start_case "create_lsc_credential" CLIENT_AUTHENTIC
        [ ("COMMENT", CLIENT_CREATE_LSC_CREDENTIAL_COMMENT);
          ("LOGIN", CLIENT_CREATE_LSC_CREDENTIAL_LOGIN);
          ("NAME", CLIENT_CREATE_LSC_CREDENTIAL_NAME);
          ("PASSWORD", CLIENT_CREATE_LSC_CREDENTIAL_PASSWORD) ])
  | CLIENT_CREATE_NOTE =>
      Some (Build_start_case "create_note" CLIENT_AUTHENTIC
        [ ("HOSTS", CLIENT_CREATE_NOTE_HOSTS);
          ("NVT", CLIENT_CREATE_NOTE_NVT);
          ("PORT", CLIENT_CREATE_NOTE_PORT);
          ("RESULT", CLIENT_CREATE_NOTE_RESULT);
          ("TASK", CLIENT_CREATE_NOTE_TASK);
          ("TEXT", CLIENT_CREATE_NOTE_TEXT);
          ("THREAT", CLIENT_CREATE_NOTE_THREAT) ])
  | CLIENT_CREATE_REPORT_FORMAT =>
      Some (Build_start_case "create_report_format" CLIENT_AUTHENTIC
        [ ("GET_REPORT_FORMATS_RESPONSE", CLIENT_CRF_GRFR) ])
  | CLIENT_CRF_GRFR =>
      Some (Build_start_case "create_report_format" CLIENT_AUTHENTIC
        [ ("REPORT_FORMAT", CLIENT_CRF_GRFR_REPORT_FORMAT) ])
  | CLIENT_CRF_GRFR_REPORT_FORMAT =>
      Some (Build_start_case "create_report_format" CLIENT_AUTHENTIC
        [ ("CONTENT_TYPE", CLIENT_CRF_GRFR_REPORT_FORMAT_CONTENT_TYPE);
          ("DESCRIPTION", CLIENT_CRF_GRFR_REPORT_FORMAT_DESCRIPTION);
          ("EXTENSION", CLIENT_CRF_GRFR_REPORT_FORMAT_EXTENSION);
          ("GLOBAL", CLIENT_CRF_GRFR_REPORT_FORMAT_GLOBAL);
          ("FILE", CLIENT_CRF_GRFR_REPORT_FORMAT_FILE);
          ("NAME", CLIENT_CRF_GRFR_REPORT_FORMAT_NAME);
          ("PARAM", CLIENT_CRF_GRFR_REPORT_FORMAT_PARAM);
          ("SIGNATURE", CLIENT_CRF_GRFR_REPORT_FORMAT_SIGNATURE);
          ("SUMMARY", CLIENT_CRF_GRFR_REPORT_FORMAT_SUMMARY);
          ("TRUST", CLIENT_CRF_GRFR_REPORT_FORMAT_TRUST) ])
  | CLIENT_CRF_GRFR_REPORT_FORMAT_CONTENT_TYPE =>
      Some (Build_start_case "create_report_format" CLIENT_AUTHENTIC
        [])
  | CLIENT_CRF_GRFR_REPORT_FORMAT_DESCRIPTION =>
      Some (Build_start_case "create_report_format" CLIENT_AUTHENTIC
        [])
  | CLIENT_CRF_GRFR_REPORT_FORMAT_EXTENSION =>
      Some (Build_start_case "create_report_format" CLIENT_AUTHENTIC
        [])
  | CLIENT_CRF_GRFR_REPORT_FORMAT_FILE =>
      Some (Build_start_case "create_report_format" CLIENT_AUTHENTIC
        [])
  | CLIENT_CRF_GRFR_REPORT_FORMAT_GLOBAL =>
      Some (Build_start_case "create_report_format" CLIENT_AUTHENTIC
        [])
  | CLIENT_CRF_GRFR_REPORT_FORMAT_NAME =>
      Some (Build_start_case "create_report_format" CLIENT_AUTHENTIC
        [])
  | CLIENT_CRF_GRFR_REPORT_FORMAT_PARAM =>
      Some (Build_start_case "create_report_format" CLIENT_AUTHENTIC
        [ ("NAME", CLIENT_CRF_GRFR_REPORT_FORMAT_PARAM_NAME);
          ("VALUE", CLIENT_CRF_GRFR_REPORT_FORMAT_PARAM_VALUE) ])
  | CLIENT_CRF_GRFR_REPORT_FORMAT_PARAM_NAME =>
      Some (Build_start_case "create_report_format" CLIENT_AUTHENTIC
        [])
  | CLIENT_CRF_GRFR_REPORT_FORMAT_PARAM_VALUE =>
      Some (Build_start_case "create_report_format" CLIENT_AUTHENTIC
        [])
  | CLIENT_CRF_GRFR_REPORT_FORMAT_SIGNATURE =>
      Some (Build_start_case "create_report_format" CLIENT_AUTHENTIC
        [])
  | CLIENT_CRF_GRFR_REPORT_FORMAT_SUMMARY =>
      Some (Build_start_case "create_report_format" CLIENT_AUTHENTIC
        [])
  | CLIENT_CRF_GRFR_REPORT_FORMAT_TRUST =>
      Some (Build_start_case "create_report_format" CLIENT_AUTHENTIC
        [])
  | CLIENT_CREATE_OVERRIDE =>
      Some (Build_start_case "create_override" CLIENT_AUTHENTIC
        [ ("HOSTS", CLIENT_CREATE_OVERRIDE_HOSTS);
          ("NEW_THREAT", CLIENT_CREATE_OVERRIDE_NEW_THREAT);
          ("NVT", CLIENT_CREATE_OVERRIDE_NVT);
          ("PORT", CLIENT_CREATE_OVERRIDE_PORT);
          ("RESULT", CLIENT_CREATE_OVERRIDE_RESULT);
          ("TASK", CLIENT_CREATE_OVERRIDE_TASK);
          ("TEXT", CLIENT_CREATE_OVERRIDE_TEXT);
          ("THREAT", CLIENT_CREATE_OVERRIDE_THREAT) ])
  | CLIENT_CREATE_SLAVE =>
      Some (Build_start_case "create_slave" CLIENT_AUTHENTIC
        [ ("COMMENT", CLIENT_CREATE_SLAVE_COMMENT);
          ("HOST", CLIENT_CREATE_SLAVE_HOST);
          ("LOGIN", CLIENT_CREATE_SLAVE_LOGIN);
          ("NAME", CLIENT_CREATE_SLAVE_NAME);
          ("PASSWORD", CLIENT_CREATE_SLAVE_PASSWORD);
          ("PORT", CLIENT_CREATE_SLAVE_PORT) ])
  | CLIENT_CREATE_TARGET =>
      Some (Build_start_case "create_target" CLIENT_AUTHENTIC
        [ ("COMMENT", CLIENT_CREATE_TARGET_COMMENT);
          ("HOSTS", CLIENT_CREATE_TARGET_HOSTS);
          ("LSC_CREDENTIAL", CLIENT_CREATE_TARGET_LSC_CREDENTIAL);
          ("NAME", CLIENT_CREATE_TARGET_NAME);
          ("TARGET_LOCATOR", CLIENT_CREATE_TARGET_TARGET_LOCATOR) ])
  | CLIENT_CREATE_TARGET_TARGET_LOCATOR =>
      Some (Build_start_case "create_target" CLIENT_AUTHENTIC
        [ ("PASSWORD", CLIENT_CREATE_TARGET_TARGET_LOCATOR_PASSWORD);
          ("USERNAME", CLIENT_CREATE_TARGET_TARGET_LOCATOR_USERNAME) ])
  | CLIENT_CREATE_TASK =>
      Some (Build_start_case "create_task" CLIENT_AUTHENTIC
        [ ("RCFILE", CLIENT_CREATE_TASK_RCFILE);
          ("NAME", CLIENT_CREATE_TASK_NAME);
          ("COMMENT", CLIENT_CREATE_TASK_COMMENT);
          ("CONFIG", CLIENT_CREATE_TASK_CONFIG);
          ("ESCALATOR", CLIENT_CREATE_TASK_ESCALATOR);
          ("SCHEDULE", CLIENT_CREATE_TASK_SCHEDULE);
          ("SLAVE", CLIENT_CREATE_TASK_SLAVE);
          ("TARGET", CLIENT_CREATE_TASK_TARGET) ])
  | CLIENT_MODIFY_NOTE =>
      Some (Build_start_case "MODIFY_note" CLIENT_AUTHENTIC
        [ ("HOSTS", CLIENT_MODIFY_NOTE_HOSTS);
          ("PORT", CLIENT_MODIFY_NOTE_PORT);
          ("RESULT", CLIENT_MODIFY_NOTE_RESULT);
          ("TASK", CLIENT_MODIFY_NOTE_TASK);
          ("TEXT", CLIENT_MODIFY_NOTE_TEXT);
          ("THREAT", CLIENT_MODIFY_NOTE_THREAT) ])
  | CLIENT_MODIFY_OVERRIDE =>
      Some (Build_start_case "modify_override" CLIENT_AUTHENTIC
        [ ("HOSTS", CLIENT_MODIFY_OVERRIDE_HOSTS);
          ("NEW_THREAT", CLIENT_MODIFY_OVERRIDE_NEW_THREAT);
          ("PORT", CLIENT_MODIFY_OVERRIDE_PORT);
          ("RESULT", CLIENT_MODIFY_OVERRIDE_RESULT);
          ("TASK", CLIENT_MODIFY_OVERRIDE_TASK);
          ("TEXT", CLIENT_MODIFY_OVERRIDE_TEXT);
          ("THREAT", CLIENT_MODIFY_OVERRIDE_THREAT) ])
  | CLIENT_TEST_ESCALATOR =>
      Some (Build_start_case "test_escalator" CLIENT_AUTHENTIC
        [])
  | CLIENT_PAUSE_TASK =>
      Some (Build_start_case "pause_task" CLIENT_AUTHENTIC
        [])
  | CLIENT_RESUME_OR_START_TASK =>
      Some (Build_start_case "resume_or_start_task" CLIENT_AUTHENTIC
        [])
  | CLIENT_RESUME_PAUSED_TASK =>
      Some (Build_start_case "resume_paused_task" CLIENT_AUTHENTIC
        [])
  | CLIENT_RESUME_STOPPED_TASK =>
      Some (Build_start_case "resume_stopped_task" CLIENT_AUTHENTIC
        [])
  | CLIENT_START_TASK =>
      Some (Build_start_case "start_task" CLIENT_AUTHENTIC
        [])
  | CLIENT_STOP_TASK =>
      Some (Build_start_case "stop_task" CLIENT_AUTHENTIC
        [])
  | CLIENT_VERIFY_AGENT =>
      Some (Build_start_case "verify_agent" CLIENT_AUTHENTIC
        [])
  | CLIENT_VERIFY_REPORT_FORMAT =>
      Some (Build_start_case "verify_report_format" CLIENT_AUTHENTIC
        [])
  | _ => None
  end.

(** ** The management library (manage.h)

    omp.c reaches tasks, users and the scanner only through calls of the
    management library.  Its state (database, scanner connection, the task
    the process runs) is threaded through the calls; a resource handle is an
    integer, 0 for none. *)

Definition task_t : Set := Z.
Definition escalator_t : Set := Z.
Definition schedule_t : Set := Z.
Definition config_t : Set := Z.
Definition target_t : Set := Z.
Definition slave_t : Set := Z.

(** Modelled from the spec: the credentials of manage.h, a username and a
    password accumulated across the AUTHENTICATE sub-elements; a NULL pointer
    is [None]. *)
Record credentials_t : Set := {
  username : option string;
  password : option string
}.

(** Modelled from the spec: [free_credentials] clears both members. *)
Definition free_credentials (cr : credentials_t) : credentials_t :=
  {| username := None; password := None |}.

(** [openvas_append_string] and [openvas_append_text] of the base library:
    the text is appended to the string, which is created when NULL. *)
Definition openvas_append_string (var : option string) (s : string) : option string :=
  match var with
  | None => Some s
  | Some old => Some (old +++ s)
  end.

(** Modelled from the spec: [append_to_credentials_username] and
    [append_to_credentials_password] accumulate the text of the element. *)
Definition append_to_credentials_username (cr : credentials_t) (text : string) : credentials_t :=
  {| username := openvas_append_string (username cr) text; password := password cr |}.
Definition append_to_credentials_password (cr : credentials_t) (text : string) : credentials_t :=
  {| username := username cr; password := openvas_append_string (password cr) text |}.

(** *** Command data *)

(** [create_task_data_t]. *)
Record create_task_data_t : Set := {
  config_id : option string;
  escalator_id : option string;
  schedule_id : option string;
  slave_id : option string;
  target_id : option string;
  task : task_t
}.

(** [get_tasks_data_t]; of its members the dispatch reads [task_id], the
    others only shape the listing. *)
Record get_tasks_data_t : Set := {
  get_tasks_task_id : option string;
  get_tasks_sort_field : option string
}.

(** [command_data_t] is a union.  Its members for DELETE_TASK, PAUSE_TASK,
    RESUME_OR_START_TASK, RESUME_PAUSED_TASK, RESUME_STOPPED_TASK, START_TASK
    and STOP_TASK are each a struct of one [char *task_id], so they are the
    same pointer at the start of the union: [task_id_member].  The members of
    the commands whose dispatch is outside this development are left out. *)
Record command_data_t : Set := {
  create_task : create_task_data_t;
  get_tasks : get_tasks_data_t;
  task_id_member : option string
}.

Definition create_task_data_zero : create_task_data_t :=
  {| config_id := None; escalator_id := None; schedule_id := None;
     slave_id := None; target_id := None; task := 0 |}.

Definition get_tasks_data_zero : get_tasks_data_t :=
  {| get_tasks_task_id := None; get_tasks_sort_field := None |}.

(** [command_data_init]: the whole union is set to zero. *)
Definition command_data_init : command_data_t :=
  {| create_task := create_task_data_zero;
     get_tasks := get_tasks_data_zero;
     task_id_member := None |}.

(** The reset functions free the members and set the struct to zero. *)
Definition create_task_data_reset (d : command_data_t) : command_data_t :=
  {| create_task := create_task_data_zero;
     get_tasks := get_tasks d; task_id_member := task_id_member d |}.
Definition get_tasks_data_reset (d : command_data_t) : command_data_t :=
  {| create_task := create_task d;
     get_tasks := get_tasks_data_zero; task_id_member := task_id_member d |}.
Definition task_id_member_reset (d : command_data_t) : command_data_t :=
  {| create_task := create_task d; get_tasks := get_tasks d; task_id_member := None |}.
Definition delete_task_data_reset := task_id_member_reset.
Definition pause_task_data_reset := task_id_member_reset.
Definition resume_or_start_task_data_reset := task_id_member_reset.
Definition resume_paused_task_data_reset := task_id_member_reset.
Definition resume_stopped_task_data_reset := task_id_member_reset.
Definition start_task_data_reset := task_id_member_reset.
Definition stop_task_data_reset := task_id_member_reset.

Definition set_task_id_member (d : command_data_t) (v : option string) : command_data_t :=
  {| create_task := create_task d; get_tasks := get_tasks d; task_id_member := v |}.
Definition set_get_tasks (d : command_data_t) (g : get_tasks_data_t) : command_data_t :=
  {| create_task := create_task d; get_tasks := g; task_id_member := task_id_member d |}.

(** *** The interface *)

Class Manage : Type := {
  manage_t : Type;
  (** 0 authentication succeeded, 1 failed, -1 error. *)
  authenticate : manage_t -> credentials_t -> Z;
  load_tasks : manage_t -> Z * manage_t;
  save_tasks : manage_t -> Z * manage_t;
  free_tasks : manage_t -> manage_t;
  (** TRUE on error, else FALSE with the task found, 0 if there is none. *)
  find_task : manage_t -> string -> bool * task_t;
  find_escalator : manage_t -> string -> bool * escalator_t;
  find_schedule : manage_t -> string -> bool * schedule_t;
  request_delete_task : manage_t -> task_t -> Z * manage_t;
  (** The status and the id of the report of the run. *)
  start_task : manage_t -> task_t -> Z * string * manage_t;
  resume_or_start_task : manage_t -> task_t -> Z * string * manage_t;
  resume_stopped_task : manage_t -> task_t -> Z * string * manage_t;
  resume_paused_task : manage_t -> task_t -> Z * manage_t;
  pause_task : manage_t -> task_t -> Z * manage_t;
  stop_task : manage_t -> task_t -> Z * manage_t;
  (** Nonzero on error, else the UUID of the task. *)
  task_uuid : manage_t -> task_t -> Z * string;
  task_description : manage_t -> task_t -> option string;
  add_task_escalator : manage_t -> task_t -> escalator_t -> manage_t;
  set_task_schedule : manage_t -> task_t -> schedule_t -> manage_t;
  (** What GET_TASKS sends after the opening tag of its response when the
      lookup went through: the count, the sort element, one element per task
      and the closing tag, as the accessors of the library render them;
      [None] when a lookup inside the listing ends the process. *)
  get_tasks_listing : manage_t -> get_tasks_data_t -> task_t -> option (list string);
  task_name : manage_t -> task_t -> option string;
  (** Nonzero on error, else the config made from the RC file. *)
  create_config_rc : manage_t -> string -> string -> Z * config_t * manage_t;
  (** The value of a preference in an RC file, NULL if it has none. *)
  rc_preference : string -> string -> option string;
  (** Nonzero on error, else the target made for the hosts. *)
  create_target : manage_t -> string -> string -> Z * target_t * manage_t;
  find_config : manage_t -> string -> bool * config_t;
  find_target : manage_t -> string -> bool * target_t;
  find_slave : manage_t -> string -> bool * slave_t;
  set_task_config : manage_t -> task_t -> config_t -> manage_t;
  set_task_target : manage_t -> task_t -> target_t -> manage_t;
  set_task_slave : manage_t -> task_t -> slave_t -> manage_t;
  make_task_rcfile : manage_t -> task_t -> Z * manage_t
}.

(** ** The state of the protocol engine *)

(** The error codes of the parser (GMarkupError) that omp.c sets. *)
Inductive GMarkupError : Set :=
| G_MARKUP_ERROR_PARSE
| G_MARKUP_ERROR_UNKNOWN_ELEMENT
| G_MARKUP_ERROR_UNKNOWN_ATTRIBUTE
| G_MARKUP_ERROR_INVALID_CONTENT.

Record GError : Set := {
  code : GMarkupError;
  message : string
}.

(** [g_set_error]: an error that is set already stays. *)
Definition g_set_error (error : option GError) (c : GMarkupError) (m : string)
  : option GError :=
  match error with
  | None => Some {| code := c; message := m |}
  | Some e => Some e
  end.

Section State.
Context {host : Host} {library : Manage}.

(** The globals of omp.c and of its collaborators, and the [GError] out
    parameter of the running parser callback. *)
Record omp_state : Type := {
  client_state : client_state_t;
  current_credentials : credentials_t;
  command_data : command_data_t;
  current_error : Z;
  forked : Z;
  error : option GError;
  to_client_buffer : to_client_t;
  write_to_client_data : client;
  manage : manage_t
}.

Definition set_client_state (st : omp_state) (s : client_state_t) : omp_state :=
  {| client_state := s;
     current_credentials := current_credentials st;
     command_data := command_data st;
     current_error := current_error st;
     forked := forked st;
     error := error st;
     to_client_buffer := to_client_buffer st;
     write_to_client_data := write_to_client_data st;
     manage := manage st |}.

Definition set_credentials (st : omp_state) (cr : credentials_t) : omp_state :=
  {| client_state := client_state st;
     current_credentials := cr;
     command_data := command_data st;
     current_error := current_error st;
     forked := forked st;
     error := error st;
     to_client_buffer := to_client_buffer st;
     write_to_client_data := write_to_client_data st;
     manage := manage st |}.

Definition set_command_data (st : omp_state) (d : command_data_t) : omp_state :=
  {| client_state := client_state st;
     current_credentials := current_credentials st;
     command_data := d;
     current_error := current_error st;
     forked := forked st;
     error := error st;
     to_client_buffer := to_client_buffer st;
     write_to_client_data := write_to_client_data st;
     manage := manage st |}.

Definition set_current_error (st : omp_state) (e : Z) : omp_state :=
  {| client_state := client_state st;
     current_credentials := current_credentials st;
     command_data := command_data st;
     current_error := e;
     forked := forked st;
     error := error st;
     to_client_buffer := to_client_buffer st;
     write_to_client_data := write_to_client_data st;
     manage := manage st |}.

Definition set_forked (st : omp_state) (f : Z) : omp_state :=
  {| client_state := client_state st;
     current_credentials := current_credentials st;
     command_data := command_data st;
     current_error := current_error st;
     forked := f;
     error := error st;
     to_client_buffer := to_client_buffer st;
     write_to_client_data := write_to_client_data st;
     manage := manage st |}.

Definition set_error (st : omp_state) (c : GMarkupError) (m : string) : omp_state :=
  {| client_state := client_state st;
     current_credentials := current_credentials st;
     command_data := command_data st;
     current_error := current_error st;
     forked := forked st;
     error := g_set_error (error st) c m;
     to_client_buffer := to_client_buffer st;
     write_to_client_data := write_to_client_data st;
     manage := manage st |}.

Definition set_output (st : omp_state) (c : client) (b : to_client_t) : omp_state :=
  {| client_state := client_state st;
     current_credentials := current_credentials st;
     command_data := command_data st;
     current_error := current_error st;
     forked := forked st;
     error := error st;
     to_client_buffer := b;
     write_to_client_data := c;
     manage := manage st |}.

Definition set_manage (st : omp_state) (m : manage_t) : omp_state :=
  {| client_state := client_state st;
     current_credentials := current_credentials st;
     command_data := command_data st;
     current_error := current_error st;
     forked := forked st;
     error := error st;
     to_client_buffer := to_client_buffer st;
     write_to_client_data := write_to_client_data st;
     manage := m |}.

(** [error_send_to_client]. *)
Definition error_send_to_client (st : omp_state) : omp_state :=
  set_error st G_MARKUP_ERROR_PARSE "Manager out of space for reply to client.".

(** [internal_error_send_to_client]. *)
Definition internal_error_send_to_client (st : omp_state) : omp_state :=
  set_error st G_MARKUP_ERROR_PARSE "Internal Error.".

(** SEND_TO_CLIENT_OR_FAIL: queue the message; when the write to the client
    failed, set the error and return from the callback, else go on with the
    rest of it. *)
Definition SEND_TO_CLIENT_OR_FAIL (fuel : nat) (msg : string) (st : omp_state)
  (rest : omp_state -> outcome omp_state) : outcome omp_state :=
  do (failed, c, b) <- send_to_client fuel msg (write_to_client_data st) (to_client_buffer st);
  if (failed : bool) then Returns (error_send_to_client (set_output st c b))
  else rest (set_output st c b).

(** The same for a run of messages sent one after the other. *)
Fixpoint SEND_ALL_TO_CLIENT_OR_FAIL (fuel : nat) (msgs : list string) (st : omp_state)
  (rest : omp_state -> outcome omp_state) : outcome omp_state :=
  match msgs with
  | [] => rest st
  | msg :: msgs' =>
      SEND_TO_CLIENT_OR_FAIL fuel msg st
        (fun st' => SEND_ALL_TO_CLIENT_OR_FAIL fuel msgs' st' rest)
  end.

(** Everything the session has put out so far. *)
Definition session_output (st : omp_state) : list ascii :=
  output (write_to_client_data st) (to_client_buffer st).

End State.

(** ** Parser callbacks: the start of an element *)

(** [find_attribute]: the value of the first attribute of that name. *)
Fixpoint find_attribute (attribute_names attribute_values : list string)
  (attribute_name : string) : option string :=
  match attribute_names, attribute_values with
  | name :: names, value :: values =>
      if negb (strcmp name attribute_name =? 0)
      then find_attribute names values attribute_name
      else Some value
  | _, _ => None
  end.

(** [append_attribute]: the string with the value of the attribute appended,
    if there is such an attribute. *)
Definition append_attribute (attribute_names attribute_values : list string)
  (attribute_name : string) (var : option string) : option string :=
  match find_attribute attribute_names attribute_values attribute_name with
  | Some attribute => openvas_append_string var attribute
  | None => var
  end.

(** The first entry of a chain of [strcasecmp] tests that matches. *)
Definition lookup_element (element_name : string)
  (table : list (string * client_state_t)) : option client_state_t :=
  option_map snd (find (fun entry => strcasecmp (fst entry) element_name =? 0) table).

Definition commands_response_open : string :=
  "<commands_response status=" +++ dq +++ STATUS_OK +++ dq
  +++ " status_text=" +++ dq +++ STATUS_OK_TEXT +++ dq +++ ">".

Section StartElement.
Context {host : Host} {library : Manage}.

(** The shared tail of the cases [CLIENT_TOP] and [CLIENT_COMMANDS]. *)
Definition start_before_authentication (fuel : nat) (element_name : string)
  (st : omp_state) : outcome omp_state :=
  if strcasecmp "AUTHENTICATE" element_name =? 0 then
    Returns (set_client_state st CLIENT_AUTHENTICATE)
  else if strcasecmp "COMMANDS" element_name =? 0 then
    SEND_TO_CLIENT_OR_FAIL fuel commands_response_open st
      (fun st => Returns (set_client_state st CLIENT_COMMANDS))
  else
    SEND_TO_CLIENT_OR_FAIL fuel
      (XML_ERROR_SYNTAX "omp" "First command must be AUTHENTICATE, COMMANDS or GET_VERSION")
      st
      (fun st =>
         do st <-
           (if client_state_eqb (client_state st) CLIENT_COMMANDS then
              (* the result of this call is not looked at *)
              do (failed, c, b) <- send_to_client fuel "</commands_response>"
                                     (write_to_client_data st) (to_client_buffer st);
              Returns (set_output st c b)
            else Returns st);
         Returns (set_error st G_MARKUP_ERROR_UNKNOWN_ELEMENT "Must authenticate first.")).

(** What the branch of a command does in [CLIENT_AUTHENTIC] before it sets
    the state.  Only the command data of the commands dispatched below is
    followed; CREATE_TASK also makes its task here, which is taken as staged
    when the element closes. *)
Definition open_command (fuel : nat) (command : client_state_t)
  (attribute_names attribute_values : list string) (st : omp_state)
  : outcome omp_state :=
  match command with
  | CLIENT_AUTHENTICATE =>
      let '(failed, m) := save_tasks (manage st) in
      if negb (failed =? 0) then Aborted
      else
        let st := set_manage st (free_tasks m) in
        let st := set_credentials st (free_credentials (current_credentials st)) in
        Returns (set_client_state st CLIENT_AUTHENTICATE)
  | CLIENT_AUTHENTIC_COMMANDS =>
      SEND_TO_CLIENT_OR_FAIL fuel commands_response_open st
        (fun st => Returns (set_client_state st CLIENT_AUTHENTIC_COMMANDS))
  | CLIENT_DELETE_TASK
  | CLIENT_PAUSE_TASK
  | CLIENT_RESUME_OR_START_TASK
  | CLIENT_RESUME_PAUSED_TASK
  | CLIENT_RESUME_STOPPED_TASK
  | CLIENT_START_TASK
  | CLIENT_STOP_TASK =>
      let d := command_data st in
      let d := set_task_id_member d
                 (append_attribute attribute_names attribute_values "task_id"
                    (task_id_member d)) in
      Returns (set_client_state (set_command_data st d) command)
  | CLIENT_GET_TASKS =>
      let d := command_data st in
      let g := get_tasks d in
      let g := {| get_tasks_task_id :=
                    append_attribute attribute_names attribute_values "task_id"
                      (get_tasks_task_id g);
                  get_tasks_sort_field :=
                    append_attribute attribute_names attribute_values "sort_field"
                      (get_tasks_sort_field g) |} in
      Returns (set_client_state (set_command_data st (set_get_tasks d g)) command)
  | _ => Returns (set_client_state st command)
  end.

(** A case of the switch inside a command. *)
Definition start_inside_command (fuel : nat) (sc : start_case) (element_name : string)
  (st : omp_state) : outcome omp_state :=
  match lookup_element element_name (children sc) with
  | Some child =>
      let st :=
        match child with
        | CLIENT_AUTHENTICATE_CREDENTIALS =>
            (* Init, so it is the empty string when the entity is empty. *)
            set_credentials st
              (append_to_credentials_password (current_credentials st) EmptyString)
        | _ => st
        end in
      Returns (set_client_state st child)
  | None =>
      do (failed, c, b) <- send_element_error_to_client fuel (bogus_command sc) element_name
                             (write_to_client_data st) (to_client_buffer st);
      if (failed : bool) then Returns (error_send_to_client (set_output st c b))
      else
        let st := set_output st c b in
        let st :=
          match client_state st with
          | CLIENT_AUTHENTICATE
          | CLIENT_AUTHENTICATE_CREDENTIALS =>
              set_credentials st (free_credentials (current_credentials st))
          | _ => st
          end in
        let st := set_client_state st (bogus_state sc) in
        Returns (set_error st G_MARKUP_ERROR_UNKNOWN_ELEMENT "Error")
  end.

(** [omp_xml_handle_start_element]. *)
Definition omp_xml_handle_start_element (fuel : nat) (element_name : string)
  (attribute_names attribute_values : list string) (st : omp_state)
  : outcome omp_state :=
  match client_state st with
  | CLIENT_TOP =>
      if strcasecmp "GET_VERSION" element_name =? 0 then
        Returns (set_client_state st CLIENT_GET_VERSION)
      else start_before_authentication fuel element_name st
  | CLIENT_COMMANDS => start_before_authentication fuel element_name st
  | CLIENT_AUTHENTIC
  | CLIENT_AUTHENTIC_COMMANDS =>
      match lookup_element element_name authentic_commands with
      | Some command => open_command fuel command attribute_names attribute_values st
      | None =>
          SEND_TO_CLIENT_OR_FAIL fuel (XML_ERROR_SYNTAX "omp" "Bogus command name") st
            (fun st => Returns (set_error st G_MARKUP_ERROR_UNKNOWN_ELEMENT "Error"))
      end
  | s =>
      match start_element_case s with
      | Some sc => start_inside_command fuel sc element_name st
      | None =>
          assert false
            (Returns (set_error st G_MARKUP_ERROR_PARSE "Manager programming error."))
      end
  end.

(** [omp_xml_handle_text], for the elements of the credentials; the text of
    the other elements goes to command data that is not followed here. *)
Definition omp_xml_handle_text (text : string) (st : omp_state) : omp_state :=
  if (strlen text =? 0)%nat then st
  else
    match client_state st with
    | CLIENT_AUTHENTICATE_CREDENTIALS_USERNAME =>
        set_credentials st (append_to_credentials_username (current_credentials st) text)
    | CLIENT_AUTHENTICATE_CREDENTIALS_PASSWORD =>
        set_credentials st (append_to_credentials_password (current_credentials st) text)
    | _ => st
    end.

End StartElement.

(** ** Parser callbacks: the end of an element *)

(** The response of a start or resume that was accepted: status 202 and the
    id of the report. *)
Definition requested_with_report (tag report_id : string) : string :=
  "<" +++ tag +++ "_response"
  +++ " status=" +++ dq +++ STATUS_OK_REQUESTED +++ dq
  +++ " status_text=" +++ dq +++ STATUS_OK_REQUESTED_TEXT +++ dq +++ ">"
  +++ "<report_id>" +++ report_id +++ "</report_id>"
  +++ "</" +++ tag +++ "_response>".

Definition get_version_response : string :=
  "<get_version_response"
  +++ " status=" +++ dq +++ STATUS_OK +++ dq
  +++ " status_text=" +++ dq +++ STATUS_OK_TEXT +++ dq +++ ">"
  +++ "<version>1.0</version>"
  +++ "</get_version_response>".

Definition get_tasks_response_open : string :=
  "<get_tasks_response"
  +++ " status=" +++ dq +++ STATUS_OK +++ dq
  +++ " status_text=" +++ dq +++ STATUS_OK_TEXT +++ dq +++ ">".

Section EndElement.
Context {host : Host} {library : Manage}.

(** The last two statements of a command: reset its data, go back to
    [CLIENT_AUTHENTIC]. *)
Definition reset_and_return (reset : command_data_t -> command_data_t)
  (st : omp_state) : outcome omp_state :=
  Returns (set_client_state (set_command_data st (reset (command_data st))) CLIENT_AUTHENTIC).

(** The forked child hands its status to the caller of the parser through
    [current_error] and a dummy error. *)
Definition return_forked_status (status : Z) (st : omp_state) : omp_state :=
  set_error (set_current_error st status)
    G_MARKUP_ERROR_INVALID_CONTENT "Dummy error for current_error".

Definition end_CLIENT_AUTHENTICATE (fuel : nat) (st : omp_state) : outcome omp_state :=
  match authenticate (manage st) (current_credentials st) with
  | 0 =>
      let '(failed, m) := load_tasks (manage st) in
      let st := set_manage st m in
      if negb (failed =? 0) then
        let st := set_error st G_MARKUP_ERROR_PARSE "Manager failed to load tasks." in
        let st := set_credentials st (free_credentials (current_credentials st)) in
        SEND_TO_CLIENT_OR_FAIL fuel (XML_INTERNAL_ERROR "authenticate") st
          (fun st => Returns (set_client_state st CLIENT_TOP))
      else
        SEND_TO_CLIENT_OR_FAIL fuel (XML_OK "authenticate") st
          (fun st => Returns (set_client_state st CLIENT_AUTHENTIC))
  | 1 =>
      let st := set_credentials st (free_credentials (current_credentials st)) in
      SEND_TO_CLIENT_OR_FAIL fuel (XML_ERROR_AUTH_FAILED "authenticate") st
        (fun st => Returns (set_client_state st CLIENT_TOP))
  | _ =>
      let st := set_credentials st (free_credentials (current_credentials st)) in
      SEND_TO_CLIENT_OR_FAIL fuel (XML_INTERNAL_ERROR "authenticate") st
        (fun st => Returns (set_client_state st CLIENT_TOP))
  end.

Definition end_CLIENT_GET_VERSION (fuel : nat) (st : omp_state) : outcome omp_state :=
  SEND_TO_CLIENT_OR_FAIL fuel get_version_response st
    (fun st =>
       if negb (client_state_value (client_state st) =? 0)
       then Returns (set_client_state st CLIENT_AUTHENTIC)
       else Returns (set_client_state st CLIENT_TOP)).

Definition end_CLIENT_DELETE_TASK (fuel : nat) (st : omp_state) : outcome omp_state :=
  let finish := reset_and_return delete_task_data_reset in
  match task_id_member (command_data st) with
  | Some task_id =>
      let '(failed, task) := find_task (manage st) task_id in
      if (failed : bool) then
        SEND_TO_CLIENT_OR_FAIL fuel (XML_INTERNAL_ERROR "delete_task") st finish
      else if task =? 0 then
        SEND_TO_CLIENT_OR_FAIL fuel (find_error_message "delete_task" "task" task_id) st finish
      else
        let '(status, m) := request_delete_task (manage st) task in
        let st := set_manage st m in
        match status with
        | 0 => SEND_TO_CLIENT_OR_FAIL fuel (XML_OK "delete_task") st finish
        | 1 => SEND_TO_CLIENT_OR_FAIL fuel (XML_OK_REQUESTED "delete_task") st finish
        | 2 =>
            SEND_TO_CLIENT_OR_FAIL fuel
              (XML_ERROR_SYNTAX "delete_task" "Attempt to delete a hidden task") st finish
        | _ => Aborted
        end
  | None =>
      SEND_TO_CLIENT_OR_FAIL fuel
        (XML_ERROR_SYNTAX "delete_task" "DELETE_TASK requires a task_id attribute") st finish
  end.

Definition end_CLIENT_PAUSE_TASK (fuel : nat) (st : omp_state) : outcome omp_state :=
  let finish := reset_and_return pause_task_data_reset in
  match task_id_member (command_data st) with
  | Some task_id =>
      let '(failed, task) := find_task (manage st) task_id in
      if (failed : bool) then
        SEND_TO_CLIENT_OR_FAIL fuel (XML_INTERNAL_ERROR "pause_task") st finish
      else if task =? 0 then
        SEND_TO_CLIENT_OR_FAIL fuel (find_error_message "pause_task" "task" task_id) st finish
      else
        let '(status, m) := pause_task (manage st) task in
        let st := set_manage st m in
        match status with
        | 0 => SEND_TO_CLIENT_OR_FAIL fuel (XML_OK "pause_task") st finish
        | 1 => SEND_TO_CLIENT_OR_FAIL fuel (XML_OK_REQUESTED "pause_task") st finish
        | _ => Aborted
        end
  | None => SEND_TO_CLIENT_OR_FAIL fuel (XML_INTERNAL_ERROR "pause_task") st finish
  end.

Definition end_CLIENT_RESUME_PAUSED_TASK (fuel : nat) (st : omp_state) : outcome omp_state :=
  let finish := reset_and_return resume_paused_task_data_reset in
  match task_id_member (command_data st) with
  | Some task_id =>
      let '(failed, task) := find_task (manage st) task_id in
      if (failed : bool) then
        SEND_TO_CLIENT_OR_FAIL fuel (XML_INTERNAL_ERROR "resume_paused_task") st finish
      else if task =? 0 then
        SEND_TO_CLIENT_OR_FAIL fuel
          (find_error_message "resume_paused_task" "task" task_id) st finish
      else
        let '(status, m) := resume_paused_task (manage st) task in
        let st := set_manage st m in
        match status with
        | 0 => SEND_TO_CLIENT_OR_FAIL fuel (XML_OK "resume_paused_task") st finish
        | 1 => SEND_TO_CLIENT_OR_FAIL fuel (XML_OK_REQUESTED "resume_paused_task") st finish
        | _ => Aborted
        end
  | None => SEND_TO_CLIENT_OR_FAIL fuel (XML_INTERNAL_ERROR "resume_paused_task") st finish
  end.

Definition end_CLIENT_STOP_TASK (fuel : nat) (st : omp_state) : outcome omp_state :=
  let finish := reset_and_return stop_task_data_reset in
  match task_id_member (command_data st) with
  | Some task_id =>
      let '(failed, task) := find_task (manage st) task_id in
      if (failed : bool) then
        SEND_TO_CLIENT_OR_FAIL fuel (XML_INTERNAL_ERROR "stop_task") st finish
      else if task =? 0 then
        SEND_TO_CLIENT_OR_FAIL fuel (find_error_message "stop_task" "task" task_id) st finish
      else
        let '(status, m) := stop_task (manage st) task in
        let st := set_manage st m in
        match status with
        | 0 => SEND_TO_CLIENT_OR_FAIL fuel (XML_OK "stop_task") st finish
        | 1 => SEND_TO_CLIENT_OR_FAIL fuel (XML_OK_REQUESTED "stop_task") st finish
        | _ => Aborted
        end
  | None =>
      SEND_TO_CLIENT_OR_FAIL fuel
        (XML_ERROR_SYNTAX "stop_task" "STOP_TASK requires a task_id attribute") st finish
  end.

Definition end_CLIENT_START_TASK (fuel : nat) (st : omp_state) : outcome omp_state :=
  let finish := reset_and_return start_task_data_reset in
  match task_id_member (command_data st) with
  | Some task_id =>
      let '(failed, task) := find_task (manage st) task_id in
      if (failed : bool) then
        SEND_TO_CLIENT_OR_FAIL fuel (XML_INTERNAL_ERROR "start_task") st finish
      else if task =? 0 then
        SEND_TO_CLIENT_OR_FAIL fuel (find_error_message "start_task" "task" task_id) st finish
      else if forked st =? 2 then
        (* Prevent the forked child from forking again. *)
        Aborted
      else
        let '(status, report_id, m) := start_task (manage st) task in
        let st := set_manage st m in
        match status with
        | 0 =>
            SEND_TO_CLIENT_OR_FAIL fuel (requested_with_report "start_task" report_id) st
              (fun st => finish (set_forked st 1))
        | 1 =>
            SEND_TO_CLIENT_OR_FAIL fuel
              (XML_ERROR_SYNTAX "start_task" "Task is active already") st finish
        | 2 => finish (return_forked_status 2 st)
        | -10 => finish (return_forked_status (-10) st)
        | -6 =>
            SEND_TO_CLIENT_OR_FAIL fuel
              (XML_ERROR_SYNTAX "start_task"
                 "There is already a task running in this process") st finish
        | -2 | -4 =>
            assert false
              (SEND_TO_CLIENT_OR_FAIL fuel (XML_INTERNAL_ERROR "start_task") st finish)
        | -3 => SEND_TO_CLIENT_OR_FAIL fuel (XML_INTERNAL_ERROR "start_task") st finish
        | _ =>
            assert false
              (SEND_TO_CLIENT_OR_FAIL fuel (XML_INTERNAL_ERROR "start_task") st finish)
        end
  | None =>
      SEND_TO_CLIENT_OR_FAIL fuel
        (XML_ERROR_SYNTAX "start_task" "START_TASK task_id attribute must be set") st finish
  end.

Definition end_CLIENT_RESUME_OR_START_TASK (fuel : nat) (st : omp_state)
  : outcome omp_state :=
  let finish := reset_and_return resume_or_start_task_data_reset in
  match task_id_member (command_data st) with
  | Some task_id =>
      let '(failed, task) := find_task (manage st) task_id in
      if (failed : bool) then
        SEND_TO_CLIENT_OR_FAIL fuel (XML_INTERNAL_ERROR "resume_or_start_task") st finish
      else if task =? 0 then
        SEND_TO_CLIENT_OR_FAIL fuel
          (find_error_message "resume_or_start_task" "task" task_id) st finish
      else if forked st =? 2 then Aborted
      else
        let '(status, report_id, m) := resume_or_start_task (manage st) task in
        let st := set_manage st m in
        match status with
        | 0 =>
            SEND_TO_CLIENT_OR_FAIL fuel
              (requested_with_report "resume_or_start_task" report_id) st
              (fun st => finish (set_forked st 1))
        | 1 =>
            SEND_TO_CLIENT_OR_FAIL fuel
              (XML_ERROR_SYNTAX "resume_or_start_task" "Task is active already") st finish
        | 22 =>
            SEND_TO_CLIENT_OR_FAIL fuel
              (XML_ERROR_SYNTAX "resume_or_start_task" "Task must be in Stopped state")
              st finish
        | 2 => finish (return_forked_status 2 st)
        | -10 => finish (return_forked_status (-10) st)
        | -6 =>
            SEND_TO_CLIENT_OR_FAIL fuel
              (XML_ERROR_SYNTAX "resume_or_start_task"
                 "There is already a task running in this process") st finish
        | -2 | -4 =>
            assert false
              (SEND_TO_CLIENT_OR_FAIL fuel (XML_INTERNAL_ERROR "resume_or_start_task") st finish)
        | -1 | -3 =>
            SEND_TO_CLIENT_OR_FAIL fuel (XML_INTERNAL_ERROR "resume_or_start_task") st finish
        | _ =>
            assert false
              (SEND_TO_CLIENT_OR_FAIL fuel (XML_INTERNAL_ERROR "resume_or_start_task") st finish)
        end
  | None =>
      SEND_TO_CLIENT_OR_FAIL fuel (XML_INTERNAL_ERROR "resume_or_start_task") st finish
  end.

Definition end_CLIENT_RESUME_STOPPED_TASK (fuel : nat) (st : omp_state)
  : outcome omp_state :=
  let finish := reset_and_return resume_stopped_task_data_reset in
  match task_id_member (command_data st) with
  | Some task_id =>
      let '(failed, task) := find_task (manage st) task_id in
      if (failed : bool) then
        SEND_TO_CLIENT_OR_FAIL fuel (XML_INTERNAL_ERROR "resume_stopped_task") st finish
      else if task =? 0 then
        SEND_TO_CLIENT_OR_FAIL fuel
          (find_error_message "resume_stopped_task" "task" task_id) st finish
      else if forked st =? 2 then Aborted
      else
        let '(status, report_id, m) := resume_stopped_task (manage st) task in
        let st := set_manage st m in
        match status with
        | 0 =>
            SEND_TO_CLIENT_OR_FAIL fuel
              (requested_with_report "resume_stopped_task" report_id) st
              (fun st => finish (set_forked st 1))
        | 1 =>
            SEND_TO_CLIENT_OR_FAIL fuel
              (XML_ERROR_SYNTAX "resume_stopped_task" "Task is active already") st finish
        | 22 =>
            SEND_TO_CLIENT_OR_FAIL fuel
              (XML_ERROR_SYNTAX "resume_stopped_task" "Task must be in Stopped state")
              st finish
        | 2 => finish (return_forked_status 2 st)
        | -10 => finish (return_forked_status (-10) st)
        | -6 =>
            SEND_TO_CLIENT_OR_FAIL fuel
              (XML_ERROR_SYNTAX "resume_stopped_task"
                 "There is already a task running in this process") st finish
        | -2 | -4 =>
            assert false
              (SEND_TO_CLIENT_OR_FAIL fuel (XML_INTERNAL_ERROR "resume_stopped_task") st finish)
        | -1 | -3 =>
            SEND_TO_CLIENT_OR_FAIL fuel (XML_INTERNAL_ERROR "resume_stopped_task") st finish
        | _ =>
            assert false
              (SEND_TO_CLIENT_OR_FAIL fuel (XML_INTERNAL_ERROR "resume_stopped_task") st finish)
        end
  | None =>
      SEND_TO_CLIENT_OR_FAIL fuel (XML_INTERNAL_ERROR "resume_stopped_task") st finish
  end.

Definition end_CLIENT_GET_TASKS (fuel : nat) (element_name : string) (st : omp_state)
  : outcome omp_state :=
  let finish := reset_and_return get_tasks_data_reset in
  let data := get_tasks (command_data st) in
  let list_tasks (task : task_t) : outcome omp_state :=
    SEND_TO_CLIENT_OR_FAIL fuel get_tasks_response_open st
      (fun st =>
         match get_tasks_listing (manage st) data task with
         | Some listing => SEND_ALL_TO_CLIENT_OR_FAIL fuel listing st finish
         | None => Aborted
         end) in
  assert (strcasecmp "GET_TASKS" element_name =? 0)
    match get_tasks_task_id data with
    | Some task_id =>
        let '(failed, task) := find_task (manage st) task_id in
        if (failed : bool) then
          SEND_TO_CLIENT_OR_FAIL fuel (XML_INTERNAL_ERROR "get_tasks") st finish
        else if task =? 0 then
          SEND_TO_CLIENT_OR_FAIL fuel (find_error_message "get_tasks" "task" task_id) st finish
        else list_tasks task
    | None => list_tasks 0
    end.

(** CREATE_TASK; the task exists in the database already, so each failure
    removes it. *)
Definition end_CLIENT_CREATE_TASK (fuel : nat) (element_name : string) (st : omp_state)
  : outcome omp_state :=
  let finish := reset_and_return create_task_data_reset in
  let data := create_task (command_data st) in
  let remove_task (st : omp_state) : omp_state :=
    set_manage st (snd (request_delete_task (manage st) (task data))) in
  assert (strcasecmp "CREATE_TASK" element_name =? 0)
    (assert (negb (task data =? 0))
       (let '(failed, tsk_uuid) := task_uuid (manage st) (task data) in
        if negb (failed =? 0) then
          SEND_TO_CLIENT_OR_FAIL fuel (XML_INTERNAL_ERROR "create_task") (remove_task st) finish
        else
          let description := task_description (manage st) (task data) in
          let has (p : option string) := match p with Some _ => true | None => false end in
          if (has description && (has (config_id data) || has (target_id data)))
             || (negb (has description)
                 && (negb (has (config_id data)) || negb (has (target_id data))))
          then
            SEND_TO_CLIENT_OR_FAIL fuel
              (XML_ERROR_SYNTAX "create_task"
                 "CREATE_TASK requires either an rcfile or both a config and a target")
              (remove_task st) finish
          else
          assert (has description || (has (config_id data) && has (target_id data)))
           (
            (* Set any escalator. *)
            let with_escalator (st : omp_state) (rest : omp_state -> outcome omp_state) :=
              match escalator_id data with
              | Some id =>
                  let '(failed, escalator) := find_escalator (manage st) id in
                  if (failed : bool) then
                    SEND_TO_CLIENT_OR_FAIL fuel (XML_INTERNAL_ERROR "create_task")
                      (remove_task st) finish
                  else if escalator =? 0 then
                    SEND_TO_CLIENT_OR_FAIL fuel
                      (XML_ERROR_SYNTAX "create_task" "CREATE_TASK escalator must exist")
                      (remove_task st) finish
                  else rest (set_manage st (add_task_escalator (manage st) (task data) escalator))
              | None => rest st
              end in
            (* Set any schedule. *)
            let with_schedule (st : omp_state) (rest : omp_state -> outcome omp_state) :=
              match schedule_id data with
              | Some id =>
                  let '(failed, schedule) := find_schedule (manage st) id in
                  if (failed : bool) then
                    SEND_TO_CLIENT_OR_FAIL fuel (XML_INTERNAL_ERROR "create_task")
                      (remove_task st) finish
                  else if schedule =? 0 then
                    SEND_TO_CLIENT_OR_FAIL fuel
                      (XML_ERROR_SYNTAX "create_task" "CREATE_TASK schedule must exist")
                      (remove_task st) finish
                  else rest (set_manage st (set_task_schedule (manage st) (task data) schedule))
              | None => rest st
              end in
            let internal_error (st : omp_state) :=
              SEND_TO_CLIENT_OR_FAIL fuel (XML_INTERNAL_ERROR "create_task")
                (remove_task st) finish in
            (* Send success response. *)
            let created (st : omp_state) :=
              SEND_TO_CLIENT_OR_FAIL fuel (XML_OK_CREATED_ID "create_task" tsk_uuid)
                st finish in
            with_escalator st (fun st =>
            with_schedule st (fun st =>
              (* Check for name. *)
              match task_name (manage st) (task data) with
              | None =>
                  SEND_TO_CLIENT_OR_FAIL fuel
                    (XML_ERROR_SYNTAX "create_task" "CREATE_TASK requires a name attribute")
                    (remove_task st) finish
              | Some name =>
                  (* If there is an rc file, setup the target and config,
                     otherwise check that the target and config exist. *)
                  match description with
                  | Some rc =>
                      (* Create the config. *)
                      let '(ret, config, m) :=
                        create_config_rc (manage st)
                          ("Imported config for task " +++ tsk_uuid) rc in
                      let st := set_manage st (set_task_config m (task data) config) in
                      if negb (ret =? 0) then internal_error st
                      else
                        (* Create the target. *)
                        match rc_preference rc "targets" with
                        | None =>
                            SEND_TO_CLIENT_OR_FAIL fuel
                              (XML_ERROR_SYNTAX "create_task"
                                 "CREATE_TASK rcfile must have targets")
                              (remove_task st) finish
                        | Some hosts =>
                            let '(ret, target, m) :=
                              create_target (manage st)
                                ("Imported target for task " +++ tsk_uuid) hosts in
                            let st := set_manage st m in
                            if negb (ret =? 0) then internal_error st
                            else
                              created
                                (set_manage st
                                   (set_task_target (manage st) (task data) target))
                        end
                  | None =>
                      match config_id data, target_id data with
                      | Some config_id, Some target_id =>
                          let '(failed, config) := find_config (manage st) config_id in
                          if (failed : bool) then internal_error st
                          else if config =? 0 then
                            SEND_TO_CLIENT_OR_FAIL fuel
                              (find_error_message "create_task" "config" config_id)
                              (remove_task st) finish
                          else
                          let '(failed, target) := find_target (manage st) target_id in
                          if (failed : bool) then internal_error st
                          else if target =? 0 then
                            SEND_TO_CLIENT_OR_FAIL fuel
                              (find_error_message "create_task" "target" target_id)
                              (remove_task st) finish
                          else
                            let set_all (slave : slave_t) :=
                              let m := set_task_config (manage st) (task data) config in
                              let m := set_task_slave m (task data) slave in
                              let m := set_task_target m (task data) target in
                              (* Generate the rcfile in the task. *)
                              let '(ret, m) := make_task_rcfile m (task data) in
                              let st := set_manage st m in
                              if negb (ret =? 0) then
                                SEND_TO_CLIENT_OR_FAIL fuel
                                  (XML_ERROR_SYNTAX "create_task"
                                     "Failed to generate task rcfile")
                                  (remove_task st) finish
                              else created st in
                            match slave_id data with
                            | Some slave_id =>
                                let '(failed, slave) := find_slave (manage st) slave_id in
                                if (failed : bool) then internal_error st
                                else if slave =? 0 then
                                  SEND_TO_CLIENT_OR_FAIL fuel
                                    (find_error_message "create_task" "target" slave_id)
                                    (remove_task st) finish
                                else set_all slave
                            | None => set_all 0
                            end
                      | _, _ =>
                          (* not reached: without an rc file the check above
                             wants both ids *)
                          Aborted
                      end
                  end
              end))))).

(** The end of COMMANDS, in any of the three states it can be met. *)
Definition end_COMMANDS (fuel : nat) (element_name : string) (st : omp_state)
  : outcome omp_state :=
  assert (strcasecmp "COMMANDS" element_name =? 0)
    (SEND_TO_CLIENT_OR_FAIL fuel "</commands_response>" st (fun st => Returns st)).

(** [omp_xml_handle_end_element], for the cases of its switch that this
    development follows; [None] for a case outside of it. *)
Definition omp_xml_handle_end_element (fuel : nat) (element_name : string)
  (st : omp_state) : option (outcome omp_state) :=
  match client_state st with
  | CLIENT_TOP => Some (assert false (Returns st))
  | CLIENT_AUTHENTICATE => Some (end_CLIENT_AUTHENTICATE fuel st)
  | CLIENT_AUTHENTICATE_CREDENTIALS =>
      Some (assert (strcasecmp "CREDENTIALS" element_name =? 0)
              (Returns (set_client_state st CLIENT_AUTHENTICATE)))
  | CLIENT_AUTHENTICATE_CREDENTIALS_USERNAME =>
      Some (assert (strcasecmp "USERNAME" element_name =? 0)
              (Returns (set_client_state st CLIENT_AUTHENTICATE_CREDENTIALS)))
  | CLIENT_AUTHENTICATE_CREDENTIALS_PASSWORD =>
      Some (assert (strcasecmp "PASSWORD" element_name =? 0)
              (Returns (set_client_state st CLIENT_AUTHENTICATE_CREDENTIALS)))
  | CLIENT_AUTHENTIC
  | CLIENT_COMMANDS
  | CLIENT_AUTHENTIC_COMMANDS => Some (end_COMMANDS fuel element_name st)
  | CLIENT_GET_VERSION
  | CLIENT_GET_VERSION_AUTHENTIC => Some (end_CLIENT_GET_VERSION fuel st)
  | CLIENT_DELETE_TASK => Some (end_CLIENT_DELETE_TASK fuel st)
  | CLIENT_CREATE_TASK => Some (end_CLIENT_CREATE_TASK fuel element_name st)
  | CLIENT_PAUSE_TASK => Some (end_CLIENT_PAUSE_TASK fuel st)
  | CLIENT_RESUME_OR_START_TASK => Some (end_CLIENT_RESUME_OR_START_TASK fuel st)
  | CLIENT_RESUME_PAUSED_TASK => Some (end_CLIENT_RESUME_PAUSED_TASK fuel st)
  | CLIENT_RESUME_STOPPED_TASK => Some (end_CLIENT_RESUME_STOPPED_TASK fuel st)
  | CLIENT_START_TASK => Some (end_CLIENT_START_TASK fuel st)
  | CLIENT_STOP_TASK => Some (end_CLIENT_STOP_TASK fuel st)
  | CLIENT_GET_TASKS => Some (end_CLIENT_GET_TASKS fuel element_name st)
  | _ => None
  end.

End EndElement.

(** ** The input processor *)

(** What the XML parser hands to the callbacks. *)
Inductive xml_event : Set :=
| StartElement (element_name : string) (attribute_names attribute_values : list string)
| Text (text : string)
| EndElement (element_name : string).

Section Input.
Context {host : Host} {library : Manage}.

Definition clear_error (st : omp_state) : omp_state :=
  {| client_state := client_state st;
     current_credentials := current_credentials st;
     command_data := command_data st;
     current_error := current_error st;
     forked := forked st;
     error := None;
     to_client_buffer := to_client_buffer st;
     write_to_client_data := write_to_client_data st;
     manage := manage st |}.

Definition handle_event (fuel : nat) (e : xml_event) (st : omp_state)
  : option (outcome omp_state) :=
  match e with
  | StartElement element_name attribute_names attribute_values =>
      Some (omp_xml_handle_start_element fuel element_name
              attribute_names attribute_values st)
  | Text text => Some (Returns (omp_xml_handle_text text st))
  | EndElement element_name => omp_xml_handle_end_element fuel element_name st
  end.

(** Modelled from the spec: the XML parser of the base library, seen from
    its callbacks.  It calls them in the order of the document and stops at
    the first that sets the error. *)
Fixpoint g_markup_parse_context_parse (fuel : nat) (events : list xml_event)
  (st : omp_state) : option (outcome omp_state) :=
  match events with
  | [] => Some (Returns st)
  | e :: events' =>
      match handle_event fuel e st with
      | Some (Returns st') =>
          match error st' with
          | Some _ => Some (Returns st')
          | None => g_markup_parse_context_parse fuel events' st'
          end
      | other => other
      end
  end.

(** [init_omp] and [init_omp_process]: the state of a new session. *)
Definition init_omp_process (c : client) (b : to_client_t) (m : manage_t) : omp_state :=
  {| client_state := CLIENT_TOP;
     current_credentials := {| username := None; password := None |};
     command_data := command_data_init;
     current_error := 0;
     forked := 0;
     error := None;
     to_client_buffer := b;
     write_to_client_data := c;
     manage := m |}.

(** [process_omp_client_input]: 0 success, -1 error, -4 XML syntax error, 3
    when a task was forked, or the status of a forked child. *)
Definition process_omp_client_input (fuel : nat) (events : list xml_event)
  (st : omp_state) : option (outcome (Z * omp_state)) :=
  let st := clear_error (set_current_error st 0) in
  match g_markup_parse_context_parse fuel events st with
  | Some (Returns st') =>
      Some (Returns
        match error st' with
        | Some e =>
            match code e with
            | G_MARKUP_ERROR_UNKNOWN_ELEMENT => (-4, st')
            | G_MARKUP_ERROR_INVALID_CONTENT =>
                if negb (current_error st' =? 0)
                then (current_error st', set_forked st' 2)
                else (-4, st')
            | G_MARKUP_ERROR_UNKNOWN_ATTRIBUTE => (-4, st')
            | G_MARKUP_ERROR_PARSE => (-1, st')
            end
        | None => if negb (forked st' =? 0) then (3, st') else (0, st')
        end)
  | Some Aborted => Some Aborted
  | Some Spinning => Some Spinning
  | None => None
  end.

End Input.

(** ** A management library over a table of tasks

    manage.c is not part of omp.c.  This library keeps the tasks in a table
    and follows the task life cycle of the specification; it is what the
    dispatch is run against where a property speaks of the tasks themselves. *)

Inductive task_status : Set :=
| TASK_STATUS_NEW
| TASK_STATUS_REQUESTED_START
| TASK_STATUS_RUNNING
| TASK_STATUS_REQUESTED_PAUSE
| TASK_STATUS_PAUSED
| TASK_STATUS_REQUESTED_STOP
| TASK_STATUS_STOPPED
| TASK_STATUS_DONE
| TASK_STATUS_REQUESTED_DELETE.

Record task_record : Set := {
  handle : task_t;
  uuid : string;
  run_status : task_status;
  hidden : bool;
  description : option string;
  task_escalator : escalator_t;
  task_schedule : schedule_t
}.

Record task_table : Set := {
  tasks : list task_record;
  accounts : list (string * string);
  escalators : list (string * escalator_t);
  schedules : list (string * schedule_t);
  configs : list (string * config_t);
  targets : list (string * target_t);
  slaves : list (string * slave_t);
  (** the task this process has forked a scan for, 0 for none *)
  current_scanner_task : task_t;
  (** whether the storage behind the table answers *)
  storage_ok : bool
}.

(** A task is idle when no scan of it is under way. *)
Definition idle (s : task_status) : bool :=
  match s with
  | TASK_STATUS_NEW | TASK_STATUS_STOPPED | TASK_STATUS_DONE => true
  | _ => false
  end.

Definition lookup_task (tbl : task_table) (t : task_t) : option task_record :=
  find (fun r => handle r =? t) (tasks tbl).

Definition set_tasks (tbl : task_table) (l : list task_record) (owned : task_t)
  : task_table :=
  {| tasks := l; accounts := accounts tbl; escalators := escalators tbl;
     schedules := schedules tbl; configs := configs tbl; targets := targets tbl;
     slaves := slaves tbl; current_scanner_task := owned;
     storage_ok := storage_ok tbl |}.

Definition remove_task (tbl : task_table) (t : task_t) : task_table :=
  set_tasks tbl (filter (fun r => negb (handle r =? t)) (tasks tbl))
    (current_scanner_task tbl).

Definition update_task (tbl : task_table) (t : task_t)
  (f : task_record -> task_record) (owned : task_t) : task_table :=
  set_tasks tbl (map (fun r => if handle r =? t then f r else r) (tasks tbl)) owned.

Definition with_status (s : task_status) (r : task_record) : task_record :=
  {| handle := handle r; uuid := uuid r; run_status := s; hidden := hidden r;
     description := description r; task_escalator := task_escalator r;
     task_schedule := task_schedule r |}.

Definition lookup_id {A : Type} (none : A) (l : list (string * A)) (id : string) : A :=
  match find (fun p => String.eqb (fst p) id) l with
  | Some p => snd p
  | None => none
  end.

(** Modelled from the spec: [find_task], the handle of the task with that
    id, or none; the lookup fails when the storage does. *)
Definition table_find_task (tbl : task_table) (id : string) : bool * task_t :=
  (negb (storage_ok tbl),
   match find (fun r => String.eqb (uuid r) id) (tasks tbl) with
   | Some r => handle r
   | None => 0
   end).

(** Modelled from the spec: [request_delete_task].  Delete is two-phase: an
    idle task is removed at once (0); for an active task the deletion is only
    flagged (1) and done when the run finishes; the reserved task used for
    escalator testing is excluded from deletion (2). *)
Definition table_request_delete_task (tbl : task_table) (t : task_t) : Z * task_table :=
  match lookup_task tbl t with
  | None => (-1, tbl)
  | Some r =>
      if hidden r then (2, tbl)
      else if idle (run_status r) then (0, remove_task tbl t)
      else (1, update_task tbl t (with_status TASK_STATUS_REQUESTED_DELETE)
                 (current_scanner_task tbl))
  end.

(** Modelled from the spec: the report of the scanner that the run of a task
    has finished.  A task flagged for deletion is deleted now, any other is
    done; the process owns no task any more. *)
Definition table_run_finished (tbl : task_table) (t : task_t) : task_table :=
  match lookup_task tbl t with
  | None => tbl
  | Some r =>
      match run_status r with
      | TASK_STATUS_REQUESTED_DELETE => set_tasks (remove_task tbl t) (tasks (remove_task tbl t)) 0
      | _ => update_task tbl t (with_status TASK_STATUS_DONE) 0
      end
  end.

Definition report_of (r : task_record) : string := "report-" +++ uuid r.

(** Modelled from the spec: [start_task].  At most one task is owned by a
    process: a start while a fork is outstanding is refused (-6); a task
    that is active already is refused (1); otherwise the start is requested
    and the run gets a report (0). *)
Definition table_start_task (tbl : task_table) (t : task_t) : Z * string * task_table :=
  if negb (current_scanner_task tbl =? 0) then (-6, EmptyString, tbl)
  else
    match lookup_task tbl t with
    | None => (-3, EmptyString, tbl)
    | Some r =>
        if idle (run_status r)
        then (0, report_of r, update_task tbl t (with_status TASK_STATUS_REQUESTED_START) t)
        else (1, EmptyString, tbl)
    end.

(** Modelled from the spec: [resume_stopped_task], a start that wants the
    task stopped (22 otherwise); [resume_or_start_task] resumes a stopped
    task and starts any other. *)
Definition table_resume_stopped_task (tbl : task_table) (t : task_t)
  : Z * string * task_table :=
  match lookup_task tbl t with
  | None => (-3, EmptyString, tbl)
  | Some r =>
      match run_status r with
      | TASK_STATUS_STOPPED => table_start_task tbl t
      | _ => (22, EmptyString, tbl)
      end
  end.

Definition table_resume_or_start_task (tbl : task_table) (t : task_t)
  : Z * string * task_table :=
  table_start_task tbl t.

(** Modelled from the spec: pause, resume and stop are cooperative: on a
    task in the right state they file the request and answer 1, on any other
    they have nothing to do and answer 0. *)
Definition table_request (from to : task_status) (tbl : task_table) (t : task_t)
  : Z * task_table :=
  match lookup_task tbl t with
  | None => (-1, tbl)
  | Some r =>
      match run_status r, from with
      | TASK_STATUS_RUNNING, TASK_STATUS_RUNNING
      | TASK_STATUS_PAUSED, TASK_STATUS_PAUSED =>
          (1, update_task tbl t (with_status to) (current_scanner_task tbl))
      | _, _ => (0, tbl)
      end
  end.

(** Modelled from the spec: [authenticate], 0 for the credentials of an
    account, 1 for any other. *)
Definition table_authenticate (tbl : task_table) (cr : credentials_t) : Z :=
  match username cr, password cr with
  | Some u, Some p =>
      if existsb (fun a => String.eqb (fst a) u && String.eqb (snd a) p) (accounts tbl)
      then 0 else 1
  | _, _ => 1
  end.

(** Modelled from the spec: the library over the table.  Loading the tasks
    and every lookup fail when the storage does; a lookup by id answers the
    handle filed under it, 0 for none; the listing of GET_TASKS is cut down
    to its closing tag; the table keeps no config, target or slave of a task
    and reads no RC file. *)
Definition table_library : Manage :=
  {| manage_t := task_table;
     authenticate := table_authenticate;
     load_tasks := fun tbl => (if storage_ok tbl then 0 else -1, tbl);
     save_tasks := fun tbl => (0, tbl);
     free_tasks := fun tbl => tbl;
     find_task := table_find_task;
     find_escalator := fun tbl id =>
       (negb (storage_ok tbl), lookup_id 0 (escalators tbl) id);
     find_schedule := fun tbl id =>
       (negb (storage_ok tbl), lookup_id 0 (schedules tbl) id);
     request_delete_task := table_request_delete_task;
     start_task := table_start_task;
     resume_or_start_task := table_resume_or_start_task;
     resume_stopped_task := table_resume_stopped_task;
     resume_paused_task := table_request TASK_STATUS_PAUSED TASK_STATUS_RUNNING;
     pause_task := table_request TASK_STATUS_RUNNING TASK_STATUS_REQUESTED_PAUSE;
     stop_task := table_request TASK_STATUS_RUNNING TASK_STATUS_REQUESTED_STOP;
     task_uuid := fun tbl t =>
       match lookup_task tbl t with
       | Some r => (0, uuid r)
       | None => (-1, EmptyString)
       end;
     task_description := fun tbl t =>
       match lookup_task tbl t with
       | Some r => description r
       | None => None
       end;
     add_task_escalator := fun tbl t e =>
       update_task tbl t
         (fun r => {| handle := handle r; uuid := uuid r; run_status := run_status r;
                      hidden := hidden r; description := description r;
                      task_escalator := e; task_schedule := task_schedule r |})
         (current_scanner_task tbl);
     set_task_schedule := fun tbl t s =>
       update_task tbl t
         (fun r => {| handle := handle r; uuid := uuid r; run_status := run_status r;
                      hidden := hidden r; description := description r;
                      task_escalator := task_escalator r; task_schedule := s |})
         (current_scanner_task tbl);
     get_tasks_listing := fun tbl data t => Some [ "</get_tasks_response>" ];
     task_name := fun tbl t => option_map uuid (lookup_task tbl t);
     create_config_rc := fun tbl name rc => (if storage_ok tbl then 0 else -1, 1, tbl);
     rc_preference := fun rc preference => None;
     create_target := fun tbl name hosts => (if storage_ok tbl then 0 else -1, 1, tbl);
     find_config := fun tbl id => (negb (storage_ok tbl), lookup_id 0 (configs tbl) id);
     find_target := fun tbl id => (negb (storage_ok tbl), lookup_id 0 (targets tbl) id);
     find_slave := fun tbl id => (negb (storage_ok tbl), lookup_id 0 (slaves tbl) id);
     set_task_config := fun tbl t c => tbl;
     set_task_target := fun tbl t g => tbl;
     set_task_slave := fun tbl t s => tbl;
     make_task_rcfile := fun tbl t => (0, tbl) |}.

(** ** The commands that name a task *)

(** The states of the commands that take a [task_id] attribute, each with
    the tag of its responses. *)
Definition task_commands : list (client_state_t * string) :=
  [ (CLIENT_DELETE_TASK, "delete_task");
    (CLIENT_GET_TASKS, "get_tasks");
    (CLIENT_PAUSE_TASK, "pause_task");
    (CLIENT_RESUME_OR_START_TASK, "resume_or_start_task");
    (CLIENT_RESUME_PAUSED_TASK, "resume_paused_task");
    (CLIENT_RESUME_STOPPED_TASK, "resume_stopped_task");
    (CLIENT_START_TASK, "start_task");
    (CLIENT_STOP_TASK, "stop_task") ].

(** Where each of them keeps the id. *)
Definition staged_task_id (s : client_state_t) (d : command_data_t) : option string :=
  match s with
  | CLIENT_GET_TASKS => get_tasks_task_id (get_tasks d)
  | _ => task_id_member d
  end.

(** The command roots whose dispatch is followed, and what it means for the
    data of each to be empty. *)
Definition followed_commands : list client_state_t :=
  CLIENT_CREATE_TASK :: map fst task_commands.

Definition command_data_empty (s : client_state_t) (d : command_data_t) : Prop :=
  match s with
  | CLIENT_CREATE_TASK => create_task d = create_task_data_zero
  | CLIENT_GET_TASKS => get_tasks d = get_tasks_data_zero
  | _ => task_id_member d = None
  end.

Section ForkCommands.
Context {library : Manage}.

(** The commands that fork a scan: state, tag and the call of the library. *)
Definition fork_commands
  : list (client_state_t * string * (manage_t -> task_t -> Z * string * manage_t)) :=
  [ (CLIENT_START_TASK, "start_task", start_task);
    (CLIENT_RESUME_OR_START_TASK, "resume_or_start_task", resume_or_start_task);
    (CLIENT_RESUME_STOPPED_TASK, "resume_stopped_task", resume_stopped_task) ].

End ForkCommands.

(** ** The command a state belongs to *)

Definition lower (s : string) : string :=
  string_of_list_ascii (map tolower (list_ascii_of_string s)).

(** Whether state [s] is [root] or lies below it in the element tables. *)
Fixpoint below (depth : nat) (root s : client_state_t) : bool :=
  client_state_eqb root s
  || match depth with
     | O => false
     | S depth' =>
         match start_element_case root with
         | Some sc => existsb (fun child => below depth' (snd child) s) (children sc)
         | None => false
         end
     end.

(** The name, in lower case, of the command element under which [s] is
    reached. *)
Definition owning_command (s : client_state_t) : option string :=
  option_map (fun command => lower (fst command))
    (find (fun command => below 8 (snd command) s) authentic_commands).

(** The elements accepted before authentication: in [CLIENT_TOP], and inside
    a COMMANDS element in [CLIENT_COMMANDS]. *)
Definition top_elements : list (string * client_state_t) :=
  [ ("GET_VERSION", CLIENT_GET_VERSION);
    ("AUTHENTICATE", CLIENT_AUTHENTICATE);
    ("COMMANDS", CLIENT_COMMANDS) ].

Definition commands_elements : list (string * client_state_t) :=
  [ ("AUTHENTICATE", CLIENT_AUTHENTICATE);
    ("COMMANDS", CLIENT_COMMANDS) ].

(** The states outside any command. *)
Definition top_level_states : list client_state_t :=
  [CLIENT_TOP; CLIENT_COMMANDS; CLIENT_AUTHENTIC; CLIENT_AUTHENTIC_COMMANDS].

(** The state a bogus element inside a command leads to. *)
Definition state_after_bogus_element (s : client_state_t) : client_state_t :=
  match s with
  | CLIENT_AUTHENTICATE | CLIENT_AUTHENTICATE_CREDENTIALS => CLIENT_TOP
  | _ => CLIENT_AUTHENTIC
  end.

(** ** Closing a sub-element

    The cases of [omp_xml_handle_end_element] that do nothing but check the
    name of the element and go back to the state of the enclosing element:
    for each such state, the name it asserts and the state it sets. *)
Definition end_sub_element_case (s : client_state_t) : option (string * client_state_t) :=
  match s with
  | CLIENT_AUTHENTICATE_CREDENTIALS => Some ("CREDENTIALS", CLIENT_AUTHENTICATE)
  | CLIENT_AUTHENTICATE_CREDENTIALS_PASSWORD => Some ("PASSWORD", CLIENT_AUTHENTICATE_CREDENTIALS)
  | CLIENT_AUTHENTICATE_CREDENTIALS_USERNAME => Some ("USERNAME", CLIENT_AUTHENTICATE_CREDENTIALS)
  | CLIENT_CREATE_AGENT_NAME => Some ("NAME", CLIENT_CREATE_AGENT)
  | CLIENT_CREATE_AGENT_COMMENT => Some ("COMMENT", CLIENT_CREATE_AGENT)
  | CLIENT_CREATE_AGENT_INSTALLER => Some ("INSTALLER", CLIENT_CREATE_AGENT)
  | CLIENT_CREATE_AGENT_INSTALLER_FILENAME => Some ("FILENAME", CLIENT_CREATE_AGENT_INSTALLER)
  | CLIENT_CREATE_AGENT_INSTALLER_SIGNATURE => Some ("SIGNATURE", CLIENT_CREATE_AGENT_INSTALLER)
  | CLIENT_CREATE_AGENT_HOWTO_INSTALL => Some ("HOWTO_INSTALL", CLIENT_CREATE_AGENT)
  | CLIENT_CREATE_AGENT_HOWTO_USE => Some ("HOWTO_USE", CLIENT_CREATE_AGENT)
  | CLIENT_CREATE_CONFIG_COMMENT => Some ("COMMENT", CLIENT_CREATE_CONFIG)
  | CLIENT_CREATE_CONFIG_COPY => Some ("COPY", CLIENT_CREATE_CONFIG)
  | CLIENT_CREATE_CONFIG_NAME => Some ("NAME", CLIENT_CREATE_CONFIG)
  | CLIENT_CREATE_CONFIG_RCFILE => Some ("RCFILE", CLIENT_CREATE_CONFIG)
  | CLIENT_C_C_GCR_CONFIG => Some ("CONFIG", CLIENT_C_C_GCR)
  | CLIENT_C_C_GCR_CONFIG_COMMENT => Some ("COMMENT", CLIENT_C_C_GCR_CONFIG)
  | CLIENT_C_C_GCR_CONFIG_NAME => Some ("NAME", CLIENT_C_C_GCR_CONFIG)
  | CLIENT_C_C_GCR_CONFIG_NVT_SELECTORS => Some ("NVT_SELECTORS", CLIENT_C_C_GCR_CONFIG)
  | CLIENT_C_C_GCR_CONFIG_NVT_SELECTORS_NVT_SELECTOR_NAME => Some ("NAME", CLIENT_C_C_GCR_CONFIG_NVT_SELECTORS_NVT_SELECTOR)
  | CLIENT_C_C_GCR_CONFIG_NVT_SELECTORS_NVT_SELECTOR_INCLUDE => Some ("INCLUDE", CLIENT_C_C_GCR_CONFIG_NVT_SELECTORS_NVT_SELECTOR)
  | CLIENT_C_C_GCR_CONFIG_NVT_SELECTORS_NVT_SELECTOR_TYPE => Some ("TYPE", CLIENT_C_C_GCR_CONFIG_NVT_SELECTORS_NVT_SELECTOR)
  | CLIENT_C_C_GCR_CONFIG_NVT_SELECTORS_NVT_SELECTOR_FAMILY_OR_NVT => Some ("FAMILY_OR_NVT", CLIENT_C_C_GCR_CONFIG_NVT_SELECTORS_NVT_SELECTOR)
  | CLIENT_C_C_GCR_CONFIG_PREFERENCES => Some ("PREFERENCES", CLIENT_C_C_GCR_CONFIG)
  | CLIENT_C_C_GCR_CONFIG_PREFERENCES_PREFERENCE_NAME => Some ("NAME", CLIENT_C_C_GCR_CONFIG_PREFERENCES_PREFERENCE)
  | CLIENT_C_C_GCR_CONFIG_PREFERENCES_PREFERENCE_NVT => Some ("NVT", CLIENT_C_C_GCR_CONFIG_PREFERENCES_PREFERENCE)
  | CLIENT_C_C_GCR_CONFIG_PREFERENCES_PREFERENCE_NVT_NAME => Some ("NAME", CLIENT_C_C_GCR_CONFIG_PREFERENCES_PREFERENCE_NVT)
  | CLIENT_C_C_GCR_CONFIG_PREFERENCES_PREFERENCE_TYPE => Some ("TYPE", CLIENT_C_C_GCR_CONFIG_PREFERENCES_PREFERENCE)
  | CLIENT_C_C_GCR_CONFIG_PREFERENCES_PREFERENCE_VALUE => Some ("VALUE", CLIENT_C_C_GCR_CONFIG_PREFERENCES_PREFERENCE)
  | CLIENT_CREATE_ESCALATOR_COMMENT => Some ("COMMENT", CLIENT_CREATE_ESCALATOR)
  | CLIENT_CREATE_ESCALATOR_CONDITION => Some ("CONDITION", CLIENT_CREATE_ESCALATOR)
  | CLIENT_CREATE_ESCALATOR_CONDITION_DATA_NAME => Some ("NAME", CLIENT_CREATE_ESCALATOR_CONDITION_DATA)
  | CLIENT_CREATE_ESCALATOR_EVENT => Some ("EVENT", CLIENT_CREATE_ESCALATOR)
  | CLIENT_CREATE_ESCALATOR_EVENT_DATA_NAME => Some ("NAME", CLIENT_CREATE_ESCALATOR_EVENT_DATA)
  | CLIENT_CREATE_ESCALATOR_METHOD => Some ("METHOD", CLIENT_CREATE_ESCALATOR)
  | CLIENT_CREATE_ESCALATOR_METHOD_DATA_NAME => Some ("NAME", CLIENT_CREATE_ESCALATOR_METHOD_DATA)
  | CLIENT_CREATE_ESCALATOR_NAME => Some ("NAME", CLIENT_CREATE_ESCALATOR)
  | CLIENT_CREATE_LSC_CREDENTIAL_COMMENT => Some ("COMMENT", CLIENT_CREATE_LSC_CREDENTIAL)
  | CLIENT_CREATE_LSC_CREDENTIAL_NAME => Some ("NAME", CLIENT_CREATE_LSC_CREDENTIAL)
  | CLIENT_CREATE_LSC_CREDENTIAL_PASSWORD => Some ("PASSWORD", CLIENT_CREATE_LSC_CREDENTIAL)
  | CLIENT_CREATE_LSC_CREDENTIAL_LOGIN => Some ("LOGIN", CLIENT_CREATE_LSC_CREDENTIAL)
  | CLIENT_CREATE_NOTE_HOSTS => Some ("HOSTS", CLIENT_CREATE_NOTE)
  | CLIENT_CREATE_NOTE_NVT => Some ("NVT", CLIENT_CREATE_NOTE)
  | CLIENT_CREATE_NOTE_PORT => Some ("PORT", CLIENT_CREATE_NOTE)
  | CLIENT_CREATE_NOTE_RESULT => Some ("RESULT", CLIENT_CREATE_NOTE)
  | CLIENT_CREATE_NOTE_TASK => Some ("TASK", CLIENT_CREATE_NOTE)
  | CLIENT_CREATE_NOTE_TEXT => Some ("TEXT", CLIENT_CREATE_NOTE)
  | CLIENT_CREATE_NOTE_THREAT => Some ("THREAT", CLIENT_CREATE_NOTE)
  | CLIENT_CREATE_OVERRIDE_HOSTS => Some ("HOSTS", CLIENT_CREATE_OVERRIDE)
  | CLIENT_CREATE_OVERRIDE_NEW_THREAT => Some ("NEW_THREAT", CLIENT_CREATE_OVERRIDE)
  | CLIENT_CREATE_OVERRIDE_NVT => Some ("NVT", CLIENT_CREATE_OVERRIDE)
  | CLIENT_CREATE_OVERRIDE_PORT => Some ("PORT", CLIENT_CREATE_OVERRIDE)
  | CLIENT_CREATE_OVERRIDE_RESULT => Some ("RESULT", CLIENT_CREATE_OVERRIDE)
  | CLIENT_CREATE_OVERRIDE_TASK => Some ("TASK", CLIENT_CREATE_OVERRIDE)
  | CLIENT_CREATE_OVERRIDE_TEXT => Some ("TEXT", CLIENT_CREATE_OVERRIDE)
  | CLIENT_CREATE_OVERRIDE_THREAT => Some ("THREAT", CLIENT_CREATE_OVERRIDE)
  | CLIENT_CRF_GRFR => Some ("GET_REPORT_FORMATS_RESPONSE", CLIENT_CREATE_REPORT_FORMAT)
  | CLIENT_CRF_GRFR_REPORT_FORMAT => Some ("REPORT_FORMAT", CLIENT_CRF_GRFR)
  | CLIENT_CRF_GRFR_REPORT_FORMAT_CONTENT_TYPE => Some ("CONTENT_TYPE", CLIENT_CRF_GRFR_REPORT_FORMAT)
  | CLIENT_CRF_GRFR_REPORT_FORMAT_DESCRIPTION => Some ("DESCRIPTION", CLIENT_CRF_GRFR_REPORT_FORMAT)
  | CLIENT_CRF_GRFR_REPORT_FORMAT_EXTENSION => Some ("EXTENSION", CLIENT_CRF_GRFR_REPORT_FORMAT)
  | CLIENT_CRF_GRFR_REPORT_FORMAT_GLOBAL => Some ("GLOBAL", CLIENT_CRF_GRFR_REPORT_FORMAT)
  | CLIENT_CRF_GRFR_REPORT_FORMAT_NAME => Some ("NAME", CLIENT_CRF_GRFR_REPORT_FORMAT)
  | CLIENT_CRF_GRFR_REPORT_FORMAT_PARAM_NAME => Some ("NAME", CLIENT_CRF_GRFR_REPORT_FORMAT_PARAM)
  | CLIENT_CRF_GRFR_REPORT_FORMAT_PARAM_VALUE => Some ("VALUE", CLIENT_CRF_GRFR_REPORT_FORMAT_PARAM)
  | CLIENT_CRF_GRFR_REPORT_FORMAT_SIGNATURE => Some ("SIGNATURE", CLIENT_CRF_GRFR_REPORT_FORMAT)
  | CLIENT_CRF_GRFR_REPORT_FORMAT_SUMMARY => Some ("SUMMARY", CLIENT_CRF_GRFR_REPORT_FORMAT)
  | CLIENT_CRF_GRFR_REPORT_FORMAT_TRUST => Some ("TRUST", CLIENT_CRF_GRFR_REPORT_FORMAT)
  | CLIENT_CREATE_SCHEDULE_NAME => Some ("NAME", CLIENT_CREATE_SCHEDULE)
  | CLIENT_CREATE_SCHEDULE_COMMENT => Some ("COMMENT", CLIENT_CREATE_SCHEDULE)
  | CLIENT_CREATE_SCHEDULE_FIRST_TIME => Some ("FIRST_TIME", CLIENT_CREATE_SCHEDULE)
  | CLIENT_CREATE_SCHEDULE_FIRST_TIME_DAY_OF_MONTH => Some ("DAY_OF_MONTH", CLIENT_CREATE_SCHEDULE_FIRST_TIME)
  | CLIENT_CREATE_SCHEDULE_FIRST_TIME_HOUR => Some ("HOUR", CLIENT_CREATE_SCHEDULE_FIRST_TIME)
  | CLIENT_CREATE_SCHEDULE_FIRST_TIME_MINUTE => Some ("MINUTE", CLIENT_CREATE_SCHEDULE_FIRST_TIME)
  | CLIENT_CREATE_SCHEDULE_FIRST_TIME_MONTH => Some ("MONTH", CLIENT_CREATE_SCHEDULE_FIRST_TIME)
  | CLIENT_CREATE_SCHEDULE_FIRST_TIME_YEAR => Some ("YEAR", CLIENT_CREATE_SCHEDULE_FIRST_TIME)
  | CLIENT_CREATE_SCHEDULE_DURATION => Some ("DURATION", CLIENT_CREATE_SCHEDULE)
  | CLIENT_CREATE_SCHEDULE_DURATION_UNIT => Some ("UNIT", CLIENT_CREATE_SCHEDULE_DURATION)
  | CLIENT_CREATE_SCHEDULE_PERIOD => Some ("PERIOD", CLIENT_CREATE_SCHEDULE)
  | CLIENT_CREATE_SCHEDULE_PERIOD_UNIT => Some ("UNIT", CLIENT_CREATE_SCHEDULE_PERIOD)
  | CLIENT_CREATE_SLAVE_COMMENT => Some ("COMMENT", CLIENT_CREATE_SLAVE)
  | CLIENT_CREATE_SLAVE_HOST => Some ("HOST", CLIENT_CREATE_SLAVE)
  | CLIENT_CREATE_SLAVE_LOGIN => Some ("LOGIN", CLIENT_CREATE_SLAVE)
  | CLIENT_CREATE_SLAVE_NAME => Some ("NAME", CLIENT_CREATE_SLAVE)
  | CLIENT_CREATE_SLAVE_PASSWORD => Some ("PASSWORD", CLIENT_CREATE_SLAVE)
  | CLIENT_CREATE_SLAVE_PORT => Some ("PORT", CLIENT_CREATE_SLAVE)
  | CLIENT_CREATE_TARGET_COMMENT => Some ("COMMENT", CLIENT_CREATE_TARGET)
  | CLIENT_CREATE_TARGET_HOSTS => Some ("HOSTS", CLIENT_CREATE_TARGET)
  | CLIENT_CREATE_TARGET_LSC_CREDENTIAL => Some ("LSC_CREDENTIAL", CLIENT_CREATE_TARGET)
  | CLIENT_CREATE_TARGET_NAME => Some ("NAME", CLIENT_CREATE_TARGET)
  | CLIENT_CREATE_TARGET_TARGET_LOCATOR => Some ("TARGET_LOCATOR", CLIENT_CREATE_TARGET)
  | CLIENT_CREATE_TARGET_TARGET_LOCATOR_PASSWORD => Some ("PASSWORD", CLIENT_CREATE_TARGET_TARGET_LOCATOR)
  | CLIENT_CREATE_TARGET_TARGET_LOCATOR_USERNAME => Some ("USERNAME", CLIENT_CREATE_TARGET_TARGET_LOCATOR)
  | CLIENT_CREATE_TASK_COMMENT => Some ("COMMENT", CLIENT_CREATE_TASK)
  | CLIENT_CREATE_TASK_CONFIG => Some ("CONFIG", CLIENT_CREATE_TASK)
  | CLIENT_CREATE_TASK_ESCALATOR => Some ("ESCALATOR", CLIENT_CREATE_TASK)
  | CLIENT_CREATE_TASK_NAME => Some ("NAME", CLIENT_CREATE_TASK)
  | CLIENT_CREATE_TASK_SCHEDULE => Some ("SCHEDULE", CLIENT_CREATE_TASK)
  | CLIENT_CREATE_TASK_SLAVE => Some ("SLAVE", CLIENT_CREATE_TASK)
  | CLIENT_CREATE_TASK_TARGET => Some ("TARGET", CLIENT_CREATE_TASK)
  | CLIENT_MODIFY_REPORT_COMMENT => Some ("COMMENT", CLIENT_MODIFY_REPORT)
  | CLIENT_MODIFY_REPORT_FORMAT_NAME => Some ("NAME", CLIENT_MODIFY_REPORT_FORMAT)
  | CLIENT_MODIFY_REPORT_FORMAT_SUMMARY => Some ("SUMMARY", CLIENT_MODIFY_REPORT_FORMAT)
  | CLIENT_MODIFY_CONFIG_PREFERENCE => Some ("PREFERENCE", CLIENT_MODIFY_CONFIG)
  | CLIENT_MODIFY_CONFIG_PREFERENCE_NAME => Some ("NAME", CLIENT_MODIFY_CONFIG_PREFERENCE)
  | CLIENT_MODIFY_CONFIG_PREFERENCE_NVT => Some ("NVT", CLIENT_MODIFY_CONFIG_PREFERENCE)
  | CLIENT_MODIFY_CONFIG_FAMILY_SELECTION => Some ("FAMILY_SELECTION", CLIENT_MODIFY_CONFIG)
  | CLIENT_MODIFY_CONFIG_FAMILY_SELECTION_FAMILY_NAME => Some ("NAME", CLIENT_MODIFY_CONFIG_FAMILY_SELECTION_FAMILY)
  | CLIENT_MODIFY_CONFIG_NVT_SELECTION => Some ("NVT_SELECTION", CLIENT_MODIFY_CONFIG)
  | CLIENT_MODIFY_CONFIG_NVT_SELECTION_FAMILY => Some ("FAMILY", CLIENT_MODIFY_CONFIG_NVT_SELECTION)
  | CLIENT_MODIFY_NOTE_HOSTS => Some ("HOSTS", CLIENT_MODIFY_NOTE)
  | CLIENT_MODIFY_NOTE_PORT => Some ("PORT", CLIENT_MODIFY_NOTE)
  | CLIENT_MODIFY_NOTE_RESULT => Some ("RESULT", CLIENT_MODIFY_NOTE)
  | CLIENT_MODIFY_NOTE_TASK => Some ("TASK", CLIENT_MODIFY_NOTE)
  | CLIENT_MODIFY_NOTE_TEXT => Some ("TEXT", CLIENT_MODIFY_NOTE)
  | CLIENT_MODIFY_NOTE_THREAT => Some ("THREAT", CLIENT_MODIFY_NOTE)
  | CLIENT_MODIFY_OVERRIDE_HOSTS => Some ("HOSTS", CLIENT_MODIFY_OVERRIDE)
  | CLIENT_MODIFY_OVERRIDE_NEW_THREAT => Some ("NEW_THREAT", CLIENT_MODIFY_OVERRIDE)
  | CLIENT_MODIFY_OVERRIDE_PORT => Some ("PORT", CLIENT_MODIFY_OVERRIDE)
  | CLIENT_MODIFY_OVERRIDE_RESULT => Some ("RESULT", CLIENT_MODIFY_OVERRIDE)
  | CLIENT_MODIFY_OVERRIDE_TASK => Some ("TASK", CLIENT_MODIFY_OVERRIDE)
  | CLIENT_MODIFY_OVERRIDE_TEXT => Some ("TEXT", CLIENT_MODIFY_OVERRIDE)
  | CLIENT_MODIFY_OVERRIDE_THREAT => Some ("THREAT", CLIENT_MODIFY_OVERRIDE)
  | CLIENT_MODIFY_TASK_COMMENT => Some ("COMMENT", CLIENT_MODIFY_TASK)
  | CLIENT_MODIFY_TASK_ESCALATOR => Some ("ESCALATOR", CLIENT_MODIFY_TASK)
  | CLIENT_MODIFY_TASK_FILE => Some ("FILE", CLIENT_MODIFY_TASK)
  | CLIENT_MODIFY_TASK_NAME => Some ("NAME", CLIENT_MODIFY_TASK)
  | CLIENT_MODIFY_TASK_RCFILE => Some ("RCFILE", CLIENT_MODIFY_TASK)
  | CLIENT_MODIFY_TASK_SCHEDULE => Some ("SCHEDULE", CLIENT_MODIFY_TASK)
  | _ => None
  end.

Section EndSubElement.
Context {host : Host} {library : Manage}.

(** [omp_xml_handle_end_element] in one of these states:
    assert (strcasecmp (NAME, element_name) == 0); set_client_state (PARENT). *)
Definition end_sub_element (element_name : string) (st : omp_state)
  : option (outcome omp_state) :=
  match end_sub_element_case (client_state st) with
  | Some (name, parent) =>
      Some (assert (strcasecmp name element_name =? 0)
              (Returns (set_client_state st parent)))
  | None => None
  end.

End EndSubElement.

(** ** Helper functions

    What the helpers at the head of omp.c take from the C library and from
    GLib, as far as they use it. *)

Definition char_in (lo hi : nat) (c : ascii) : bool :=
  (lo <=? nat_of_ascii c)%nat && (nat_of_ascii c <=? hi)%nat.

(** [isdigit], [isxdigit] and [isspace] of the C locale. *)
Definition isdigit (c : ascii) : bool := char_in 48 57 c.

Definition isxdigit (c : ascii) : bool :=
  isdigit c || char_in 65 70 c || char_in 97 102 c.

Definition isspace (c : ascii) : bool :=
  char_in 9 13 c || (nat_of_ascii c =? 32)%nat.

Definition INT_MIN : Z := -2147483648.
Definition INT_MAX : Z := 2147483647.
Definition LONG_MIN : Z := -9223372036854775808.
Definition LONG_MAX : Z := 9223372036854775807.

Definition in_int (z : Z) : bool := (INT_MIN <=? z) && (z <=? INT_MAX).

(** The conversion of a long to int: the value modulo 2^32. *)
Definition to_int (z : Z) : Z := (z + 2147483648) mod 4294967296 - 2147483648.

(** A product of two ints; signed overflow is undefined, [None]. *)
Definition int_times (a : option Z) (k : Z) : option Z :=
  match a with
  | Some a => if in_int (a * k) then Some (a * k) else None
  | None => None
  end.

Fixpoint skip_spaces (s : string) : string :=
  match s with
  | String c rest => if isspace c then skip_spaces rest else s
  | EmptyString => s
  end.

(** The value of the decimal digits a string starts with. *)
Fixpoint digits_value (acc : Z) (s : string) : Z :=
  match s with
  | String c rest =>
      if isdigit c then digits_value (acc * 10 + (Z.of_nat (nat_of_ascii c) - 48)) rest
      else acc
  | EmptyString => acc
  end.

(** [strtol (nptr, NULL, 10)] with a long of 64 bits: white space, a sign,
    digits; the value, clamped, and whether errno is ERANGE. *)
Definition strtol (nptr : string) : Z * bool :=
  let s := skip_spaces nptr in
  let '(negative, s) :=
    match s with
    | String c rest =>
        if Ascii.eqb c "-" then (true, rest)
        else if Ascii.eqb c "+" then (false, rest)
        else (false, s)
    | EmptyString => (false, s)
    end in
  let value := digits_value 0 s in
  let value := if (negative : bool) then - value else value in
  if value >? LONG_MAX then (LONG_MAX, true)
  else if value <? LONG_MIN then (LONG_MIN, true)
  else (value, false).

(** [atoi] as the GNU C library has it: (int) strtol (nptr, NULL, 10). *)
Definition atoi (nptr : string) : Z := to_int (fst (strtol nptr)).

(** [strchr (s, c)] followed by the increment of the pointer: what follows
    the first [c], NULL if there is none. *)
Fixpoint after_strchr (s : string) (c : ascii) : option string :=
  match s with
  | String d rest => if Ascii.eqb d c then Some rest else after_strchr rest c
  | EmptyString => None
  end.

(** The pieces of a string between the occurrences of a delimiter. *)
Fixpoint split_at (delimiter : ascii) (s : string) : list string :=
  match s with
  | EmptyString => [EmptyString]
  | String c rest =>
      if Ascii.eqb c delimiter then EmptyString :: split_at delimiter rest
      else
        match split_at delimiter rest with
        | piece :: pieces => String c piece :: pieces
        | [] => [String c EmptyString]
        end
  end.

(** [g_strsplit (string, delimiter, 0)] for a delimiter of one character:
    the pieces, and the empty vector for the empty string. *)
Definition g_strsplit (s : string) (delimiter : ascii) : list string :=
  match s with
  | EmptyString => []
  | _ => split_at delimiter s
  end.

(** [is_uuid]: 1 yes, 0 no. *)
Fixpoint is_uuid (uuid : string) : Z :=
  match uuid with
  | EmptyString => 1
  | String c rest => if isxdigit c || Ascii.eqb c "-" then is_uuid rest else 0
  end.

(** [interval_from_strings].  [months] is the time_t behind the pointer,
    [None] for a NULL pointer; the result is the interval with the time_t
    after the call, [None] where a product overflows. *)
Definition interval_from_strings (value unit : option string) (months : option Z)
  : option (Z * option Z) :=
  match value with
  | None => Some (0, months)
  | Some value =>
      let unit_is (name : string) : bool :=
        match unit with
        | Some unit => strcasecmp unit name =? 0
        | None => false
        end in
      let seconds (interval : option Z) : option (Z * option Z) :=
        option_map (fun interval => (interval, months)) interval in
      let in_months (number : option Z) : option (Z * option Z) :=
        option_map (fun number => (0, Some number)) number in
      let value := Some (atoi value) in
      if match unit with None => true | Some _ => false end || unit_is "second" then
        seconds value
      else if unit_is "minute" then seconds (int_times value 60)
      else if unit_is "hour" then seconds (int_times (int_times value 60) 60)
      else if unit_is "day" then seconds (int_times (int_times (int_times value 60) 60) 24)
      else if unit_is "week" then
        seconds (int_times (int_times (int_times (int_times value 60) 60) 24) 7)
      else
        match months with
        | Some _ =>
            if unit_is "month" then in_months value
            else if unit_is "year" then in_months (int_times value 12)
            else if unit_is "decade" then in_months (int_times (int_times value 12) 10)
            else Some (-1, months)
        | None => Some (-1, months)
        end
  end.

Section MaxHosts.

(** [inet_aton] of the C library: the four bytes of the address in network
    order, [None] where it returns 0. *)
Variable inet_aton : string -> option (Z * Z * Z * Z).

(** [ntohl] of the address. *)
Definition ntohl (addr : Z * Z * Z * Z) : Z :=
  let '(a, b, c, d) := addr in
  Z.shiftl a 24 + Z.shiftl b 16 + Z.shiftl c 8 + d.

(** The loop that turns a netmask into a number of bits. *)
Fixpoint netmask_bits (fuel : nat) (mask haddr : Z) : outcome Z :=
  if Z.land haddr 1 =? 0 then
    match fuel with
    | O => Spinning
    | S fuel' => netmask_bits fuel' (mask - 1) (Z.shiftr haddr 1)
    end
  else Returns mask.

(** The loop of [max_hosts] over the entries. *)
Fixpoint max_hosts_loop (fuel : nat) (point : list string) (count : Z) : outcome Z :=
  match point with
  | [] => Returns (to_int count)
  | entry :: point' =>
      match after_strchr entry "/" with
      | Some slash =>
          match slash with
          | String _ _ =>
              (* Calculate number of hosts. *)
              let counted (mask : Z) : outcome Z :=
                let count := count + Z.shiftl 1 (32 - mask) in
                (* Leave out the network and broadcast addresses. *)
                let count := if mask <? 31 then count - 1 else count in
                max_hosts_loop fuel point' count in
              let netmask :=
                if atoi slash >? 32 then inet_aton slash else None in
              match netmask with
              | Some addr =>
                  (* 192.168.200.0/255.255.255.252 *)
                  do mask <- netmask_bits fuel 32 (ntohl addr);
                  if (mask <? 8) || (mask >? 32) then Returns (-1) else counted mask
              | None =>
                  (* 192.168.200.0/30 *)
                  let '(mask, erange) := strtol slash in
                  if (erange : bool) || (mask <? 8) || (mask >? 32) then Returns (-1)
                  else counted mask
              end
          | EmptyString =>
              (* Just a trailing /. *)
              max_hosts_loop fuel point' (count + 1)
          end
      | None => max_hosts_loop fuel point' (count + 1)
      end
  end.

(** [max_hosts]: the number of hosts described by a hosts string, or -1. *)
Definition max_hosts (fuel : nat) (hosts : string) : outcome Z :=
  max_hosts_loop fuel (g_strsplit hosts ",") 0.

End MaxHosts.

(** ** convert_to_newlines

    The function edits a copy of the text in place.  Memory is the copy,
    terminator included, followed by the bytes that lie behind it; a pointer
    is an offset from the start of the copy. *)

Definition peek (mem : list ascii) (p : Z) : ascii := nth (Z.to_nat p) mem zero.

Definition poke (mem : list ascii) (p : Z) (c : ascii) : list ascii :=
  firstn (Z.to_nat p) mem ++ c :: skipn (S (Z.to_nat p)) mem.

(** [memmove (dst, src, n)] inside the memory: the [n] bytes at [src] are
    read first, then written at [dst]. *)
Definition memmove_within (mem : list ascii) (dst src n : Z) : list ascii :=
  firstn (Z.to_nat dst) mem
  ++ firstn (Z.to_nat n) (skipn (Z.to_nat src) mem)
  ++ skipn (Z.to_nat dst + Z.to_nat n) mem.

(** [left--] on a gsize of 64 bits. *)
Definition gsize_dec (left : Z) : Z := (left - 1) mod 18446744073709551616.

Definition backslash : ascii := ascii_of_nat 92.
Definition newline : ascii := ascii_of_nat 10.

(** The loop of [convert_to_newlines]; one unit of fuel per iteration. *)
Fixpoint convert_to_newlines_loop (fuel : nat) (mem : list ascii) (ch left : Z)
  : outcome (list ascii) :=
  if Ascii.eqb (peek mem ch) zero then Returns mem
  else
    match fuel with
    | O => Spinning
    | S fuel' =>
        if Ascii.eqb (peek mem ch) backslash then
          let ch := ch + 1 in
          if Ascii.eqb (peek mem ch) "r" then
            (* \r is flushed *)
            let mem := memmove_within mem (ch - 1) (ch + 1) left in
            let left := gsize_dec left in
            let ch := ch - 2 in
            convert_to_newlines_loop fuel' mem (ch + 1) (gsize_dec left)
          else if Ascii.eqb (peek mem ch) "n" then
            (* \n becomes one newline *)
            let mem := memmove_within mem ch (ch + 1) left in
            let left := gsize_dec left in
            let mem := poke mem (ch - 1) newline in
            let ch := ch - 1 in
            convert_to_newlines_loop fuel' mem (ch + 1) (gsize_dec left)
          else
            let ch := ch - 1 in
            convert_to_newlines_loop fuel' mem (ch + 1) (gsize_dec left)
        else convert_to_newlines_loop fuel' mem (ch + 1) (gsize_dec left)
    end.

(** [convert_to_newlines]: the memory when the function returns, the new
    string at its start; [behind] is what lies behind the copy. *)
Definition convert_to_newlines (fuel : nat) (text : string) (behind : list ascii)
  : outcome (list ascii) :=
  let left := Z.of_nat (strlen text) in
  let new := chars text ++ [zero] in
  convert_to_newlines_loop fuel (new ++ behind) 0 left.

(** The C string at the start of a memory. *)
Fixpoint c_string (mem : list ascii) : list ascii :=
  match mem with
  | [] => []
  | c :: mem' => if Ascii.eqb c zero then [] else c :: c_string mem'
  end.

(** The text with each backslash-r dropped and each backslash-n replaced by
    a newline, read from left to right. *)
Fixpoint newlines_converted (text : list ascii) : list ascii :=
  match text with
  | [] => []
  | c :: rest =>
      match rest with
      | d :: rest' =>
          if Ascii.eqb c backslash && Ascii.eqb d "r" then newlines_converted rest'
          else if Ascii.eqb c backslash && Ascii.eqb d "n"
               then newline :: newlines_converted rest'
               else c :: newlines_converted rest
      | [] => [c]
      end
  end.

(** ** Hosts to run the model on

    Three write callbacks over a connection that records what it was given:
    one that always takes everything queued, one whose peer takes nothing,
    and one whose socket is broken. *)

Definition drain (b : to_client_t) : to_client_t :=
  {| to_client := to_client b; to_client_start := 0; to_client_end := 0 |}.

(** Writes everything from [to_client_start] to [to_client_end], resets both
    cursors and answers 0. *)
Definition flushing_write (c : list ascii) (b : to_client_t)
  : Z * list ascii * to_client_t :=
  (0, c ++ firstn (to_client_end b - to_client_start b)
              (skipn (to_client_start b) (to_client b)), drain b).

Definition flushing_host (size : nat) : Host :=
  {| TO_CLIENT_BUFFER_SIZE := size;
     NDEBUG := false;
     client := list ascii;
     write_to_client := flushing_write;
     wire := fun c => c |}.

(** The peer accepts nothing for now: the callback writes no byte, leaves the
    cursors and answers -2. *)
Definition stalled_host (size : nat) : Host :=
  {| TO_CLIENT_BUFFER_SIZE := size;
     NDEBUG := false;
     client := list ascii;
     write_to_client := fun c b => (-2, c, b);
     wire := fun c => c |}.

(** The socket is broken: the callback answers -1. *)
Definition broken_host (size : nat) : Host :=
  {| TO_CLIENT_BUFFER_SIZE := size;
     NDEBUG := false;
     client := list ascii;
     write_to_client := fun c b => (-1, c, b);
     wire := fun c => c |}.

(** The buffer of a new session: nothing queued. *)
Definition empty_buffer (size : nat) : to_client_t :=
  {| to_client := repeat zero size; to_client_start := 0; to_client_end := 0 |}.

(** ** A session to run the model on *)

(** A host with a buffer of 64 bytes that the peer always drains. *)
Definition demo_host : Host := flushing_host 64.

Definition demo_task (h : task_t) (id : string) (s : task_status) (hide : bool)
  : task_record :=
  {| handle := h; uuid := id; run_status := s; hidden := hide;
     description := None; task_escalator := 0; task_schedule := 0 |}.

(** One new task, one running, and the hidden task; one account; [owned] is
    the task the process has forked for. *)
Definition demo_table (owned : task_t) (storage : bool) : task_table :=
  {| tasks := [ demo_task 1 "t1" TASK_STATUS_NEW false;
                demo_task 2 "t2" TASK_STATUS_RUNNING false;
                demo_task 3 "t3" TASK_STATUS_DONE true ];
     accounts := [ ("alice", "secret") ];
     escalators := [];
     schedules := [];
     configs := [ ("c1", 1) ];
     targets := [ ("g1", 1) ];
     slaves := [];
     current_scanner_task := owned;
     storage_ok := storage |}.

Definition demo_state (s : client_state_t) (cr : credentials_t) (d : command_data_t)
  (tbl : task_table) : @omp_state demo_host table_library :=
  {| client_state := s;
     current_credentials := cr;
     command_data := d;
     current_error := 0;
     forked := 0;
     error := None;
     to_client_buffer := empty_buffer 64;
     write_to_client_data := (@nil ascii : @client demo_host);
     manage := (tbl : @manage_t table_library) |}.

Definition no_credentials : credentials_t := {| username := None; password := None |}.

Definition demo_credentials (pw : string) : credentials_t :=
  {| username := Some "alice"; password := Some pw |}.

(** The command data of a task command that names task [id]. *)
Definition naming_task (id : string) : command_data_t :=
  set_task_id_member command_data_init (Some id).

(** What a callback left behind: the state and everything sent so far. *)
Definition observed {host : Host} {library : Manage}
  (run : option (outcome omp_state)) : option (client_state_t * string) :=
  match run with
  | Some (Returns st') =>
      Some (client_state st', string_of_list_ascii (session_output st'))
  | _ => None
  end.

(** A call that is still in its loop whatever the fuel. *)
Definition never_returns {A : Type} (run : nat -> outcome A) : Prop :=
  forall fuel, run fuel = Spinning.

(** The state a callback came back with, [st] itself if it did not. *)
Definition state_after {host : Host} {library : Manage}
  (run : option (outcome omp_state)) (st : omp_state) : omp_state :=
  match run with
  | Some (Returns st') => st'
  | _ => st
  end.

(** The command data of a GET_TASKS that names task [id]. *)
Definition get_tasks_naming (id : string) : command_data_t :=
  set_get_tasks command_data_init
    {| get_tasks_task_id := Some id; get_tasks_sort_field := None |}.

(** The data of a CREATE_TASK whose task, config and target exist, with the
    ids it gives for escalator and slave. *)
Definition create_task_naming (escalator slave : option string) : command_data_t :=
  {| create_task :=
       {| config_id := Some "c1"; escalator_id := escalator; schedule_id := None;
          slave_id := slave; target_id := Some "g1"; task := 1 |};
     get_tasks := get_tasks command_data_init;
     task_id_member := task_id_member command_data_init |}.

(** A DELETE_TASK naming t1 about to close on a host whose socket is broken. *)
Definition broken_delete_task : @omp_state (broken_host 4) table_library :=
  {| client_state := CLIENT_DELETE_TASK;
     current_credentials := no_credentials;
     command_data := naming_task "t1";
     current_error := 0;
     forked := 0;
     error := None;
     to_client_buffer := empty_buffer 4;
     write_to_client_data := (@nil ascii : @client (broken_host 4));
     manage := (demo_table 0 true : @manage_t table_library) |}.

(** ** What the properties are stated with *)

Section HostProperties.
Context {host : Host}.

(** The callback neither loses nor reorders: whenever it does not report an
    error, the bytes on the wire followed by the bytes still queued are the
    same before and after, and the cursors stay in order. *)
Definition faithful_host : Prop :=
  forall c b r c' b',
    buffer_ok b -> write_to_client c b = (r, c', b') -> r <> -1 ->
    buffer_ok b' /\ output c' b' = output c b.

(** The callback never comes back with a full buffer: it reports an error,
    or answers 0 or -2 having left room at the end of the array. *)
Definition makes_room : Prop :=
  forall c b r c' b',
    buffer_ok b -> write_to_client c b = (r, c', b') ->
    r = -1 \/ ((r = 0 \/ r = -2) /\ buffer_ok b'
               /\ (to_client_end b' < TO_CLIENT_BUFFER_SIZE)%nat).

(** A host whose connection works: the callback is faithful, never reports
    an error and never comes back with a full buffer. *)
Definition reliable_host : Prop :=
  faithful_host
  /\ forall c b r c' b',
       buffer_ok b -> write_to_client c b = (r, c', b') ->
       (r = 0 \/ r = -2) /\ (to_client_end b' < TO_CLIENT_BUFFER_SIZE)%nat.

End HostProperties.

Section CallbackProperties.
Context {host : Host} {library : Manage}.

(** The error a callback sets when a response could not be queued. *)
Definition out_of_space : GError :=
  {| code := G_MARKUP_ERROR_PARSE;
     message := "Manager out of space for reply to client." |}.

(** The buffer is in order and no error is pending: the state in which the
    parser enters a callback. *)
Definition callback_entry (st : omp_state) : Prop :=
  buffer_ok (to_client_buffer st) /\ error st = None.

(** [st'] is [st] after queuing exactly these messages, one after the other. *)
Definition has_sent (st : omp_state) (msgs : list string) (st' : omp_state) : Prop :=
  buffer_ok (to_client_buffer st')
  /\ session_output st' = session_output st ++ List.concat (map chars msgs).

(** The callback [run] comes back having queued exactly [msgs], in a state
    that satisfies [post]. *)
Definition answers (run : option (outcome omp_state)) (st : omp_state)
  (msgs : list string) (post : omp_state -> Prop) : Prop :=
  exists st', run = Some (Returns st') /\ has_sent st msgs st' /\ post st'.

(** What it takes for the outcome of a callback to close command [s]:
    whenever it came back without a write failure, the state is Authentic
    and the data of the command is empty. *)
Definition closes (s : client_state_t) (o : outcome omp_state) : Prop :=
  forall st',
    o = Returns st' -> error st' <> Some out_of_space ->
    client_state st' = CLIENT_AUTHENTIC /\ command_data_empty s (command_data st').

End CallbackProperties.

(** The error a callback sets for an element it does not accept. *)
Definition unknown_element (m : string) : option GError :=
  Some {| code := G_MARKUP_ERROR_UNKNOWN_ELEMENT; message := m |}.

(** ** More of the host *)

Section FailingWrites.
Context {host : Host}.

(** A callback that reports an error has neither taken nor lost a byte. *)
Definition failure_keeps_output : Prop :=
  forall c b c' b',
    buffer_ok b -> write_to_client c b = (-1, c', b') ->
    buffer_ok b' /\ output c' b' = output c b.

End FailingWrites.

(** A connection that takes everything queued for a number of calls and is
    broken after that; the connection records what it was given and how
    many calls are left. *)
Definition flaky_host (size : nat) : Host :=
  {| TO_CLIENT_BUFFER_SIZE := size;
     NDEBUG := false;
     client := list ascii * nat;
     write_to_client := fun c b =>
       match snd c with
       | O => (-1, c, b)
       | S calls =>
           (0, (fst c ++ firstn (to_client_end b - to_client_start b)
                           (skipn (to_client_start b) (to_client b)), calls),
            drain b)
       end;
     wire := fun c => fst c |}.

(** An [inet_aton] that reads the form with four decimal numbers up to 255
    and takes no other form. *)
Definition dotted_quad (cp : string) : option (Z * Z * Z * Z) :=
  match map (digits_value 0) (split_at "." cp) with
  | [a; b; c; d] =>
      if forallb (fun n => n <=? 255) [a; b; c; d] then Some (a, b, c, d) else None
  | _ => None
  end.

(** ** Runs of elements *)

(** The elements of an AUTHENTICATE command with these texts. *)
Definition authenticate_events (u p : string) : list xml_event :=
  [ StartElement "AUTHENTICATE" [] [];
    StartElement "CREDENTIALS" [] [];
    StartElement "USERNAME" [] [];
    Text u;
    EndElement "USERNAME";
    StartElement "PASSWORD" [] [];
    Text p;
    EndElement "PASSWORD";
    EndElement "CREDENTIALS";
    EndElement "AUTHENTICATE" ].

(** The credentials these texts leave: an element without text leaves the
    username NULL, the password is the empty string at least. *)
Definition credentials_read (u p : string) : credentials_t :=
  {| username := match u with EmptyString => None | _ => Some u end;
     password := Some p |}.

(** A command that is one empty element with a task_id attribute. *)
Definition task_command_events (command task_id : string) : list xml_event :=
  [ StartElement command ["task_id"] [task_id]; EndElement command ].

Definition get_version_events : list xml_event :=
  [ StartElement "GET_VERSION" [] []; EndElement "GET_VERSION" ].

(** What [process_omp_client_input] returns when the parse went through. *)
Definition success_status {host : Host} {library : Manage} (st : omp_state) : Z :=
  if negb (forked st =? 0) then 3 else 0.

(** * Properties *)

(** ** The output buffer *)

Section OutputBufferFacts.
Context {host : Host}.

Lemma queued_skipn_firstn (arr : list ascii) (s e : nat) :
  firstn (e - s) (skipn s arr) = skipn s (firstn e arr).
Proof.
  revert s e. induction arr as [|a arr IH]; intros s e.
  - now rewrite !skipn_nil, !firstn_nil, skipn_nil.
  - destruct s as [|s]; destruct e as [|e]; simpl; try reflexivity.
    apply IH.
Qed.

Lemma queue_bytes_ok (b : to_client_t) (bytes : list ascii) :
  buffer_ok b ->
  (to_client_end b + List.length bytes <= TO_CLIENT_BUFFER_SIZE)%nat ->
  buffer_ok (queue_bytes b bytes)
  /\ queued (queue_bytes b bytes) = queued b ++ bytes.
Proof.
  intros (Hse & He & Hlen) Hfit. unfold buffer_ok, queued, queue_bytes, memmove; simpl.
  split.
  - repeat split; try lia.
    rewrite !length_app, length_firstn, length_skipn. lia.
  - rewrite !queued_skipn_firstn.
    rewrite firstn_app.
    rewrite firstn_all2 by (rewrite length_firstn; lia).
    rewrite length_firstn.
    replace (to_client_end b + List.length bytes - Nat.min (to_client_end b) (List.length (to_client b)))%nat
      with (List.length bytes) by lia.
    rewrite firstn_app, firstn_all, Nat.sub_diag, firstn_O, app_nil_r.
    rewrite skipn_app.
    rewrite length_firstn.
    replace (to_client_start b - Nat.min (to_client_end b) (List.length (to_client b)))%nat
      with 0%nat by lia.
    reflexivity.
Qed.

Lemma output_queue_bytes (c : client) (b : to_client_t) (bytes : list ascii) :
  buffer_ok b ->
  (to_client_end b + List.length bytes <= TO_CLIENT_BUFFER_SIZE)%nat ->
  output c (queue_bytes b bytes) = output c b ++ bytes.
Proof.
  intros Hb Hfit. unfold output.
  destruct (queue_bytes_ok b bytes Hb Hfit) as [_ ->]. now rewrite app_assoc.
Qed.

Lemma send_to_client_tail_output (msg : list ascii) (c c' : client) (b b' : to_client_t) :
  buffer_ok b ->
  (List.length msg <= TO_CLIENT_BUFFER_SIZE - to_client_end b)%nat ->
  send_to_client_tail msg c b = Returns (false, c', b') ->
  buffer_ok b' /\ output c' b' = output c b ++ msg.
Proof.
  intros Hb Hfit. unfold send_to_client_tail, assert.
  destruct (Nat.ltb_spec 0 (List.length msg)) as [Hpos|Hzero].
  - destruct (Nat.leb_spec (List.length msg) (TO_CLIENT_BUFFER_SIZE - to_client_end b)); [|lia].
    simpl. intros [= <- <-].
    assert (Hfit' : (to_client_end b + List.length msg <= TO_CLIENT_BUFFER_SIZE)%nat)
      by (destruct Hb as (_ & ? & _); lia).
    split; [apply queue_bytes_ok; assumption | apply output_queue_bytes; assumption].
  - intros [= <- <-]. destruct msg; [|simpl in Hzero; lia].
    now rewrite app_nil_r.
Qed.

Lemma send_to_client_loop_output (fuel : nat) :
  faithful_host ->
  forall (msg : list ascii) (c c' : client) (b b' : to_client_t),
    buffer_ok b ->
    send_to_client_loop fuel msg c b = Returns (false, c', b') ->
    buffer_ok b' /\ output c' b' = output c b ++ msg.
Proof.
  intros Hhost. induction fuel as [|fuel IH]; intros msg c c' b b' Hb; simpl.
  - destruct (Nat.ltb_spec (TO_CLIENT_BUFFER_SIZE - to_client_end b) (List.length msg)).
    + discriminate.
    + apply send_to_client_tail_output; assumption.
  - destruct (Nat.ltb_spec (TO_CLIENT_BUFFER_SIZE - to_client_end b) (List.length msg)) as [Hfull|Hroom].
    2: { apply send_to_client_tail_output; assumption. }
    destruct (write_to_client c b) as [[r c1] b1] eqn:Hw.
    destruct (Z.eqb_spec r (-1)) as [->|Hr]; [discriminate|].
    destruct (Hhost _ _ _ _ _ Hb Hw Hr) as [Hb1 Hout].
    unfold assert. destruct ((r =? 0) || (r =? -2) || NDEBUG); [|discriminate].
    destruct (Nat.ltb_spec (List.length msg) (TO_CLIENT_BUFFER_SIZE - to_client_end b1)) as [Hlt|Hge].
    + intros Ht. apply send_to_client_tail_output in Ht; [|assumption|lia].
      destruct Ht as [Hb' Ho]. split; [assumption|]. now rewrite Ho, Hout.
    + intros Hrec.
      set (len := (TO_CLIENT_BUFFER_SIZE - to_client_end b1)%nat) in *.
      assert (Hchunk : List.length (firstn len msg) = len) by (rewrite length_firstn; lia).
      assert (Hfit : (to_client_end b1 + List.length (firstn len msg) <= TO_CLIENT_BUFFER_SIZE)%nat).
      { rewrite Hchunk. destruct Hb1 as (_ & ? & _). unfold len. lia. }
      destruct (queue_bytes_ok b1 (firstn len msg) Hb1 Hfit) as [Hb2 _].
      destruct (IH _ _ _ _ _ Hb2 Hrec) as [Hb' Ho]. split; [assumption|].
      rewrite Ho, output_queue_bytes by assumption.
      rewrite Hout, <- app_assoc, firstn_skipn. reflexivity.
Qed.

Lemma send_to_client_output (fuel : nat) (msg : string) (c c' : client) (b b' : to_client_t) :
  faithful_host -> buffer_ok b ->
  send_to_client fuel msg c b = Returns (false, c', b') ->
  buffer_ok b' /\ output c' b' = output c b ++ chars msg.
Proof.
  intros Hhost Hb. unfold send_to_client, assert.
  destruct ((to_client_end b <=? TO_CLIENT_BUFFER_SIZE)%nat || NDEBUG); [|discriminate].
  now apply send_to_client_loop_output.
Qed.

(** A run of [send_to_client] calls that all came back with FALSE has put
    out the messages in the order they were sent. *)
Lemma send_all_output (fuel : nat) (msgs : list string) :
  faithful_host ->
  forall (c c' : client) (b b' : to_client_t),
    buffer_ok b ->
    send_all fuel msgs c b = Returns (false, c', b') ->
    buffer_ok b' /\ output c' b' = output c b ++ List.concat (map chars msgs).
Proof.
  intros Hhost. induction msgs as [|msg msgs IH]; intros c c' b b' Hb; simpl.
  - intros [= <- <-]. now rewrite app_nil_r.
  - destruct (send_to_client fuel msg c b) as [[[failed c1] b1]| |] eqn:Hs; simpl; try discriminate.
    destruct failed; [discriminate|]. intros Hrest.
    destruct (send_to_client_output _ _ _ _ _ _ Hhost Hb Hs) as [Hb1 Ho1].
    destruct (IH _ _ _ _ Hb1 Hrest) as [Hb' Ho]. split; [assumption|].
    now rewrite Ho, Ho1, <- app_assoc.
Qed.

(** More fuel changes nothing once the loop has come back. *)
Lemma send_to_client_loop_fuel (fuel : nat) :
  forall (msg : list ascii) (c : client) (b : to_client_t) (r : bool * client * to_client_t),
    send_to_client_loop fuel msg c b = Returns r ->
    send_to_client_loop (S fuel) msg c b = Returns r.
Proof.
  induction fuel as [|fuel IH]; intros msg c b r.
  - simpl. destruct (TO_CLIENT_BUFFER_SIZE - to_client_end b <? List.length msg)%nat;
      [discriminate | tauto].
  - intros H. change (send_to_client_loop (S (S fuel)) msg c b) with
      (if (TO_CLIENT_BUFFER_SIZE - to_client_end b <? List.length msg)%nat then
         let '(r, c', b') := write_to_client c b in
         if r =? -1 then Returns (true, c', b')
         else
           assert ((r =? 0) || (r =? -2))
             (let len := (TO_CLIENT_BUFFER_SIZE - to_client_end b')%nat in
              if (List.length msg <? len)%nat then send_to_client_tail msg c' b'
              else send_to_client_loop (S fuel) (skipn len msg) c'
                     (queue_bytes b' (firstn len msg)))
       else send_to_client_tail msg c b).
    simpl in H.
    destruct (TO_CLIENT_BUFFER_SIZE - to_client_end b <? List.length msg)%nat; [|assumption].
    destruct (write_to_client c b) as [[r0 c1] b1].
    destruct (r0 =? -1); [assumption|].
    unfold assert in *. destruct ((r0 =? 0) || (r0 =? -2) || NDEBUG); [|discriminate].
    cbv zeta in *.
    destruct (List.length msg <? TO_CLIENT_BUFFER_SIZE - to_client_end b1)%nat; [assumption|].
    now apply IH.
Qed.

(** With a callback that makes room the loop comes back within one call per
    byte of the message. *)
Lemma send_to_client_loop_returns (fuel : nat) :
  makes_room ->
  forall (msg : list ascii) (c : client) (b : to_client_t),
    buffer_ok b -> (List.length msg <= fuel)%nat ->
    exists failed c' b', send_to_client_loop fuel msg c b = Returns (failed, c', b').
Proof.
  intros Hroom. induction fuel as [|fuel IH]; intros msg c b Hb Hlen.
  - destruct msg; [|simpl in Hlen; lia]. simpl.
    replace (TO_CLIENT_BUFFER_SIZE - to_client_end b <? 0)%nat with false
      by (symmetry; apply Nat.ltb_ge; lia).
    unfold send_to_client_tail. simpl. eauto.
  - simpl.
    destruct (Nat.ltb_spec (TO_CLIENT_BUFFER_SIZE - to_client_end b) (List.length msg)) as [Hfull|Hfit].
    2: { unfold send_to_client_tail, assert.
         destruct (0 <? List.length msg)%nat; [|eauto].
         destruct (Nat.leb_spec (List.length msg) (TO_CLIENT_BUFFER_SIZE - to_client_end b)); [|lia].
         simpl. eauto. }
    destruct (write_to_client c b) as [[r c1] b1] eqn:Hw.
    destruct (Hroom _ _ _ _ _ Hb Hw) as [->|(Hr & Hb1 & Hfree)]; [simpl; eauto|].
    replace (r =? -1) with false by (symmetry; apply Z.eqb_neq; lia).
    unfold assert.
    replace ((r =? 0) || (r =? -2)) with true
      by (destruct Hr as [-> | ->]; reflexivity).
    simpl.
    destruct (Nat.ltb_spec (List.length msg) (TO_CLIENT_BUFFER_SIZE - to_client_end b1)) as [Hlt|Hge].
    + unfold send_to_client_tail, assert.
      destruct (0 <? List.length msg)%nat; [|eauto].
      destruct (Nat.leb_spec (List.length msg) (TO_CLIENT_BUFFER_SIZE - to_client_end b1)); [|lia].
      simpl. eauto.
    + set (len := (TO_CLIENT_BUFFER_SIZE - to_client_end b1)%nat) in *.
      apply IH.
      * apply queue_bytes_ok; [assumption|].
        rewrite length_firstn. destruct Hb1 as (_ & ? & _). unfold len. lia.
      * rewrite length_skipn. unfold len in *. lia.
Qed.

End OutputBufferFacts.

(** ** Sending from the callbacks *)

Section SendFacts.
Context {host : Host}.

Lemma reliable_makes_room : reliable_host -> makes_room.
Proof.
  intros [Hf Hr] c b r c' b' Hb Hw. right.
  destruct (Hr _ _ _ _ _ Hb Hw) as [H01 Hfree].
  assert (Hne : r <> -1) by (destruct H01; lia).
  destruct (Hf _ _ _ _ _ Hb Hw Hne) as [Hb' _]. auto.
Qed.

Lemma chars_length (s : string) : List.length (chars s) = strlen s.
Proof.
  unfold chars, strlen. induction s as [|a s IH]; simpl; [reflexivity | now rewrite IH].
Qed.

Lemma send_to_client_loop_not_failed (fuel : nat) :
  (forall c b r c' b', buffer_ok b -> write_to_client c b = (r, c', b') ->
                       r <> -1 /\ buffer_ok b'
                       /\ (to_client_end b' <= TO_CLIENT_BUFFER_SIZE)%nat) ->
  forall (msg : list ascii) (c c' : client) (b b' : to_client_t) (failed : bool),
    buffer_ok b ->
    send_to_client_loop fuel msg c b = Returns (failed, c', b') -> failed = false.
Proof.
  intros Hnever. induction fuel as [|fuel IH]; intros msg c c' b b' failed Hb; simpl.
  - destruct (TO_CLIENT_BUFFER_SIZE - to_client_end b <? List.length msg)%nat; [discriminate|].
    unfold send_to_client_tail, assert.
    destruct (0 <? List.length msg)%nat; [|congruence].
    destruct ((List.length msg <=? TO_CLIENT_BUFFER_SIZE - to_client_end b)%nat || NDEBUG);
      congruence.
  - destruct (TO_CLIENT_BUFFER_SIZE - to_client_end b <? List.length msg)%nat.
    2: { unfold send_to_client_tail, assert.
         destruct (0 <? List.length msg)%nat; [|congruence].
         destruct ((List.length msg <=? TO_CLIENT_BUFFER_SIZE - to_client_end b)%nat || NDEBUG);
           congruence. }
    destruct (write_to_client c b) as [[r c1] b1] eqn:Hw.
    destruct (Hnever _ _ _ _ _ Hb Hw) as (Hr & Hb1 & He1).
    destruct (Z.eqb_spec r (-1)); [contradiction|].
    unfold assert. destruct ((r =? 0) || (r =? -2) || NDEBUG); [|discriminate].
    cbv zeta.
    destruct (Nat.ltb_spec (List.length msg) (TO_CLIENT_BUFFER_SIZE - to_client_end b1)).
    + unfold send_to_client_tail, assert.
      destruct (0 <? List.length msg)%nat; [|congruence].
      destruct ((List.length msg <=? TO_CLIENT_BUFFER_SIZE - to_client_end b1)%nat || NDEBUG);
        congruence.
    + apply IH. apply queue_bytes_ok; [assumption|].
      rewrite length_firstn. lia.
Qed.

(** On a reliable host a message is queued whole, in at most one call of the
    callback per byte. *)
Lemma send_to_client_reliable (fuel : nat) (msg : string) (c : client) (b : to_client_t) :
  reliable_host -> buffer_ok b -> (strlen msg <= fuel)%nat ->
  exists c' b',
    send_to_client fuel msg c b = Returns (false, c', b')
    /\ buffer_ok b' /\ output c' b' = output c b ++ chars msg.
Proof.
  intros Hrel Hb Hfuel.
  destruct (send_to_client_loop_returns fuel (reliable_makes_room Hrel) (chars msg) c b Hb)
    as (failed & c' & b' & Hrun); [now rewrite chars_length|].
  assert (failed = false) as ->.
  { eapply send_to_client_loop_not_failed; [|exact Hb|exact Hrun].
    intros c0 b0 r c1 b1 Hb0 Hw. destruct Hrel as [Hf Hr].
    destruct (Hr _ _ _ _ _ Hb0 Hw) as [H01 Hfree].
    assert (Hne : r <> -1) by (destruct H01; lia).
    destruct (Hf _ _ _ _ _ Hb0 Hw Hne) as [Hb1 _].
    split; [exact Hne | split; [exact Hb1 | lia]]. }
  exists c', b'.
  assert (Hsend : send_to_client fuel msg c b = Returns (false, c', b')).
  { unfold send_to_client, assert.
    destruct Hb as (_ & He & _).
    destruct (Nat.leb_spec (to_client_end b) TO_CLIENT_BUFFER_SIZE); [|lia].
    exact Hrun. }
  split; [exact Hsend|].
  destruct Hrel as [Hf _]. eapply send_to_client_output; eassumption.
Qed.

(** On a reliable host a run of [send_to_client] calls comes back with FALSE. *)
Lemma send_all_reliable (fuel : nat) (msgs : list string) :
  reliable_host ->
  Forall (fun msg => (strlen msg <= fuel)%nat) msgs ->
  forall (c : client) (b : to_client_t),
    buffer_ok b ->
    exists c' b', send_all fuel msgs c b = Returns (false, c', b').
Proof.
  intros Hrel Hfuel. induction Hfuel as [|msg msgs Hmsg _ IH]; intros c b Hb; simpl.
  - eauto.
  - destruct (send_to_client_reliable fuel msg c b Hrel Hb Hmsg) as (c1 & b1 & Hs & Hb1 & _).
    rewrite Hs. simpl. apply IH. exact Hb1.
Qed.

(** C7: over any run of [send_to_client] calls that all came back with
    FALSE, also when the messages together or a single message exceed the
    capacity and the callback is called in between, no byte is lost,
    duplicated or reordered: the bytes handed to the connection followed by
    the bytes still queued are the bytes before the run followed by the
    messages in the order they were sent; a message longer than the buffer
    goes through it chunk by chunk, in order.  On a host whose connection
    works the run does come back with FALSE, within one call of the callback
    per byte of a message. *)
Theorem send_to_client_keeps_every_byte (fuel : nat) (msgs : list string)
  (c : client) (b : to_client_t) :
  faithful_host -> buffer_ok b ->
  (forall (c' : client) (b' : to_client_t),
      send_all fuel msgs c b = Returns (false, c', b') ->
      buffer_ok b' /\ output c' b' = output c b ++ List.concat (map chars msgs))
  /\ (reliable_host ->
      Forall (fun msg => (strlen msg <= fuel)%nat) msgs ->
      exists (c' : client) (b' : to_client_t),
        send_all fuel msgs c b = Returns (false, c', b')
        /\ output c' b' = output c b ++ List.concat (map chars msgs)).
Proof.
  intros Hhost Hb. split.
  - intros c' b'. now apply send_all_output.
  - intros Hrel Hfuel.
    destruct (send_all_reliable fuel msgs Hrel Hfuel c b Hb) as (c' & b' & Hs).
    exists c', b'. split; [exact Hs|].
    eapply send_all_output; eassumption.
Qed.

End SendFacts.

Section CallbackFacts.
Context {host : Host} {library : Manage}.

Lemma SEND_TO_CLIENT_OR_FAIL_reliable (fuel : nat) (msg : string) (st : omp_state)
  (rest : omp_state -> outcome omp_state) :
  reliable_host -> buffer_ok (to_client_buffer st) -> (strlen msg <= fuel)%nat ->
  exists c b,
    SEND_TO_CLIENT_OR_FAIL fuel msg st rest = rest (set_output st c b)
    /\ has_sent st [msg] (set_output st c b).
Proof.
  intros Hrel Hb Hfuel.
  destruct (send_to_client_reliable fuel msg (write_to_client_data st) (to_client_buffer st)
              Hrel Hb Hfuel) as (c & b & Hs & Hb' & Ho).
  exists c, b. unfold SEND_TO_CLIENT_OR_FAIL. rewrite Hs. simpl.
  split; [reflexivity|]. split; [exact Hb'|].
  unfold session_output. simpl. now rewrite app_nil_r.
Qed.

Lemma has_sent_refl (st : omp_state) : buffer_ok (to_client_buffer st) -> has_sent st [] st.
Proof. intros Hb. split; [exact Hb|]. simpl. now rewrite app_nil_r. Qed.

Lemma has_sent_trans (st st1 st2 : omp_state) (l1 l2 : list string) :
  has_sent st l1 st1 -> has_sent st1 l2 st2 -> has_sent st (l1 ++ l2) st2.
Proof.
  intros [_ H1] [Hb H2]. split; [exact Hb|].
  rewrite H2, H1, map_app, concat_app, app_assoc. reflexivity.
Qed.

(** A callback that came back either met a write failure, which leaves the
    out-of-space error, or went on after the message was queued. *)
Lemma SEND_TO_CLIENT_OR_FAIL_inv (fuel : nat) (msg : string) (st st' : omp_state)
  (rest : omp_state -> outcome omp_state) :
  error st = None ->
  SEND_TO_CLIENT_OR_FAIL fuel msg st rest = Returns st' ->
  error st' = Some out_of_space
  \/ exists c b, rest (set_output st c b) = Returns st'.
Proof.
  intros He. unfold SEND_TO_CLIENT_OR_FAIL.
  destruct (send_to_client fuel msg (write_to_client_data st) (to_client_buffer st))
    as [[[failed c] b]| |]; simpl; try discriminate.
  destruct failed.
  - intros [= <-]. left. simpl. now rewrite He.
  - intros H. right. eauto.
Qed.

Lemma SEND_ALL_TO_CLIENT_OR_FAIL_inv (fuel : nat) (msgs : list string) :
  forall (st st' : omp_state) (rest : omp_state -> outcome omp_state),
    error st = None ->
    SEND_ALL_TO_CLIENT_OR_FAIL fuel msgs st rest = Returns st' ->
    error st' = Some out_of_space
    \/ exists c b, rest (set_output st c b) = Returns st'.
Proof.
  induction msgs as [|msg msgs IH]; intros st st' rest He; simpl.
  - intros H. right. exists (write_to_client_data st), (to_client_buffer st).
    destruct st; exact H.
  - intros H. apply SEND_TO_CLIENT_OR_FAIL_inv in H; [|assumption].
    destruct H as [H|(c & b & H)]; [now left|].
    apply IH in H; [|assumption].
    destruct H as [H|(c' & b' & H)]; [now left|]. right. exists c', b'. exact H.
Qed.

End CallbackFacts.

Section ReturnFacts.
Context {host : Host} {library : Manage}.


End ReturnFacts.

(** ** The dispatch at the end of an element *)

Section DispatchFacts.
Context {host : Host} {library : Manage}.

(** Queue the message under the goal with the lemma for reliable hosts. *)
Ltac queue Hrel :=
  match goal with
  | |- context [SEND_TO_CLIENT_OR_FAIL ?fuel ?msg ?st ?rest] =>
      let c := fresh "c" in
      let b := fresh "b" in
      let Hs := fresh "Hs" in
      let Hsent := fresh "Hsent" in
      destruct (SEND_TO_CLIENT_OR_FAIL_reliable fuel msg st rest Hrel)
        as (c & b & Hs & Hsent);
      [ simpl; try assumption
      | try (vm_compute; lia); try assumption
      | rewrite Hs; clear Hs ]
  end.

(** C1, as the code has it: closing AUTHENTICATE with credentials the
    library accepts, once the tasks are loaded, answers status 200 with text
    OK and sets the state to Authentic; when loading the tasks fails it
    answers 500, clears the credentials and goes back to Top; with
    credentials the library rejects it answers 400 with text Authentication
    failed, clears the credentials and goes back to Top. *)
Theorem authenticate_close (fuel : nat) (element_name : string) (st : omp_state) :
  reliable_host -> callback_entry st -> (80 <= fuel)%nat ->
  client_state st = CLIENT_AUTHENTICATE ->
  (authenticate (manage st) (current_credentials st) = 0 ->
   fst (load_tasks (manage st)) = 0 ->
   answers (omp_xml_handle_end_element fuel element_name st) st
     [xml_response "authenticate" "200" "OK"]
     (fun st' => client_state st' = CLIENT_AUTHENTIC
                 /\ current_credentials st' = current_credentials st
                 /\ error st' = None))
  /\ (authenticate (manage st) (current_credentials st) = 0 ->
      fst (load_tasks (manage st)) <> 0 ->
      answers (omp_xml_handle_end_element fuel element_name st) st
        [xml_response "authenticate" "500" "Internal error"]
        (fun st' => client_state st' = CLIENT_TOP
                    /\ current_credentials st' = {| username := None; password := None |}
                    /\ error st' = Some {| code := G_MARKUP_ERROR_PARSE;
                                           message := "Manager failed to load tasks." |}))
  /\ (authenticate (manage st) (current_credentials st) = 1 ->
      answers (omp_xml_handle_end_element fuel element_name st) st
        [xml_response "authenticate" "400" "Authentication failed"]
        (fun st' => client_state st' = CLIENT_TOP
                    /\ current_credentials st' = {| username := None; password := None |}
                    /\ error st' = None)).
Proof.
  intros Hrel [Hb He] Hfuel Hs.
  unfold answers, omp_xml_handle_end_element. rewrite Hs.
  unfold end_CLIENT_AUTHENTICATE.
  repeat split.
  - intros Hauth Hload. rewrite Hauth.
    destruct (load_tasks (manage st)) as [failed m]. simpl in Hload. subst failed. simpl.
    queue Hrel. eexists. split; [reflexivity|]. split; [exact Hsent|]. simpl. auto.
  - intros Hauth Hload. rewrite Hauth.
    destruct (load_tasks (manage st)) as [failed m]. simpl in Hload.
    destruct (Z.eqb_spec failed 0) as [|_]; [contradiction|]. simpl.
    queue Hrel. eexists. split; [reflexivity|]. split; [exact Hsent|]. simpl.
    rewrite He. auto.
  - intros Hauth. rewrite Hauth.
    queue Hrel. eexists. split; [reflexivity|]. split; [exact Hsent|]. simpl. auto.
Qed.


End DispatchFacts.

Section TaskCommandFacts.
Context {host : Host} {library : Manage}.

Ltac queue Hrel :=
  match goal with
  | |- context [SEND_TO_CLIENT_OR_FAIL ?fuel ?msg ?st ?rest] =>
      let c := fresh "c" in
      let b := fresh "b" in
      let Hs := fresh "Hs" in
      let Hsent := fresh "Hsent" in
      destruct (SEND_TO_CLIENT_OR_FAIL_reliable fuel msg st rest Hrel)
        as (c & b & Hs & Hsent);
      [ simpl; try assumption
      | try (vm_compute; lia); try assumption
      | rewrite Hs; clear Hs ]
  end.

Ltac answered Hsent :=
  eexists; split; [reflexivity | split; [exact Hsent | simpl; auto]].

(** C3, as the code has it: START_TASK on a task the library reports as
    active already (status 1) is answered with a Syntax response, status 400
    and text Task is active already, not with Internal (500); a start the
    library accepts (status 0) is answered with Requested (202) carrying the
    id of the report, and the fork is noted. *)
Theorem start_task_close (fuel : nat) (element_name task_id report_id : string)
  (task : task_t) (m : manage_t) (st : omp_state) :
  reliable_host -> callback_entry st ->
  client_state st = CLIENT_START_TASK ->
  task_id_member (command_data st) = Some task_id ->
  find_task (manage st) task_id = (false, task) -> task <> 0 ->
  forked st <> 2 ->
  (start_task (manage st) task = (1, report_id, m) ->
   (80 <= fuel)%nat ->
   answers (omp_xml_handle_end_element fuel element_name st) st
     [xml_response "start_task" STATUS_ERROR_SYNTAX "Task is active already"]
     (fun st' => client_state st' = CLIENT_AUTHENTIC
                 /\ forked st' = forked st /\ manage st' = m))
  /\ (start_task (manage st) task = (0, report_id, m) ->
      (strlen (requested_with_report "start_task" report_id) <= fuel)%nat ->
      answers (omp_xml_handle_end_element fuel element_name st) st
        [requested_with_report "start_task" report_id]
        (fun st' => client_state st' = CLIENT_AUTHENTIC
                    /\ forked st' = 1 /\ manage st' = m))
  /\ has_status STATUS_OK_REQUESTED (requested_with_report "start_task" report_id)
  /\ STATUS_ERROR_SYNTAX <> STATUS_INTERNAL_ERROR.
Proof.
  intros Hrel [Hb He] Hs Hid Hfind Htask Hforked.
  unfold answers, omp_xml_handle_end_element. rewrite Hs.
  unfold end_CLIENT_START_TASK. rewrite Hid, Hfind.
  destruct (Z.eqb_spec task 0) as [|_]; [contradiction|].
  destruct (Z.eqb_spec (forked st) 2) as [|_]; [contradiction|].
  repeat split.
  - intros Hstart Hfuel. rewrite Hstart. queue Hrel. answered Hsent.
  - intros Hstart Hfuel. rewrite Hstart. queue Hrel. answered Hsent.
  - exists "start_task", (" status_text=" +++ dq +++ STATUS_OK_REQUESTED_TEXT +++ dq +++ ">"
      +++ "<report_id>" +++ report_id +++ "</report_id>" +++ "</" +++ "start_task" +++ "_response>").
    reflexivity.
  - discriminate.
Qed.

(** C9, as the code has it: when the library refuses a START_TASK,
    RESUME_OR_START_TASK or RESUME_STOPPED_TASK because a task is running in
    this process already (status -6), the command is answered with a Syntax
    response, status 400 and a text of its own, no fork is noted, and the
    state goes back to Authentic; in the forked child ([forked] is 2) the
    three commands end the process without a response; RESUME_PAUSED_TASK
    does not look at [forked] at all. *)
Theorem start_while_task_running (fuel : nat) (element_name task_id : string)
  (task : task_t) (st : omp_state) :
  reliable_host -> callback_entry st -> (120 <= fuel)%nat ->
  task_id_member (command_data st) = Some task_id ->
  find_task (manage st) task_id = (false, task) -> task <> 0 ->
  (forall (s : client_state_t) (tag : string)
          (call : manage_t -> task_t -> Z * string * manage_t),
      In (s, tag, call) fork_commands ->
      client_state st = s ->
      (forall (report_id : string) (m : manage_t),
          forked st <> 2 ->
          call (manage st) task = (-6, report_id, m) ->
          answers (omp_xml_handle_end_element fuel element_name st) st
            [xml_response tag STATUS_ERROR_SYNTAX
               "There is already a task running in this process"]
            (fun st' => client_state st' = CLIENT_AUTHENTIC
                        /\ forked st' = forked st /\ manage st' = m
                        /\ task_id_member (command_data st') = None))
      /\ (forked st = 2 ->
          omp_xml_handle_end_element fuel element_name st = Some Aborted))
  /\ (forall (m : manage_t),
         client_state st = CLIENT_RESUME_PAUSED_TASK ->
         resume_paused_task (manage st) task = (0, m) ->
         answers (omp_xml_handle_end_element fuel element_name st) st
           [xml_response "resume_paused_task" STATUS_OK "OK"]
           (fun st' => client_state st' = CLIENT_AUTHENTIC
                       /\ forked st' = forked st /\ manage st' = m)).
Proof.
  intros Hrel [Hb He] Hfuel Hid Hfind Htask.
  unfold answers, omp_xml_handle_end_element. split.
  - intros s tag call Hin Hs. simpl in Hin.
    destruct Hin as [Hin|[Hin|[Hin|[]]]]; injection Hin as <- <- <-; rewrite Hs;
      [ unfold end_CLIENT_START_TASK
      | unfold end_CLIENT_RESUME_OR_START_TASK
      | unfold end_CLIENT_RESUME_STOPPED_TASK ];
      rewrite Hid, Hfind;
      (destruct (Z.eqb_spec task 0) as [|_]; [contradiction|]);
      (split;
       [ intros report_id m Hforked Hcall;
         (destruct (Z.eqb_spec (forked st) 2) as [|_]; [contradiction|]);
         rewrite Hcall; queue Hrel; answered Hsent
       | intros Hforked; rewrite Hforked; reflexivity ]).
  - intros m Hs Hcall. rewrite Hs. unfold end_CLIENT_RESUME_PAUSED_TASK.
    rewrite Hid, Hfind.
    destruct (Z.eqb_spec task 0) as [|_]; [contradiction|].
    rewrite Hcall. queue Hrel. answered Hsent.
Qed.

End TaskCommandFacts.

Section FindFacts.
Context {host : Host} {library : Manage}.

Ltac queue Hrel :=
  match goal with
  | |- context [SEND_TO_CLIENT_OR_FAIL ?fuel ?msg ?st ?rest] =>
      let c := fresh "c" in
      let b := fresh "b" in
      let Hs := fresh "Hs" in
      let Hsent := fresh "Hsent" in
      destruct (SEND_TO_CLIENT_OR_FAIL_reliable fuel msg st rest Hrel)
        as (c & b & Hs & Hsent);
      [ simpl; try assumption
      | try (vm_compute; lia); try assumption
      | rewrite Hs; clear Hs ]
  end.

Ltac answered Hsent :=
  eexists; split; [reflexivity | split; [exact Hsent | simpl; auto]].

Lemma append_associative (a b c : string) : (a +++ b) +++ c = a +++ b +++ c.
Proof. induction a as [|x a IH]; simpl; [reflexivity | now rewrite IH]. Qed.

(** The find error is a response with status 404 whose text names the type
    and repeats the id as it was given. *)
Lemma find_error_message_status (command type id : string) :
  find_error_message command type id
  = xml_response command STATUS_ERROR_MISSING
      ("Failed to find " +++ type +++ " '" +++ id +++ "'").
Proof.
  unfold find_error_message, xml_response.
  f_equal. rewrite !append_associative. reflexivity.
Qed.

Lemma find_task_error_text (command id : string) :
  xml_response command STATUS_ERROR_MISSING ("Failed to find task '" +++ id +++ "'")
  = find_error_message command "task" id.
Proof. now rewrite find_error_message_status. Qed.

Lemma find_config_error_text (command id : string) :
  xml_response command STATUS_ERROR_MISSING ("Failed to find config '" +++ id +++ "'")
  = find_error_message command "config" id.
Proof. now rewrite find_error_message_status. Qed.

Lemma find_target_error_text (command id : string) :
  xml_response command STATUS_ERROR_MISSING ("Failed to find target '" +++ id +++ "'")
  = find_error_message command "target" id.
Proof. now rewrite find_error_message_status. Qed.


End FindFacts.

Section ResetFacts.
Context {host : Host} {library : Manage}.

Lemma closes_aborted (s : client_state_t) : closes s Aborted.
Proof. intros st' H. discriminate. Qed.

Lemma closes_assert (s : client_state_t) (c : bool) (k : outcome omp_state) :
  closes s k -> closes s (assert c k).
Proof. unfold assert. destruct (c || NDEBUG); [tauto | intros _; apply closes_aborted]. Qed.

Lemma closes_send (s : client_state_t) (fuel : nat) (msg : string) (st : omp_state)
  (rest : omp_state -> outcome omp_state) :
  error st = None ->
  (forall c b, closes s (rest (set_output st c b))) ->
  closes s (SEND_TO_CLIENT_OR_FAIL fuel msg st rest).
Proof.
  intros He Hrest st' Hrun Hspace.
  destruct (SEND_TO_CLIENT_OR_FAIL_inv _ _ _ _ _ He Hrun) as [H|(c & b & H)];
    [contradiction | exact (Hrest c b st' H Hspace)].
Qed.

Lemma closes_send_all (s : client_state_t) (fuel : nat) (msgs : list string)
  (st : omp_state) (rest : omp_state -> outcome omp_state) :
  error st = None ->
  (forall c b, closes s (rest (set_output st c b))) ->
  closes s (SEND_ALL_TO_CLIENT_OR_FAIL fuel msgs st rest).
Proof.
  intros He Hrest st' Hrun Hspace.
  destruct (SEND_ALL_TO_CLIENT_OR_FAIL_inv _ _ _ _ _ He Hrun) as [H|(c & b & H)];
    [contradiction | exact (Hrest c b st' H Hspace)].
Qed.

Lemma closes_reset (s : client_state_t) (reset : command_data_t -> command_data_t)
  (st : omp_state) :
  (forall d, command_data_empty s (reset d)) ->
  closes s (reset_and_return reset st).
Proof. intros Hreset st' [= <-] _. simpl. auto. Qed.

Ltac close_step :=
  match goal with
  | |- closes _ (SEND_TO_CLIENT_OR_FAIL _ _ _ _) =>
      apply closes_send; [simpl; assumption | intros ? ?]
  | |- closes _ (SEND_ALL_TO_CLIENT_OR_FAIL _ _ _ _) =>
      apply closes_send_all; [simpl; assumption | intros ? ?]
  | |- closes _ (assert _ _) => apply closes_assert
  | |- closes _ Aborted => apply closes_aborted
  | |- closes _ (reset_and_return _ _) =>
      apply closes_reset; intros ?; reflexivity
  | |- closes _ (match ?x with _ => _ end) => destruct x
  end.


End ResetFacts.

(** ** Deleting a task *)

Lemma find_filter_out {A : Type} (f : A -> bool) (l : list A) :
  find f (filter (fun x => negb (f x)) l) = None.
Proof.
  induction l as [|a l IH]; simpl; [reflexivity|].
  destruct (f a) eqn:Hfa; simpl; [exact IH | now rewrite Hfa].
Qed.

Lemma lookup_task_remove (tbl : task_table) (t : task_t) :
  lookup_task (remove_task tbl t) t = None.
Proof. unfold lookup_task, remove_task. simpl. apply find_filter_out. Qed.

Lemma lookup_task_update (tbl : task_table) (t owned : task_t)
  (f : task_record -> task_record) (r : task_record) :
  (forall x, handle (f x) = handle x) ->
  lookup_task tbl t = Some r ->
  lookup_task (update_task tbl t f owned) t = Some (f r).
Proof.
  intros Hf. unfold lookup_task, update_task. simpl.
  induction (tasks tbl) as [|a l IH]; simpl; [discriminate|].
  destruct (handle a =? t) eqn:Ha.
  - intros [= <-]. now rewrite Hf, Ha.
  - rewrite Ha. exact IH.
Qed.

Section DeleteFacts.
Context {host : Host}.

Ltac queue Hrel :=
  match goal with
  | |- context [@SEND_TO_CLIENT_OR_FAIL ?h ?l ?fuel ?msg ?st ?rest] =>
      let c := fresh "c" in
      let b := fresh "b" in
      let Hs := fresh "Hs" in
      let Hsent := fresh "Hsent" in
      destruct (@SEND_TO_CLIENT_OR_FAIL_reliable h l fuel msg st rest Hrel)
        as (c & b & Hs & Hsent);
      [ simpl; try assumption
      | try (vm_compute; lia); try assumption
      | rewrite Hs; clear Hs ]
  end.

(** C4, as the code has it.  Whatever the library, DELETE_TASK answers its
    result 0 (deleted) with OK (200), 1 (delete requested) with Requested
    (202) and 2 (hidden task) with a Syntax response (400), and ends the
    process on any other.  On the table of tasks, for an existing task that
    is not the hidden one: an idle task is removed at once and the answer is
    OK; for an active task the deletion is only flagged, the answer is
    Requested, and the task stays in the table until the run is reported
    finished; the two status codes differ.  The hidden task is never
    deleted. *)
Theorem delete_task_two_phase (fuel : nat) (element_name task_id : string) :
  reliable_host -> (100 <= fuel)%nat ->
  (forall (library : Manage) (st : @omp_state host library) (task : task_t)
          (status : Z) (m : manage_t),
      let closed (st' : omp_state) :=
        client_state st' = CLIENT_AUTHENTIC /\ manage st' = m
        /\ task_id_member (command_data st') = None in
      callback_entry st ->
      client_state st = CLIENT_DELETE_TASK ->
      task_id_member (command_data st) = Some task_id ->
      find_task (manage st) task_id = (false, task) -> task <> 0 ->
      request_delete_task (manage st) task = (status, m) ->
      (status = 0 ->
       answers (omp_xml_handle_end_element fuel element_name st) st
         [xml_response "delete_task" STATUS_OK "OK"] closed)
      /\ (status = 1 ->
          answers (omp_xml_handle_end_element fuel element_name st) st
            [xml_response "delete_task" STATUS_OK_REQUESTED "OK, request submitted"]
            closed)
      /\ (status = 2 ->
          answers (omp_xml_handle_end_element fuel element_name st) st
            [xml_response "delete_task" STATUS_ERROR_SYNTAX
               "Attempt to delete a hidden task"]
            closed)
      /\ (status <> 0 -> status <> 1 -> status <> 2 ->
          omp_xml_handle_end_element fuel element_name st = Some Aborted))
  /\ (forall (r : task_record) (st : @omp_state host table_library),
         callback_entry st ->
         client_state st = CLIENT_DELETE_TASK ->
         task_id_member (command_data st) = Some task_id ->
         storage_ok (manage st) = true ->
         find (fun x => String.eqb (uuid x) task_id) (tasks (manage st)) = Some r ->
         handle r <> 0 ->
         lookup_task (manage st) (handle r) = Some r ->
         (hidden r = false -> idle (run_status r) = true ->
          answers (omp_xml_handle_end_element fuel element_name st) st
            [xml_response "delete_task" STATUS_OK "OK"]
            (fun st' => client_state st' = CLIENT_AUTHENTIC
                        /\ lookup_task (manage st') (handle r) = None))
         /\ (hidden r = false -> idle (run_status r) = false ->
             answers (omp_xml_handle_end_element fuel element_name st) st
               [xml_response "delete_task" STATUS_OK_REQUESTED "OK, request submitted"]
               (fun st' => client_state st' = CLIENT_AUTHENTIC
                           /\ lookup_task (manage st') (handle r)
                              = Some (with_status TASK_STATUS_REQUESTED_DELETE r)
                           /\ lookup_task
                                (table_run_finished (manage st') (handle r)) (handle r)
                              = None))
         /\ (hidden r = true ->
             answers (omp_xml_handle_end_element fuel element_name st) st
               [xml_response "delete_task" STATUS_ERROR_SYNTAX
                  "Attempt to delete a hidden task"]
               (fun st' => client_state st' = CLIENT_AUTHENTIC
                           /\ manage st' = manage st)))
  /\ STATUS_OK <> STATUS_OK_REQUESTED.
Proof.
  intros Hrel Hfuel. split; [|split; [|discriminate]].
  - intros library st task status m closed [Hb He] Hs Hid Hfind Htask Hcall.
    subst closed.
    unfold answers, omp_xml_handle_end_element. rewrite Hs.
    unfold end_CLIENT_DELETE_TASK. rewrite Hid, Hfind.
    destruct (Z.eqb_spec task 0) as [|_]; [contradiction|].
    rewrite Hcall.
    split; [|split; [|split]].
    + intros ->. queue Hrel.
      eexists. split; [reflexivity|]. split; [exact Hsent|]. simpl. auto.
    + intros ->. queue Hrel.
      eexists. split; [reflexivity|]. split; [exact Hsent|]. simpl. auto.
    + intros ->. queue Hrel.
      eexists. split; [reflexivity|]. split; [exact Hsent|]. simpl. auto.
    + intros H0 H1 H2.
      destruct status as [|p|p]; [congruence| |reflexivity].
      destruct p as [p|p|]; [reflexivity| |congruence].
      destruct p; [reflexivity|reflexivity|congruence].
  - intros r st [Hb He] Hs Hid Hstore Hfind Hhandle Hlookup.
    assert (Hfound : find_task (manage st) task_id = (false, handle r)).
    { simpl. unfold table_find_task. now rewrite Hstore, Hfind. }
    unfold answers, omp_xml_handle_end_element. rewrite Hs.
    unfold end_CLIENT_DELETE_TASK. rewrite Hid, Hfound.
    destruct (Z.eqb_spec (handle r) 0) as [|_]; [contradiction|].
    change (request_delete_task (manage st) (handle r))
      with (table_request_delete_task (manage st) (handle r)).
    unfold table_request_delete_task. rewrite Hlookup.
    split; [|split].
    + intros Hhidden Hidle. rewrite Hhidden, Hidle.
      queue Hrel. eexists. split; [reflexivity|]. split; [exact Hsent|]. simpl.
      split; [reflexivity | apply lookup_task_remove].
    + intros Hhidden Hidle. rewrite Hhidden, Hidle.
      queue Hrel. eexists. split; [reflexivity|]. split; [exact Hsent|]. simpl.
      assert (Hflag : lookup_task
                (update_task (manage st) (handle r)
                   (with_status TASK_STATUS_REQUESTED_DELETE)
                   (current_scanner_task (manage st))) (handle r)
              = Some (with_status TASK_STATUS_REQUESTED_DELETE r))
        by (apply lookup_task_update; [reflexivity | exact Hlookup]).
      split; [reflexivity|]. split; [exact Hflag|].
      unfold table_run_finished. rewrite Hflag. simpl.
      apply (lookup_task_remove
               (update_task (manage st) (handle r)
                  (with_status TASK_STATUS_REQUESTED_DELETE)
                  (current_scanner_task (manage st)))).
    + intros Hhidden. rewrite Hhidden.
      queue Hrel. eexists. split; [reflexivity|]. split; [exact Hsent|]. simpl.
      destruct st; simpl; auto.
Qed.

End DeleteFacts.

(** ** Elements that a state does not accept *)

Lemma lookup_element_cons (element_name name : string) (s : client_state_t)
  (table : list (string * client_state_t)) :
  lookup_element element_name ((name, s) :: table) = None ->
  (strcasecmp name element_name =? 0) = false
  /\ lookup_element element_name table = None.
Proof.
  unfold lookup_element. simpl.
  destruct (strcasecmp name element_name =? 0); [discriminate | auto].
Qed.

(** The state set after a bogus element is Top inside AUTHENTICATE and
    Authentic inside every other command. *)
Lemma bogus_state_of_case (s : client_state_t) (sc : start_case) :
  start_element_case s = Some sc -> bogus_state sc = state_after_bogus_element s.
Proof. destruct s; simpl; intros H; inversion H; reflexivity. Qed.

(** The command named in the response is the command the state belongs to,
    in lower case; the case of MODIFY_NOTE spells it MODIFY_note. *)
Lemma bogus_command_of_case (s : client_state_t) (sc : start_case) :
  start_element_case s = Some sc ->
  s <> CLIENT_MODIFY_NOTE ->
  owning_command s = Some (bogus_command sc).
Proof.
  destruct s; simpl; intros H Hs; inversion H; try reflexivity.
  contradiction.
Qed.

Section BogusFacts.
Context {host : Host} {library : Manage}.

Ltac queue Hrel :=
  match goal with
  | |- context [SEND_TO_CLIENT_OR_FAIL ?fuel ?msg ?st ?rest] =>
      let c := fresh "c" in
      let b := fresh "b" in
      let Hs := fresh "Hs" in
      let Hsent := fresh "Hsent" in
      destruct (SEND_TO_CLIENT_OR_FAIL_reliable fuel msg st rest Hrel)
        as (c & b & Hs & Hsent);
      [ simpl; try assumption
      | try (vm_compute; lia); try assumption
      | rewrite Hs; clear Hs ]
  end.

Lemma start_element_inside (fuel : nat) (element_name : string)
  (attribute_names attribute_values : list string) (st : omp_state) (sc : start_case) :
  start_element_case (client_state st) = Some sc ->
  omp_xml_handle_start_element fuel element_name attribute_names attribute_values st
  = start_inside_command fuel sc element_name st.
Proof.
  unfold omp_xml_handle_start_element.
  destruct (client_state st); simpl; intros H; inversion H; reflexivity.
Qed.

Lemma element_error_message_status (command element : string) :
  element_error_message command element
  = xml_response command STATUS_ERROR_SYNTAX ("Bogus element: " +++ element).
Proof.
  reflexivity.
Qed.


End BogusFacts.

(** ** Runs of the model *)

Lemma flushing_host_reliable (size : nat) :
  (0 < size)%nat -> @reliable_host (flushing_host size).
Proof.
  intros Hsize. split.
  - intros c b r c' b' (Hse & He & Hlen) Hw _. simpl in Hw.
    unfold flushing_write in Hw. injection Hw as <- <- <-.
    split.
    + unfold buffer_ok, drain. simpl in *. lia.
    + unfold output, queued, drain. simpl.
      now rewrite app_nil_r.
  - intros c b r c' b' _ Hw. simpl in Hw.
    unfold flushing_write in Hw. injection Hw as <- <- <-.
    simpl. split; [now left | exact Hsize].
Qed.

Lemma demo_host_reliable : @reliable_host demo_host.
Proof. apply flushing_host_reliable. unfold lt. repeat constructor. Defined.

Lemma empty_buffer_ok (size : nat) : @buffer_ok (flushing_host size) (empty_buffer size).
Proof.
  unfold buffer_ok, empty_buffer. simpl. rewrite repeat_length. lia.
Qed.

Lemma demo_entry (s : client_state_t) (cr : credentials_t) (d : command_data_t)
  (tbl : task_table) : callback_entry (demo_state s cr d tbl).
Proof. split; [apply (empty_buffer_ok 64) | reflexivity]. Qed.

(** Twelve bytes go through a buffer of four in order. *)
Lemma send_to_client_keeps_every_byte_witness :
  exists c' b',
    @send_all (flushing_host 4) 9 ["abc"; "defghijkl"] [] (empty_buffer 4)
    = Returns (false, c', b')
    /\ @output (flushing_host 4) c' b'
       = @output (flushing_host 4) [] (empty_buffer 4)
         ++ List.concat (map chars ["abc"; "defghijkl"]).
Proof.
  refine (proj2 (@send_to_client_keeps_every_byte (flushing_host 4) 9
                   ["abc"; "defghijkl"] [] (empty_buffer 4)
                   (proj1 (flushing_host_reliable 4 (Nat.lt_0_succ 3)))
                   (empty_buffer_ok 4))
            (flushing_host_reliable 4 (Nat.lt_0_succ 3)) _).
  repeat constructor.
Defined.



(** ** The theorems at work on the demo session *)

Lemma authenticate_close_witness :
  answers
    (omp_xml_handle_end_element 100 "AUTHENTICATE"
       (demo_state CLIENT_AUTHENTICATE (demo_credentials "secret") command_data_init
          (demo_table 0 true)))
    (demo_state CLIENT_AUTHENTICATE (demo_credentials "secret") command_data_init
       (demo_table 0 true))
    [xml_response "authenticate" "200" "OK"]
    (fun st' => client_state st' = CLIENT_AUTHENTIC
                /\ current_credentials st' = demo_credentials "secret"
                /\ error st' = None).
Proof.
  refine (proj1 (@authenticate_close demo_host table_library 100 "AUTHENTICATE"
                   (demo_state CLIENT_AUTHENTICATE (demo_credentials "secret")
                      command_data_init (demo_table 0 true))
                   demo_host_reliable (demo_entry _ _ _ _) _ eq_refl) eq_refl eq_refl).
  repeat constructor.
Defined.


Lemma start_task_close_witness :
  answers
    (omp_xml_handle_end_element 100 "START_TASK"
       (demo_state CLIENT_START_TASK no_credentials (naming_task "t2") (demo_table 0 true)))
    (demo_state CLIENT_START_TASK no_credentials (naming_task "t2") (demo_table 0 true))
    [xml_response "start_task" STATUS_ERROR_SYNTAX "Task is active already"]
    (fun st' => client_state st' = CLIENT_AUTHENTIC
                /\ forked st' = 0 /\ manage st' = demo_table 0 true).
Proof.
  refine (proj1 (@start_task_close demo_host table_library 100 "START_TASK" "t2" ""
                   2 (demo_table 0 true)
                   (demo_state CLIENT_START_TASK no_credentials (naming_task "t2")
                      (demo_table 0 true))
                   demo_host_reliable (demo_entry _ _ _ _) eq_refl eq_refl eq_refl _ _)
            eq_refl _).
  - discriminate.
  - discriminate.
  - repeat constructor.
Defined.

Lemma start_while_task_running_witness :
  answers
    (omp_xml_handle_end_element 120 "START_TASK"
       (demo_state CLIENT_START_TASK no_credentials (naming_task "t1") (demo_table 2 true)))
    (demo_state CLIENT_START_TASK no_credentials (naming_task "t1") (demo_table 2 true))
    [xml_response "start_task" STATUS_ERROR_SYNTAX
       "There is already a task running in this process"]
    (fun st' => client_state st' = CLIENT_AUTHENTIC
                /\ forked st' = 0 /\ manage st' = demo_table 2 true
                /\ task_id_member (command_data st') = None).
Proof.
  refine (proj1 (proj1 (@start_while_task_running demo_host table_library 120
                          "START_TASK" "t1" 1
                          (demo_state CLIENT_START_TASK no_credentials (naming_task "t1")
                             (demo_table 2 true))
                          demo_host_reliable (demo_entry _ _ _ _) _
                          eq_refl eq_refl _)
                   CLIENT_START_TASK "start_task" start_task
                   (or_introl eq_refl) eq_refl)
            "" (demo_table 2 true) _ eq_refl).
  - repeat constructor.
  - discriminate.
  - discriminate.
Defined.


Lemma delete_task_two_phase_witness :
  answers
    (omp_xml_handle_end_element 100 "DELETE_TASK"
       (demo_state CLIENT_DELETE_TASK no_credentials (naming_task "t1") (demo_table 0 true)))
    (demo_state CLIENT_DELETE_TASK no_credentials (naming_task "t1") (demo_table 0 true))
    [xml_response "delete_task" STATUS_OK "OK"]
    (fun st' => client_state st' = CLIENT_AUTHENTIC
                /\ lookup_task (manage st') 1 = None).
Proof.
  refine (proj1 (proj1 (proj2 (@delete_task_two_phase demo_host 100 "DELETE_TASK" "t1"
                                 demo_host_reliable _))
                   (demo_task 1 "t1" TASK_STATUS_NEW false)
                   (demo_state CLIENT_DELETE_TASK no_credentials (naming_task "t1")
                      (demo_table 0 true))
                   (demo_entry _ _ _ _) eq_refl eq_refl eq_refl eq_refl _ eq_refl)
            eq_refl eq_refl).
  - repeat constructor.
  - discriminate.
Defined.



(** ** Where the code parts from the description *)

(** C1 as stated fails: the library accepts the credentials, yet the answer
    is 500 and the state is Top, because the tasks could not be loaded. *)
Lemma authenticate_accepted_not_authentic :
  @authenticate table_library (demo_table 0 false) (demo_credentials "secret") = 0
  /\ observed
       (omp_xml_handle_end_element 100 "AUTHENTICATE"
          (demo_state CLIENT_AUTHENTICATE (demo_credentials "secret") command_data_init
             (demo_table 0 false)))
     = Some (CLIENT_TOP, xml_response "authenticate" "500" "Internal error").
Proof. split; vm_compute; reflexivity. Qed.


(** C3 as stated fails: starting the running task is answered with 400. *)
Lemma start_active_task_is_syntax_error :
  @start_task table_library (demo_table 0 true) 2 = (1, "", demo_table 0 true)
  /\ observed
       (omp_xml_handle_end_element 100 "START_TASK"
          (demo_state CLIENT_START_TASK no_credentials (naming_task "t2")
             (demo_table 0 true)))
     = Some (CLIENT_AUTHENTIC, xml_response "start_task" "400" "Task is active already")
  /\ STATUS_INTERNAL_ERROR = "500".
Proof. repeat split; vm_compute; reflexivity. Qed.

(** C4 as stated fails: the hidden task is idle, yet deleting it is answered
    with 400 and the task stays. *)
Lemma delete_hidden_task_refused :
  idle TASK_STATUS_DONE = true
  /\ observed
       (omp_xml_handle_end_element 100 "DELETE_TASK"
          (demo_state CLIENT_DELETE_TASK no_credentials (naming_task "t3")
             (demo_table 0 true)))
     = Some (CLIENT_AUTHENTIC,
             xml_response "delete_task" "400" "Attempt to delete a hidden task")
  /\ lookup_task
       (manage
          (state_after
             (omp_xml_handle_end_element 100 "DELETE_TASK"
                (demo_state CLIENT_DELETE_TASK no_credentials (naming_task "t3")
                   (demo_table 0 true)))
             (demo_state CLIENT_DELETE_TASK no_credentials (naming_task "t3")
                (demo_table 0 true))))
       3
     = Some (demo_task 3 "t3" TASK_STATUS_DONE true).
Proof. repeat split; vm_compute; reflexivity. Qed.



(** C9 as stated fails: with a task running in the process a START_TASK is
    answered with 400, and Busy is 409; in the forked child the command ends
    the process without answering. *)
Lemma start_while_running_is_syntax_error :
  @start_task table_library (demo_table 2 true) 1 = (-6, "", demo_table 2 true)
  /\ observed
       (omp_xml_handle_end_element 100 "START_TASK"
          (demo_state CLIENT_START_TASK no_credentials (naming_task "t1")
             (demo_table 2 true)))
     = Some (CLIENT_AUTHENTIC,
             xml_response "start_task" "400"
               "There is already a task running in this process")
  /\ STATUS_ERROR_BUSY = "409"
  /\ omp_xml_handle_end_element 100 "START_TASK"
       (set_forked
          (demo_state CLIENT_START_TASK no_credentials (naming_task "t1")
             (demo_table 2 true)) 2)
     = Some Aborted.
Proof. repeat split; vm_compute; reflexivity. Qed.

(** ** Sub-elements *)

(** The element that opens a sub-element state is the one its close asserts,
    and the close goes back to the state that accepted the opening. *)
Lemma end_sub_element_case_of_child (s : client_state_t) (sc : start_case)
  (name name' : string) (child parent : client_state_t) :
  start_element_case s = Some sc ->
  In (name, child) (children sc) ->
  end_sub_element_case child = Some (name', parent) ->
  name' = name /\ parent = s.
Proof.
  intros Hcase Hin Hpop.
  destruct s; simpl in Hcase; try discriminate; injection Hcase as <-;
    simpl in Hin;
    repeat (destruct Hin as [Hin|Hin];
            [ injection Hin as <- <-; simpl in Hpop;
              first [ discriminate | injection Hpop as <- <-; split; reflexivity ]
            | ]);
    contradiction.
Qed.

Lemma lookup_element_in (element_name : string) (table : list (string * client_state_t))
  (child : client_state_t) :
  lookup_element element_name table = Some child ->
  exists name, In (name, child) table /\ strcasecmp name element_name = 0.
Proof.
  unfold lookup_element.
  destruct (find _ table) as [[name s]|] eqn:Hfind; simpl; [|discriminate].
  intros [= <-]. apply find_some in Hfind. destruct Hfind as [Hin Hname].
  exists name. split; [exact Hin|]. simpl in Hname. now apply Z.eqb_eq.
Qed.

Lemma children_not_shadowed (s : client_state_t) (sc : start_case)
  (name : string) (child : client_state_t) :
  start_element_case s = Some sc ->
  In (name, child) (children sc) ->
  lookup_element name (children sc) = Some child.
Proof.
  intros Hcase Hin.
  destruct s; simpl in Hcase; try discriminate; injection Hcase as <-;
    simpl in Hin;
    repeat (destruct Hin as [Hin|Hin]; [injection Hin as <- <-; reflexivity|]);
    contradiction.
Qed.

Section SubElementFacts.
Context {host : Host} {library : Manage}.


End SubElementFacts.


(** ** Names of elements and attributes *)

Lemma tolower_idempotent (c : ascii) : tolower (tolower c) = tolower c.
Proof. destruct c as [[] [] [] [] [] [] [] []]; reflexivity. Qed.

Lemma lower_String (c : ascii) (s : string) :
  lower (String c s) = String (tolower c) (lower s).
Proof. reflexivity. Qed.

Lemma strcasecmp_lower (a b : string) : strcasecmp a (lower b) = strcasecmp a b.
Proof.
  revert b. induction a as [|c a IH]; intros [|d b]; try reflexivity.
  - rewrite lower_String. simpl. now rewrite tolower_idempotent.
  - rewrite lower_String. simpl. rewrite tolower_idempotent.
    destruct (Ascii.eqb (tolower c) (tolower d)); [apply IH | reflexivity].
Qed.

Lemma strcasecmp_same_lower (a e1 e2 : string) :
  lower e1 = lower e2 -> strcasecmp a e1 = strcasecmp a e2.
Proof.
  intros H. now rewrite <- (strcasecmp_lower a e1), <- (strcasecmp_lower a e2), H.
Qed.

Lemma lookup_element_same_lower (e1 e2 : string) (table : list (string * client_state_t)) :
  lower e1 = lower e2 -> lookup_element e1 table = lookup_element e2 table.
Proof.
  intros H. unfold lookup_element. f_equal.
  induction table as [|[name s] table IH]; simpl; [reflexivity|].
  rewrite (strcasecmp_same_lower name e1 e2 H). now rewrite IH.
Qed.

Section NameFacts.
Context {host : Host} {library : Manage}.

(** X2: the name of an element is matched without regard to case.  Two
    spellings of a name that differ only in the case of letters find the
    same entry in every element table, and the start handler does the same
    with both wherever the name does not go into the response: in the four
    top-level states and wherever the element is accepted. *)
Theorem element_names_fold_case (e1 e2 : string) :
  lower e1 = lower e2 ->
  (forall table, lookup_element e1 table = lookup_element e2 table)
  /\ (forall (fuel : nat) (attribute_names attribute_values : list string)
             (st : omp_state),
         In (client_state st) top_level_states
         \/ (exists sc child,
                start_element_case (client_state st) = Some sc
                /\ lookup_element e1 (children sc) = Some child) ->
         omp_xml_handle_start_element fuel e1 attribute_names attribute_values st
         = omp_xml_handle_start_element fuel e2 attribute_names attribute_values st).
Proof.
  intros H. split; [intros table; now apply lookup_element_same_lower|].
  intros fuel attribute_names attribute_values st [Htop|(sc & child & Hcase & Hlookup)].
  - unfold omp_xml_handle_start_element, start_before_authentication.
    rewrite (strcasecmp_same_lower "GET_VERSION" e1 e2 H),
            (strcasecmp_same_lower "AUTHENTICATE" e1 e2 H),
            (strcasecmp_same_lower "COMMANDS" e1 e2 H),
            (lookup_element_same_lower e1 e2 authentic_commands H).
    simpl in Htop.
    destruct Htop as [<-|[<-|[<-|[<-|[]]]]]; reflexivity.
  - rewrite !(start_element_inside fuel _ attribute_names attribute_values st sc Hcase).
    unfold start_inside_command.
    rewrite <- (lookup_element_same_lower e1 e2 (children sc) H), Hlookup.
    reflexivity.
Qed.

End NameFacts.

Lemma element_names_fold_case_witness :
  @omp_xml_handle_start_element demo_host table_library 10 "get_Version" [] []
    (demo_state CLIENT_TOP no_credentials command_data_init (demo_table 0 true))
  = @omp_xml_handle_start_element demo_host table_library 10 "GET_VERSION" [] []
      (demo_state CLIENT_TOP no_credentials command_data_init (demo_table 0 true)).
Proof.
  apply (proj2 (@element_names_fold_case demo_host table_library
                  "get_Version" "GET_VERSION" eq_refl)).
  left. left. reflexivity.
Defined.

(** X3: [find_attribute] answers the value at the position of the first
    name that [strcmp] finds equal to the sought name, and only looks at
    positions where both arrays have an entry; the comparison is exact, so
    a name in another case is not found. *)
Theorem find_attribute_first_match (attribute_names attribute_values : list string)
  (attribute_name value : string) :
  find_attribute attribute_names attribute_values attribute_name = Some value
  <-> exists (i : nat) (name : string),
        nth_error attribute_names i = Some name
        /\ nth_error attribute_values i = Some value
        /\ strcmp name attribute_name = 0
        /\ forall (j : nat) (other : string),
             (j < i)%nat -> nth_error attribute_names j = Some other ->
             strcmp other attribute_name <> 0.
Proof.
  revert attribute_values.
  induction attribute_names as [|n names IH]; intros [|v values]; simpl.
  - split; [discriminate | intros (i & name & H & _); destruct i; discriminate].
  - split; [discriminate | intros (i & name & H & _); destruct i; discriminate].
  - split; [discriminate | intros (i & name & _ & H & _); destruct i; discriminate].
  - destruct (Z.eqb_spec (strcmp n attribute_name) 0) as [Hn|Hn]; simpl.
    + split.
      * intros [= <-]. exists 0%nat, n. repeat split; auto. intros j other Hj. lia.
      * intros (i & name & Hi & Hv & Hname & Hfirst).
        destruct i as [|i]; [simpl in Hv; exact Hv|].
        exfalso. apply (Hfirst 0%nat n); [lia | reflexivity | exact Hn].
    + rewrite IH. split.
      * intros (i & name & Hi & Hv & Hname & Hfirst).
        exists (S i), name. repeat split; auto.
        intros [|j] other Hj Hother; simpl in Hother.
        -- injection Hother as <-. exact Hn.
        -- apply (Hfirst j); [lia | exact Hother].
      * intros (i & name & Hi & Hv & Hname & Hfirst).
        destruct i as [|i]; simpl in Hi, Hv.
        -- injection Hi as <-. contradiction.
        -- exists i, name. repeat split; auto.
           intros j other Hj Hother. apply (Hfirst (S j)); [lia | exact Hother].
Qed.

(** X4: the element states form one tree per command.  Every state other
    than the four top-level states and the state of a GET_VERSION before
    authentication lies below exactly one of the commands accepted in
    Authentic: no state is unreachable and none is shared by two commands. *)
Theorem every_state_has_one_command (s : client_state_t) :
  In s (CLIENT_GET_VERSION :: top_level_states)
  \/ exists command,
       filter (fun c => below 8 (snd c) s) authentic_commands = [command]
       /\ owning_command s = Some (lower (fst command)).
Proof.
  destruct s;
    first [ right; eexists; split; vm_compute; reflexivity
          | left; simpl; tauto ].
Qed.

(** ** Sessions *)

Section SessionFacts.
Context {host : Host} {library : Manage}.

Lemma parse_cons (fuel : nat) (e : xml_event) (events : list xml_event)
  (st st' : omp_state) :
  handle_event fuel e st = Some (Returns st') ->
  error st' = None ->
  g_markup_parse_context_parse fuel (e :: events) st
  = g_markup_parse_context_parse fuel events st'.
Proof. intros H He. simpl. now rewrite H, He. Qed.

Lemma has_sent_one (st st' : omp_state) (msg : string) :
  has_sent st [msg] st' -> session_output st' = session_output st ++ chars msg.
Proof. intros [_ H]. rewrite H. simpl. now rewrite app_nil_r. Qed.

(** Queue the message under the goal on a reliable host. *)
Ltac send Hrel Hb :=
  match goal with
  | |- context [SEND_TO_CLIENT_OR_FAIL ?f ?msg ?st ?rest] =>
      let c := fresh "c" in
      let b := fresh "b" in
      let Hs := fresh "Hs" in
      let Hsent := fresh "Hsent" in
      destruct (SEND_TO_CLIENT_OR_FAIL_reliable f msg st rest Hrel)
        as (c & b & Hs & Hsent);
      [ exact Hb | try (vm_compute; lia); try assumption | rewrite Hs; clear Hs ]
  end.

Ltac step st1 :=
  rewrite (parse_cons _ _ _ _ st1); [ | reflexivity | reflexivity ].

(** Reading the credentials: from CREDENTIALS to its end. *)
Lemma credentials_session (fuel : nat) (u p : string) (st : omp_state)
  (events : list xml_event) :
  client_state st = CLIENT_AUTHENTICATE ->
  current_credentials st = {| username := None; password := None |} ->
  error st = None ->
  g_markup_parse_context_parse fuel
    (StartElement "CREDENTIALS" [] [] ::
     StartElement "USERNAME" [] [] ::
     Text u ::
     EndElement "USERNAME" ::
     StartElement "PASSWORD" [] [] ::
     Text p ::
     EndElement "PASSWORD" ::
     EndElement "CREDENTIALS" :: events) st
  = g_markup_parse_context_parse fuel events
      (set_credentials st (credentials_read u p)).
Proof.
  destruct st as [s cr d ce f e b c m].
  cbn [client_state current_credentials error set_credentials]. intros -> -> ->.
  set (S := fun s cr =>
         {| client_state := s; current_credentials := cr; command_data := d;
            current_error := ce; forked := f; error := None;
            to_client_buffer := b; write_to_client_data := c; manage := m |}).
  change (Build_omp_state _ _ _ _ _ _ _ _ _) with
    (S CLIENT_AUTHENTICATE {| username := None; password := None |}) at 1.
  step (S CLIENT_AUTHENTICATE_CREDENTIALS {| username := None; password := Some "" |}).
  step (S CLIENT_AUTHENTICATE_CREDENTIALS_USERNAME
          {| username := None; password := Some "" |}).
  rewrite (parse_cons _ _ _ _
             (S CLIENT_AUTHENTICATE_CREDENTIALS_USERNAME (credentials_read u "")));
    [ | destruct u; reflexivity | reflexivity ].
  step (S CLIENT_AUTHENTICATE_CREDENTIALS (credentials_read u "")).
  step (S CLIENT_AUTHENTICATE_CREDENTIALS_PASSWORD (credentials_read u "")).
  rewrite (parse_cons _ _ _ _
             (S CLIENT_AUTHENTICATE_CREDENTIALS_PASSWORD (credentials_read u p)));
    [ | destruct p; reflexivity | reflexivity ].
  step (S CLIENT_AUTHENTICATE_CREDENTIALS (credentials_read u p)).
  step (S CLIENT_AUTHENTICATE (credentials_read u p)).
  reflexivity.
Qed.

(** X5: a session that opens with an AUTHENTICATE element whose credentials
    the library accepts.  The input processor returns 0, the state is
    Authentic, the credentials are the texts of USERNAME and PASSWORD, the
    tasks are loaded and exactly the OK response has been put out.  A
    USERNAME without text leaves the username NULL; the password is the
    empty string even without text. *)
Theorem authenticate_session (fuel : nat) (u p : string)
  (c : client) (b : to_client_t) (m m' : manage_t) :
  reliable_host -> buffer_ok b -> (80 <= fuel)%nat ->
  authenticate m (credentials_read u p) = 0 ->
  load_tasks m = (0, m') ->
  exists st',
    process_omp_client_input fuel (authenticate_events u p) (init_omp_process c b m)
    = Some (Returns (0, st'))
    /\ client_state st' = CLIENT_AUTHENTIC
    /\ current_credentials st' = credentials_read u p
    /\ manage st' = m'
    /\ session_output st' = output c b ++ chars (XML_OK "authenticate").
Proof.
  intros Hrel Hb Hfuel Hauth Hload.
  unfold process_omp_client_input, authenticate_events.
  rewrite (parse_cons _ _ _ _
             (set_client_state (init_omp_process c b m) CLIENT_AUTHENTICATE));
    [ | reflexivity | reflexivity ].
  rewrite credentials_session; [ | reflexivity | reflexivity | reflexivity ].
  cbn [g_markup_parse_context_parse handle_event].
  unfold omp_xml_handle_end_element.
  cbn [client_state set_credentials set_client_state init_omp_process].
  unfold end_CLIENT_AUTHENTICATE.
  cbn [manage current_credentials set_credentials set_client_state init_omp_process].
  rewrite Hauth, Hload. cbn [negb Z.eqb].
  send Hrel Hb.
  cbn. eexists. split; [reflexivity|]. cbn.
  repeat split; try reflexivity.
  exact (has_sent_one _ _ _ Hsent).
Qed.

Lemma process_success (fuel : nat) (events : list xml_event) (st st' : omp_state) :
  g_markup_parse_context_parse fuel events (clear_error (set_current_error st 0))
  = Some (Returns st') ->
  error st' = None ->
  process_omp_client_input fuel events st = Some (Returns (success_status st', st')).
Proof.
  intros H He. unfold process_omp_client_input, success_status. rewrite H, He.
  destruct (negb (forked st' =? 0)); reflexivity.
Qed.

(** X6: an AUTHENTICATE inside an authenticated session whose credentials
    the library rejects ends the authentication.  The tasks are saved and
    freed and the old credentials dropped before the new ones are read; the
    rejected command is answered with 400 and leaves the state machine in
    Top with no credentials, while the input processor reports success. *)
Theorem failed_reauthentication (fuel : nat) (u p : string) (st : omp_state)
  (m1 : manage_t) :
  reliable_host -> callback_entry st -> (80 <= fuel)%nat ->
  client_state st = CLIENT_AUTHENTIC ->
  save_tasks (manage st) = (0, m1) ->
  authenticate (free_tasks m1) (credentials_read u p) = 1 ->
  exists st',
    process_omp_client_input fuel (authenticate_events u p) st
    = Some (Returns (success_status st, st'))
    /\ client_state st' = CLIENT_TOP
    /\ current_credentials st' = {| username := None; password := None |}
    /\ manage st' = free_tasks m1
    /\ session_output st'
       = session_output st ++ chars (XML_ERROR_AUTH_FAILED "authenticate").
Proof.
  intros Hrel [Hb He] Hfuel Hs Hsave Hauth.
  set (st1 := set_client_state
                (set_credentials
                   (set_manage (clear_error (set_current_error st 0)) (free_tasks m1))
                   {| username := None; password := None |})
                CLIENT_AUTHENTICATE).
  assert (Hrun : exists st',
    g_markup_parse_context_parse fuel (authenticate_events u p)
      (clear_error (set_current_error st 0)) = Some (Returns st')
    /\ error st' = None /\ forked st' = forked st
    /\ client_state st' = CLIENT_TOP
    /\ current_credentials st' = {| username := None; password := None |}
    /\ manage st' = free_tasks m1
    /\ session_output st'
       = session_output st ++ chars (XML_ERROR_AUTH_FAILED "authenticate")).
  { unfold authenticate_events.
    rewrite (parse_cons _ _ _ _ st1); [ | | reflexivity ].
    2: { cbn [handle_event]. unfold omp_xml_handle_start_element.
         cbn [client_state clear_error set_current_error]. rewrite Hs.
         change (lookup_element "AUTHENTICATE" authentic_commands)
           with (Some CLIENT_AUTHENTICATE).
         cbn [open_command manage clear_error set_current_error].
         rewrite Hsave. reflexivity. }
    rewrite credentials_session; [ | reflexivity | reflexivity | reflexivity ].
    cbn [g_markup_parse_context_parse handle_event].
    unfold omp_xml_handle_end_element.
    cbn [client_state set_credentials set_client_state st1].
    unfold end_CLIENT_AUTHENTICATE.
    cbn [manage current_credentials set_credentials set_client_state set_manage st1].
    rewrite Hauth.
    send Hrel Hb.
    cbn. eexists. split; [reflexivity|]. cbn.
    repeat split; try reflexivity.
    exact (has_sent_one _ _ _ Hsent). }
  destruct Hrun as (st' & Hparse & He' & Hf & Hrest).
  exists st'. split; [|exact Hrest].
  rewrite (process_success _ _ _ _ Hparse He').
  unfold success_status. now rewrite Hf.
Qed.


(** What the input processor makes of a parse that a callback stopped with
    the status of a forked child. *)
Lemma process_forked_child (fuel : nat) (events : list xml_event)
  (st st' : omp_state) (message : string) :
  g_markup_parse_context_parse fuel events (clear_error (set_current_error st 0))
  = Some (Returns st') ->
  error st' = Some {| code := G_MARKUP_ERROR_INVALID_CONTENT; message := message |} ->
  current_error st' <> 0 ->
  process_omp_client_input fuel events st
  = Some (Returns (current_error st', set_forked st' 2)).
Proof.
  intros H He Hc. unfold process_omp_client_input. rewrite H, He. simpl.
  destruct (Z.eqb_spec (current_error st') 0); [contradiction | reflexivity].
Qed.

(** X8: START_TASK seen from the caller of the input processor.  In the
    parent, a start the library accepts is answered with 202 and the input
    processor returns 3 instead of 0, the fork being noted.  In the forked
    child, where the library returns 2 (or -10 on failure), nothing is sent
    to the client: the input processor returns that status and marks the
    process as a child, in which a further START_TASK ends the process. *)
Theorem start_task_session (fuel : nat) (task_id report_id : string) (task : task_t)
  (st : omp_state) (m' : manage_t) (status : Z) :
  reliable_host -> callback_entry st ->
  (strlen (requested_with_report "start_task" report_id) <= fuel)%nat ->
  client_state st = CLIENT_AUTHENTIC ->
  task_id_member (command_data st) = None ->
  forked st <> 2 ->
  find_task (manage st) task_id = (false, task) -> task <> 0 ->
  start_task (manage st) task = (status, report_id, m') ->
  (status = 0 ->
   exists st',
     process_omp_client_input fuel (task_command_events "START_TASK" task_id) st
     = Some (Returns (3, st'))
     /\ forked st' = 1 /\ client_state st' = CLIENT_AUTHENTIC /\ manage st' = m'
     /\ session_output st'
        = session_output st ++ chars (requested_with_report "start_task" report_id))
  /\ (status = 2 \/ status = -10 ->
      exists st',
        process_omp_client_input fuel (task_command_events "START_TASK" task_id) st
        = Some (Returns (status, st'))
        /\ forked st' = 2 /\ client_state st' = CLIENT_AUTHENTIC /\ manage st' = m'
        /\ session_output st' = session_output st
        /\ forall (other : string) (task' : task_t),
             find_task m' other = (false, task') -> task' <> 0 ->
             process_omp_client_input fuel (task_command_events "START_TASK" other) st'
             = Some Aborted).
Proof.
  intros Hrel [Hb He] Hfuel Hs Hd Hforked Hfind Htask Hstart.
  assert (Hopen : forall (st0 : omp_state) (id : string),
    client_state st0 = CLIENT_AUTHENTIC ->
    task_id_member (command_data st0) = None ->
    handle_event fuel (StartElement "START_TASK" ["task_id"] [id]) st0
    = Some (Returns (set_client_state
                       (set_command_data st0
                          (set_task_id_member (command_data st0) (Some id)))
                       CLIENT_START_TASK))).
  { intros st0 id Hs0 Hd0. cbn [handle_event]. unfold omp_xml_handle_start_element.
    rewrite Hs0.
    change (lookup_element "START_TASK" authentic_commands) with (Some CLIENT_START_TASK).
    cbn [open_command].
    change (append_attribute ["task_id"] [id] "task_id" (task_id_member (command_data st0)))
      with (openvas_append_string (task_id_member (command_data st0)) id).
    rewrite Hd0. reflexivity. }
  unfold task_command_events.
  split.
  - intros ->.
    assert (Hrun : exists st',
      g_markup_parse_context_parse fuel
        [StartElement "START_TASK" ["task_id"] [task_id]; EndElement "START_TASK"]
        (clear_error (set_current_error st 0)) = Some (Returns st')
      /\ error st' = None
      /\ forked st' = 1 /\ client_state st' = CLIENT_AUTHENTIC /\ manage st' = m'
      /\ session_output st'
         = session_output st ++ chars (requested_with_report "start_task" report_id)).
    { rewrite (parse_cons _ _ _ _ _
                 (Hopen (clear_error (set_current_error st 0)) task_id Hs Hd));
        [|reflexivity].
      cbn [g_markup_parse_context_parse handle_event].
      unfold omp_xml_handle_end_element. cbn [client_state set_client_state].
      unfold end_CLIENT_START_TASK.
      cbn [command_data task_id_member set_client_state set_command_data
           set_task_id_member manage forked clear_error set_current_error].
      rewrite Hfind.
      destruct (Z.eqb_spec task 0) as [|_]; [contradiction|].
      destruct (Z.eqb_spec (forked st) 2) as [|_]; [contradiction|].
      rewrite Hstart.
      send Hrel Hb.
      eexists. split; [reflexivity|].
      repeat split; try reflexivity.
      exact (has_sent_one _ _ _ Hsent). }
    destruct Hrun as (st' & Hparse & He' & Hf & Hrest).
    exists st'. split; [|split; [exact Hf | exact Hrest]].
    rewrite (process_success _ _ _ _ Hparse He').
    unfold success_status. now rewrite Hf.
  - intros Hstatus.
    assert (Hrun : exists st',
      g_markup_parse_context_parse fuel
        [StartElement "START_TASK" ["task_id"] [task_id]; EndElement "START_TASK"]
        (clear_error (set_current_error st 0)) = Some (Returns st')
      /\ error st' = Some {| code := G_MARKUP_ERROR_INVALID_CONTENT;
                             message := "Dummy error for current_error" |}
      /\ current_error st' = status
      /\ client_state st' = CLIENT_AUTHENTIC /\ manage st' = m'
      /\ session_output st' = session_output st
      /\ task_id_member (command_data st') = None).
    { rewrite (parse_cons _ _ _ _ _
                 (Hopen (clear_error (set_current_error st 0)) task_id Hs Hd));
        [|reflexivity].
      cbn [g_markup_parse_context_parse handle_event].
      unfold omp_xml_handle_end_element. cbn [client_state set_client_state].
      unfold end_CLIENT_START_TASK.
      cbn [command_data task_id_member set_client_state set_command_data
           set_task_id_member manage forked clear_error set_current_error].
      rewrite Hfind.
      destruct (Z.eqb_spec task 0) as [|_]; [contradiction|].
      destruct (Z.eqb_spec (forked st) 2) as [|_]; [contradiction|].
      rewrite Hstart.
      destruct Hstatus as [-> | ->];
        (eexists; split; [reflexivity|]; repeat split; reflexivity). }
    destruct Hrun as (st' & Hparse & He' & Hc & Hs' & Hm & Hout & Hd').
    exists (set_forked st' 2).
    split.
    { rewrite (process_forked_child _ _ _ _ _ Hparse He').
      - now rewrite Hc.
      - rewrite Hc. destruct Hstatus as [-> | ->]; discriminate. }
    split; [reflexivity|]. split; [exact Hs'|]. split; [exact Hm|].
    split; [exact Hout|].
    intros other task' Hfind' Htask'.
    unfold process_omp_client_input.
    rewrite (parse_cons _ _ _ _ _
               (Hopen (clear_error (set_current_error (set_forked st' 2) 0)) other Hs' Hd'));
      [|reflexivity].
    cbn [g_markup_parse_context_parse handle_event].
    unfold omp_xml_handle_end_element. cbn [client_state set_client_state].
    unfold end_CLIENT_START_TASK.
    cbn [command_data task_id_member set_client_state set_command_data
         set_task_id_member manage forked clear_error set_current_error set_forked].
    rewrite Hm, Hfind'.
    destruct (Z.eqb_spec task' 0) as [|_]; [contradiction|].
    reflexivity.
Qed.


End SessionFacts.

(** ** More on the output buffer *)

Lemma firstn_then_skipn {A : Type} (n k : nat) (l : list A) :
  firstn n l ++ firstn k (skipn n l) = firstn (n + k) l.
Proof.
  revert l. induction n as [|n IH]; intros l; [reflexivity|].
  destruct l as [|a l]; simpl; [now rewrite firstn_nil | now rewrite IH].
Qed.

Section BufferFacts.
Context {host : Host}.

(** X10: while the message fits into what is left of the buffer,
    [send_to_client] queues it without calling the write callback, whatever
    the fuel: the connection is as it was, the message follows what was
    queued, and the call cannot fail.  Responses reach the client only when
    a later message finds the buffer too full, or when the host writes. *)
Theorem send_to_client_without_write (fuel : nat) (msg : string)
  (c : client) (b : to_client_t) :
  buffer_ok b ->
  (strlen msg <= TO_CLIENT_BUFFER_SIZE - to_client_end b)%nat ->
  exists b',
    send_to_client fuel msg c b = Returns (false, c, b')
    /\ buffer_ok b'
    /\ queued b' = queued b ++ chars msg
    /\ to_client_start b' = to_client_start b
    /\ to_client_end b' = (to_client_end b + strlen msg)%nat.
Proof.
  intros Hb Hfit.
  assert (Hentry : (to_client_end b <=? TO_CLIENT_BUFFER_SIZE)%nat = true)
    by (apply Nat.leb_le; destruct Hb as (_ & ? & _); assumption).
  unfold send_to_client, assert. rewrite Hentry. cbn [orb].
  assert (Hloop : send_to_client_loop fuel (chars msg) c b
                  = send_to_client_tail (chars msg) c b).
  { destruct fuel; simpl; rewrite chars_length;
      destruct (Nat.ltb_spec (TO_CLIENT_BUFFER_SIZE - to_client_end b) (strlen msg));
      try lia; reflexivity. }
  rewrite Hloop. unfold send_to_client_tail, assert. rewrite chars_length.
  destruct (Nat.ltb_spec 0 (strlen msg)) as [Hpos|Hzero].
  - destruct (Nat.leb_spec (strlen msg) (TO_CLIENT_BUFFER_SIZE - to_client_end b)); [|lia].
    cbn [orb]. exists (queue_bytes b (chars msg)). split; [reflexivity|].
    assert (Hfit' : (to_client_end b + List.length (chars msg)
                     <= TO_CLIENT_BUFFER_SIZE)%nat)
      by (rewrite chars_length; destruct Hb as (_ & ? & _); lia).
    destruct (queue_bytes_ok b (chars msg) Hb Hfit') as [Hb' Hq].
    split; [exact Hb'|]. split; [exact Hq|]. split; [reflexivity|].
    simpl. now rewrite chars_length.
  - exists b. split; [reflexivity|]. split; [exact Hb|].
    assert (Hmsg : chars msg = []).
    { destruct msg; [reflexivity | simpl in Hzero; lia]. }
    rewrite Hmsg, app_nil_r.
    replace (strlen msg) with 0%nat by lia.
    rewrite Nat.add_0_r. auto.
Qed.

Lemma send_to_client_tail_not_failed (msg : list ascii) (c c' : client)
  (b b' : to_client_t) :
  send_to_client_tail msg c b <> Returns (true, c', b').
Proof.
  unfold send_to_client_tail, assert.
  destruct (0 <? List.length msg)%nat; [|discriminate].
  destruct ((List.length msg <=? TO_CLIENT_BUFFER_SIZE - to_client_end b)%nat || NDEBUG);
    discriminate.
Qed.

Lemma send_to_client_loop_failed (fuel : nat) :
  faithful_host -> failure_keeps_output ->
  forall (msg : list ascii) (c c' : client) (b b' : to_client_t),
    buffer_ok b ->
    send_to_client_loop fuel msg c b = Returns (true, c', b') ->
    exists k,
      (k < List.length msg)%nat
      /\ buffer_ok b'
      /\ output c' b' = output c b ++ firstn k msg.
Proof.
  intros Hhost Hfail. induction fuel as [|fuel IH]; intros msg c c' b b' Hb; simpl.
  - destruct (TO_CLIENT_BUFFER_SIZE - to_client_end b <? List.length msg)%nat;
      [discriminate|]. intros H. now apply send_to_client_tail_not_failed in H.
  - destruct (Nat.ltb_spec (TO_CLIENT_BUFFER_SIZE - to_client_end b) (List.length msg))
      as [Hfull|Hroom].
    2: { intros H. now apply send_to_client_tail_not_failed in H. }
    destruct (write_to_client c b) as [[r c1] b1] eqn:Hw.
    destruct (Z.eqb_spec r (-1)) as [->|Hr].
    + intros [= <- <-]. destruct (Hfail _ _ _ _ Hb Hw) as [Hb1 Hout].
      exists 0%nat. split; [lia|]. split; [exact Hb1|].
      now rewrite Hout, app_nil_r.
    + destruct (Hhost _ _ _ _ _ Hb Hw Hr) as [Hb1 Hout].
      unfold assert. destruct ((r =? 0) || (r =? -2) || NDEBUG); [|discriminate].
      destruct (Nat.ltb_spec (List.length msg) (TO_CLIENT_BUFFER_SIZE - to_client_end b1))
        as [Hlt|Hge].
      * intros H. now apply send_to_client_tail_not_failed in H.
      * intros Hrec.
        set (len := (TO_CLIENT_BUFFER_SIZE - to_client_end b1)%nat) in *.
        assert (Hchunk : List.length (firstn len msg) = len)
          by (rewrite length_firstn; lia).
        assert (Hfit : (to_client_end b1 + List.length (firstn len msg)
                        <= TO_CLIENT_BUFFER_SIZE)%nat).
        { rewrite Hchunk. destruct Hb1 as (_ & ? & _). unfold len. lia. }
        destruct (queue_bytes_ok b1 (firstn len msg) Hb1 Hfit) as [Hb2 _].
        destruct (IH _ _ _ _ _ Hb2 Hrec) as (k & Hk & Hb' & Ho).
        rewrite length_skipn in Hk.
        exists (len + k)%nat. split; [lia|]. split; [exact Hb'|].
        rewrite Ho, output_queue_bytes by assumption.
        rewrite Hout, <- app_assoc, firstn_then_skipn. reflexivity.
Qed.

(** X11: when [send_to_client] comes back with TRUE, what has been put out
    since the call is a proper prefix of the message, possibly empty: the
    chunks queued before the callback reported the error.  A failed send
    can leave a truncated response behind, never a whole one. *)
Theorem send_to_client_failure_truncates (fuel : nat) (msg : string)
  (c c' : client) (b b' : to_client_t) :
  faithful_host -> failure_keeps_output -> buffer_ok b ->
  send_to_client fuel msg c b = Returns (true, c', b') ->
  exists k,
    (k < strlen msg)%nat
    /\ output c' b' = output c b ++ firstn k (chars msg).
Proof.
  intros Hhost Hfail Hb. unfold send_to_client, assert.
  destruct ((to_client_end b <=? TO_CLIENT_BUFFER_SIZE)%nat || NDEBUG); [|discriminate].
  intros Hrun.
  destruct (send_to_client_loop_failed fuel Hhost Hfail _ _ _ _ _ Hb Hrun)
    as (k & Hk & _ & Ho).
  rewrite chars_length in Hk. exists k. auto.
Qed.

End BufferFacts.

(** ** The helper functions *)

(** X12: [is_uuid] checks the alphabet and nothing else.  It answers 1
    exactly for the strings made of hexadecimal digits and dashes, the empty
    string among them; neither the length nor the places of the dashes are
    looked at, so the check goes through concatenation. *)
Theorem is_uuid_alphabet (a b : string) :
  (is_uuid a = 1
   <-> Forall (fun c => isxdigit c = true \/ c = "-"%char) (chars a))
  /\ (is_uuid a = 1 \/ is_uuid a = 0)
  /\ is_uuid (a +++ b) = is_uuid a * is_uuid b.
Proof.
  split; [|split].
  - induction a as [|c a IH]; simpl.
    + split; [constructor | reflexivity].
    + destruct (isxdigit c) eqn:Hx; simpl.
      * rewrite IH. split; [intros H; constructor; auto | intros H; now inversion H].
      * destruct (Ascii.eqb_spec c "-") as [->|Hc].
        -- rewrite IH. split; [intros H; constructor; auto | intros H; now inversion H].
        -- split; [discriminate|]. intros H. inversion H as [|? ? [Hd|Hd] _]; congruence.
  - induction a as [|c a IH]; simpl; [now left|].
    destruct (isxdigit c || Ascii.eqb c "-"); [exact IH | now right].
  - induction a as [|c a IH]; simpl.
    + now destruct (is_uuid b).
    + destruct (isxdigit c || Ascii.eqb c "-"); [exact IH | reflexivity].
Qed.

Lemma strcasecmp_lower_l (a b : string) : strcasecmp (lower a) b = strcasecmp a b.
Proof.
  revert b. induction a as [|c a IH]; intros [|d b]; try reflexivity.
  - rewrite lower_String. simpl. now rewrite tolower_idempotent.
  - rewrite lower_String. simpl. rewrite tolower_idempotent.
    destruct (Ascii.eqb (tolower c) (tolower d)); [apply IH | reflexivity].
Qed.

(** X13: [interval_from_strings] at its edges.  Without a value the
    interval is 0 whatever the unit, known or not.  A calendar unit (month,
    year, decade, in any case of letters) never gives seconds: with a place
    for the months the interval is 0 and the months are set, without one
    the result is -1, the error value.  And -1 is also what a value that
    reads as -1 gives in seconds, so the error value does not tell an error
    from an interval. *)
Theorem interval_from_strings_edges (value : string) (months : option Z) :
  (forall unit, interval_from_strings None unit months = Some (0, months))
  /\ (forall unit (n : Z),
         (lower unit = "month" /\ n = 1) \/ (lower unit = "year" /\ n = 12)
         \/ (lower unit = "decade" /\ n = 120) ->
         interval_from_strings (Some value) (Some unit) None = Some (-1, None)
         /\ (in_int (atoi value * 12) = true -> in_int (atoi value * n) = true ->
             forall old,
               interval_from_strings (Some value) (Some unit) (Some old)
               = Some (0, Some (atoi value * n))))
  /\ (atoi value = -1 ->
      interval_from_strings (Some value) None months = Some (-1, months)
      /\ interval_from_strings (Some value) (Some "second") months = Some (-1, months)
      /\ interval_from_strings (Some value) (Some "fortnight") months
         = Some (-1, months)).
Proof.
  split; [reflexivity|]. split.
  - intros unit n Hunit.
    assert (Hcmp : forall name, strcasecmp unit name = strcasecmp (lower unit) name)
      by (intros name; now rewrite strcasecmp_lower_l).
    unfold interval_from_strings. rewrite !Hcmp.
    destruct Hunit as [[-> ->]|[[-> ->]|[-> ->]]];
      (split; [reflexivity|]); intros H12 Hn old; cbn -[atoi in_int Z.mul];
      unfold int_times.
    + now rewrite Z.mul_1_r.
    + now rewrite Hn.
    + rewrite H12. replace (atoi value * 12 * 10) with (atoi value * 120) by lia.
      now rewrite Hn.
  - intros Hv. unfold interval_from_strings. rewrite Hv.
    repeat split; destruct months; reflexivity.
Qed.

(** ** max_hosts *)

Lemma to_int_small (z : Z) : INT_MIN <= z <= INT_MAX -> to_int z = z.
Proof.
  unfold to_int, INT_MIN, INT_MAX. intros H.
  rewrite Z.mod_small by lia. lia.
Qed.

Lemma to_int_add (x y : Z) : to_int (x + y) = to_int (to_int x + to_int y).
Proof.
  unfold to_int. f_equal.
  rewrite (Z.mod_eq (x + 2147483648) 4294967296) by lia.
  rewrite (Z.mod_eq (y + 2147483648) 4294967296) by lia.
  set (q1 := (x + 2147483648) / 4294967296).
  set (q2 := (y + 2147483648) / 4294967296).
  replace (x + 2147483648 - 4294967296 * q1 - 2147483648
           + (y + 2147483648 - 4294967296 * q2 - 2147483648) + 2147483648)
    with (x + y + 2147483648 + (- q1 - q2) * 4294967296) by lia.
  now rewrite Z.mod_add by lia.
Qed.

Lemma to_int_idempotent (z : Z) : to_int (to_int z) = to_int z.
Proof.
  apply to_int_small. unfold to_int, INT_MIN, INT_MAX.
  pose proof (Z.mod_pos_bound (z + 2147483648) 4294967296). lia.
Qed.

Lemma split_at_no_delimiter (d : ascii) (s : string) :
  after_strchr s d = None -> split_at d s = [s].
Proof.
  induction s as [|c s IH]; simpl; [reflexivity|].
  destruct (Ascii.eqb c d); [discriminate|].
  intros H. now rewrite (IH H).
Qed.

Lemma split_at_cons (d : ascii) (s : string) :
  exists piece pieces, split_at d s = piece :: pieces.
Proof.
  induction s as [|c s (piece & pieces & IH)]; simpl; [eauto|].
  destruct (Ascii.eqb c d); [eauto|]. rewrite IH. eauto.
Qed.

Lemma split_at_app (d : ascii) (a b : string) :
  split_at d (a +++ String d b) = split_at d a ++ split_at d b.
Proof.
  induction a as [|c a IH]; simpl.
  - now rewrite Ascii.eqb_refl.
  - destruct (Ascii.eqb c d); [now rewrite IH|].
    rewrite IH. destruct (split_at_cons d a) as (piece & pieces & ->). reflexivity.
Qed.

Lemma netmask_bits_step (fuel : nat) (mask haddr : Z) :
  netmask_bits (S fuel) mask haddr
  = if Z.land haddr 1 =? 0 then netmask_bits fuel (mask - 1) (Z.shiftr haddr 1)
    else Returns mask.
Proof. reflexivity. Qed.

Lemma land_1_odd (h : Z) : Z.odd h = true -> Z.land h 1 = 1.
Proof.
  intros Hodd. change 1 with (Z.ones 1) at 1. rewrite Z.land_ones by lia.
  rewrite Zodd_mod in Hodd. now apply Z.eqb_eq in Hodd.
Qed.

Lemma netmask_bits_trailing_zeros (k : nat) :
  forall (fuel : nat) (mask h : Z),
    (k <= fuel)%nat -> Z.odd h = true ->
    netmask_bits fuel mask (h * 2 ^ Z.of_nat k) = Returns (mask - Z.of_nat k).
Proof.
  induction k as [|k IH]; intros fuel mask h Hfuel Hodd.
  - rewrite Z.mul_1_r, Z.sub_0_r.
    destruct fuel; [cbn [netmask_bits] | rewrite netmask_bits_step];
      now rewrite (land_1_odd h Hodd).
  - destruct fuel as [|fuel]; [lia|].
    assert (Hpow : h * 2 ^ Z.of_nat (S k) = 2 * (h * 2 ^ Z.of_nat k)).
    { rewrite Nat2Z.inj_succ, Z.pow_succ_r by lia. lia. }
    rewrite netmask_bits_step, Hpow.
    assert (Hland : Z.land (2 * (h * 2 ^ Z.of_nat k)) 1 = 0).
    { change 1 with (Z.ones 1) at 1. rewrite Z.land_ones by lia.
      change (2 ^ 1) with 2.
      rewrite Z.mul_comm. apply Z.mod_mul. lia. }
    rewrite Hland. change (0 =? 0) with true. cbv iota.
    rewrite Z.shiftr_div_pow2 by lia. change (2 ^ 1) with 2.
    rewrite Z.mul_comm, Z.div_mul by lia.
    rewrite IH by (auto; lia). f_equal. lia.
Qed.

Lemma netmask_bits_not_aborted (fuel : nat) :
  forall mask haddr, netmask_bits fuel mask haddr <> Aborted.
Proof.
  induction fuel as [|fuel IH]; intros mask haddr; cbn [netmask_bits];
    destruct (Z.land haddr 1 =? 0); try discriminate. apply IH.
Qed.

Lemma split_at_length (d : ascii) (s : string) :
  List.length (split_at d s) = S (count_occ ascii_dec (chars s) d).
Proof.
  induction s as [|c s IH]; [reflexivity|].
  cbn [split_at chars list_ascii_of_string count_occ].
  fold (chars s).
  destruct (Ascii.eqb_spec c d) as [->|Hne].
  - destruct (ascii_dec d d); [|congruence]. cbn [List.length]. now rewrite IH.
  - destruct (ascii_dec c d); [congruence|].
    rewrite <- IH. destruct (split_at_cons d s) as (piece & pieces & ->). reflexivity.
Qed.

Lemma split_at_no_slash (d : ascii) (s : string) :
  after_strchr s "/" = None ->
  Forall (fun entry => after_strchr entry "/" = None) (split_at d s).
Proof.
  induction s as [|c s IH]; intros H.
  - repeat constructor.
  - cbn [after_strchr] in H. cbn [split_at].
    destruct (Ascii.eqb c "/") eqn:Hslash; [discriminate|].
    specialize (IH H).
    destruct (Ascii.eqb c d).
    + constructor; [reflexivity | exact IH].
    + destruct (split_at d s) as [|piece pieces]; [repeat constructor; cbn; now rewrite Hslash|].
      inversion IH; subst. constructor; [|assumption].
      cbn [after_strchr]. now rewrite Hslash.
Qed.

Section MaxHostsFacts.

Variable inet_aton : string -> option (Z * Z * Z * Z).

Lemma max_hosts_loop_plain (fuel : nat) (point : list string) :
  Forall (fun entry => after_strchr entry "/" = None) point ->
  forall count,
    max_hosts_loop inet_aton fuel point count
    = Returns (to_int (count + Z.of_nat (List.length point))).
Proof.
  induction 1 as [|entry point Hentry _ IH]; intros count.
  - cbn [max_hosts_loop List.length]. now rewrite Z.add_0_r.
  - cbn [max_hosts_loop]. rewrite Hentry, IH. do 2 f_equal.
    cbn [List.length]. lia.
Qed.

(** What one entry does to the count: it adds a number that does not depend
    on the count, or the function returns -1, or the netmask loop spins. *)
Lemma max_hosts_entry_cases (fuel : nat) (entry : string) :
  (exists added, forall point count,
      max_hosts_loop inet_aton fuel (entry :: point) count
      = max_hosts_loop inet_aton fuel point (count + added))
  \/ (forall point count,
      max_hosts_loop inet_aton fuel (entry :: point) count = Returns (-1))
  \/ (forall point count,
      max_hosts_loop inet_aton fuel (entry :: point) count = Spinning).
Proof.
  cbn [max_hosts_loop].
  destruct (after_strchr entry "/") as [[|c slash]|].
  - left. exists 1. reflexivity.
  - set (s := String c slash).
    assert (Hcounted : forall mask, exists added, forall point count,
      max_hosts_loop inet_aton fuel point
        (if mask <? 31 then count + Z.shiftl 1 (32 - mask) - 1
         else count + Z.shiftl 1 (32 - mask))
      = max_hosts_loop inet_aton fuel point (count + added)).
    { intros mask. destruct (mask <? 31).
      - exists (Z.shiftl 1 (32 - mask) - 1). intros. f_equal. lia.
      - exists (Z.shiftl 1 (32 - mask)). reflexivity. }
    destruct (if atoi s >? 32 then inet_aton s else None) as [addr|].
    + pose proof (netmask_bits_not_aborted fuel 32 (ntohl addr)) as Hbits.
      destruct (netmask_bits fuel 32 (ntohl addr)) as [mask| |]; cbn [bind].
      * destruct ((mask <? 8) || (mask >? 32)).
        -- right. left. reflexivity.
        -- left. exact (Hcounted mask).
      * congruence.
      * right. right. reflexivity.
    + destruct (strtol s) as [mask erange].
      destruct (erange || (mask <? 8) || (mask >? 32)).
      * right. left. reflexivity.
      * left. exact (Hcounted mask).
  - left. exists 1. reflexivity.
Qed.

Lemma max_hosts_loop_cases (fuel : nat) (entries : list string) :
  (exists added, forall point count,
      max_hosts_loop inet_aton fuel (entries ++ point) count
      = max_hosts_loop inet_aton fuel point (count + added))
  \/ (forall point count,
      max_hosts_loop inet_aton fuel (entries ++ point) count = Returns (-1))
  \/ (forall point count,
      max_hosts_loop inet_aton fuel (entries ++ point) count = Spinning).
Proof.
  induction entries as [|entry entries IH].
  - left. exists 0. intros. cbn [app]. f_equal. lia.
  - cbn [app].
    destruct (max_hosts_entry_cases fuel entry) as [(d & Hd)|[He|He]].
    + destruct IH as [(d' & Hd')|[He|He]].
      * left. exists (d + d'). intros. rewrite Hd, Hd'. f_equal. lia.
      * right. left. intros. now rewrite Hd, He.
      * right. right. intros. now rewrite Hd, He.
    + right. left. intros. apply He.
    + right. right. intros. apply He.
Qed.

Lemma max_hosts_loop_counted (fuel : nat) (entries : list string) (n : Z) :
  max_hosts_loop inet_aton fuel entries 0 = Returns n -> 0 <= n ->
  exists added, to_int added = n /\
    forall point count,
      max_hosts_loop inet_aton fuel (entries ++ point) count
      = max_hosts_loop inet_aton fuel point (count + added).
Proof.
  intros Hn Hpos.
  destruct (max_hosts_loop_cases fuel entries) as [(d & Hd)|[He|He]].
  - exists d. split; [|exact Hd].
    specialize (Hd [] 0). rewrite app_nil_r, Hn in Hd. cbn [max_hosts_loop] in Hd.
    now injection Hd as ->.
  - specialize (He [] 0). rewrite app_nil_r, Hn in He. injection He as ->. lia.
  - specialize (He [] 0). rewrite app_nil_r, Hn in He. discriminate.
Qed.

Lemma non_empty_split (s : string) : s <> "" -> g_strsplit s "," = split_at "," s.
Proof. destruct s; [congruence | reflexivity]. Qed.

Lemma split_joined (a b : string) :
  g_strsplit (a +++ "," +++ b) "," = split_at "," a ++ split_at "," b.
Proof.
  rewrite <- (split_at_app "," a b).
  change ("," +++ b) with (String "," b).
  destruct a; reflexivity.
Qed.

(** X14: A hosts string without a slash counts one host for each piece
    between commas, the empty pieces included: one more than the number of
    commas, cut to an int, and 0 for the empty string. *)
Theorem max_hosts_plain_list (fuel : nat) (hosts : string) :
  after_strchr hosts "/" = None ->
  max_hosts inet_aton fuel hosts
  = Returns (if String.eqb hosts "" then 0
             else to_int (1 + Z.of_nat (count_occ ascii_dec (chars hosts) ","%char))).
Proof.
  intros Hplain. unfold max_hosts.
  destruct hosts as [|c hosts]; [reflexivity|].
  rewrite non_empty_split by congruence.
  rewrite (max_hosts_loop_plain fuel _ (split_at_no_slash "," _ Hplain)).
  rewrite split_at_length.
  change (String.eqb (String c hosts) "") with false. cbv iota.
  do 2 f_equal. lia.
Qed.

(** X15: One address with a netmask after the slash.  A dotted netmask
    (a text that atoi reads above 32 and inet_aton accepts) with k zero bits
    below its lowest one bit counts 2^k hosts, less one when k is above 1,
    and is an error above 24 bits; the loop over the bits returns as soon as
    the fuel covers k.  Any other text is read by strtol as the number of
    mask bits: outside 8..32 it is an error, else it counts 2^(32 - mask)
    hosts, less one below 31. *)
Theorem max_hosts_netmask (fuel : nat) (address slash : string) :
  after_strchr address "," = None -> after_strchr address "/" = None ->
  after_strchr slash "," = None -> slash <> "" ->
  (forall addr h k,
      atoi slash > 32 -> inet_aton slash = Some addr ->
      ntohl addr = h * 2 ^ Z.of_nat k -> Z.odd h = true -> (k <= fuel)%nat ->
      max_hosts inet_aton fuel (address +++ "/" +++ slash)
      = Returns (if (24 <? Z.of_nat k) then -1
                 else 2 ^ Z.of_nat k - (if 1 <? Z.of_nat k then 1 else 0)))
  /\ (atoi slash <= 32 \/ inet_aton slash = None ->
      max_hosts inet_aton fuel (address +++ "/" +++ slash)
      = Returns (let '(mask, erange) := strtol slash in
                 if (erange : bool) || (mask <? 8) || (mask >? 32) then -1
                 else 2 ^ (32 - mask) - (if mask <? 31 then 1 else 0))).
Proof.
  intros Ha Hs Hc Hne.
  assert (Hsplit : g_strsplit (address +++ "/" +++ slash) ","
                   = [address +++ "/" +++ slash]).
  { rewrite non_empty_split by (destruct address; discriminate).
    apply split_at_no_delimiter.
    clear Hs. induction address as [|c address IH]; cbn [String.append after_strchr].
    - exact Hc.
    - cbn [after_strchr] in Ha. destruct (Ascii.eqb c ","); [discriminate|].
      exact (IH Ha). }
  assert (Hslash : after_strchr (address +++ "/" +++ slash) "/" = Some slash).
  { clear Ha Hsplit. induction address as [|c address IH]; cbn [String.append after_strchr].
    - reflexivity.
    - cbn [after_strchr] in Hs. destruct (Ascii.eqb c "/"); [discriminate|].
      exact (IH Hs). }
  unfold max_hosts. rewrite Hsplit. cbn [max_hosts_loop]. rewrite Hslash.
  destruct slash as [|c slash]; [congruence|].
  set (s := String c slash) in *.
  split.
  - intros addr h k Hatoi Haton Hbits Hodd Hfuel.
    apply Z.gt_lt, Z.ltb_lt in Hatoi. rewrite Z.gtb_ltb, Hatoi, Haton.
    rewrite Hbits, (netmask_bits_trailing_zeros k fuel 32 h Hfuel Hodd).
    cbn [bind].
    destruct (Z.gtb_spec (32 - Z.of_nat k) 32); [lia|].
    rewrite orb_false_r.
    replace (32 - Z.of_nat k <? 8) with (24 <? Z.of_nat k)
      by (destruct (Z.ltb_spec 24 (Z.of_nat k)); symmetry;
          [apply Z.ltb_lt | apply Z.ltb_ge]; lia).
    destruct (Z.ltb_spec 24 (Z.of_nat k)) as [|Hk]; [reflexivity|].
    replace (32 - (32 - Z.of_nat k)) with (Z.of_nat k) by lia.
    rewrite Z.shiftl_1_l.
    replace (32 - Z.of_nat k <? 31) with (1 <? Z.of_nat k)
      by (destruct (Z.ltb_spec 1 (Z.of_nat k)); symmetry;
          [apply Z.ltb_lt | apply Z.ltb_ge]; lia).
    assert (Hpow : 1 <= 2 ^ Z.of_nat k <= 2 ^ 24).
    { split; [apply (Z.pow_le_mono_r 2 0); lia | apply Z.pow_le_mono_r; lia]. }
    change (2 ^ 24) with 16777216 in Hpow.
    f_equal. destruct (1 <? Z.of_nat k);
      rewrite to_int_small; unfold INT_MIN, INT_MAX; lia.
  - intros Hother.
    assert (Hnone : (if atoi s >? 32 then inet_aton s else None) = None).
    { destruct Hother as [Hle| ->]; [|now destruct (atoi s >? 32)].
      destruct (Z.gtb_spec (atoi s) 32); [lia | reflexivity]. }
    rewrite Hnone. destruct (strtol s) as [mask erange].
    destruct erange; [reflexivity|]. cbn [orb].
    destruct (Z.ltb_spec mask 8) as [|H8]; [reflexivity|].
    rewrite Z.gtb_ltb. destruct (Z.ltb_spec 32 mask) as [|H32]; [reflexivity|].
    cbn [orb]. rewrite Z.shiftl_1_l.
    assert (Hpow : 1 <= 2 ^ (32 - mask) <= 2 ^ 24).
    { split; [apply (Z.pow_le_mono_r 2 0); lia | apply Z.pow_le_mono_r; lia]. }
    change (2 ^ 24) with 16777216 in Hpow.
    f_equal. destruct (mask <? 31);
      rewrite to_int_small; unfold INT_MIN, INT_MAX; lia.
Qed.

(** X16: Where two non-empty hosts strings each give a count that is not
    negative, the two joined by a comma give the sum of the counts, cut to
    an int; and a comma at the end counts one more host. *)
Theorem max_hosts_of_joined (fuel : nat) (a b : string) (na nb : Z) :
  a <> "" -> b <> "" ->
  max_hosts inet_aton fuel a = Returns na -> 0 <= na ->
  max_hosts inet_aton fuel b = Returns nb -> 0 <= nb ->
  max_hosts inet_aton fuel (a +++ "," +++ b) = Returns (to_int (na + nb))
  /\ max_hosts inet_aton fuel (a +++ ",") = Returns (to_int (na + 1)).
Proof.
  unfold max_hosts. intros Ha Hb Hna Hpa Hnb Hpb.
  rewrite non_empty_split in Hna, Hnb by assumption.
  destruct (max_hosts_loop_counted fuel _ na Hna Hpa) as (ca & Hca & Ha').
  destruct (max_hosts_loop_counted fuel _ nb Hnb Hpb) as (cb & Hcb & Hb').
  split.
  - rewrite split_joined, Ha'.
    rewrite <- (app_nil_r (split_at "," b)), Hb'. cbn [max_hosts_loop].
    rewrite <- Hca, <- Hcb, <- to_int_add.
    replace (0 + ca + cb) with (ca + cb) by lia. reflexivity.
  - change (a +++ ",") with (a +++ "," +++ ""). rewrite split_joined, Ha'.
    cbn [split_at max_hosts_loop after_strchr].
    rewrite <- Hca, (to_int_add (to_int ca) 1), to_int_idempotent, <- to_int_add.
    replace (0 + ca + 1) with (ca + 1) by lia. reflexivity.
Qed.

End MaxHostsFacts.

(** ** convert_to_newlines *)

Lemma skipn_past (front more : list ascii) (n : nat) :
  skipn (List.length front + n) (front ++ more) = skipn n more.
Proof. induction front; [reflexivity | exact IHfront]. Qed.

Lemma firstn_past (front more : list ascii) (n : nat) :
  firstn (List.length front + n) (front ++ more) = front ++ firstn n more.
Proof. induction front; [reflexivity | cbn; now rewrite IHfront]. Qed.

Lemma firstn_exact (front more : list ascii) :
  firstn (List.length front) (front ++ more) = front.
Proof.
  rewrite <- (Nat.add_0_r (List.length front)), firstn_past.
  cbn. apply app_nil_r.
Qed.

Lemma skipn_exact (front more : list ascii) :
  skipn (List.length front) (front ++ more) = more.
Proof. rewrite <- (Nat.add_0_r (List.length front)). apply skipn_past. Qed.

Lemma skipn_closed_two (a b : ascii) (rest : list ascii) (z x : ascii)
    (more : list ascii) :
  skipn (List.length (rest ++ [z; x])) ([a; b] ++ (rest ++ [z; x]) ++ more)
  = z :: x :: more.
Proof.
  rewrite length_app, Nat.add_comm. cbn [List.length Nat.add app skipn].
  rewrite <- app_assoc. apply skipn_exact.
Qed.

Lemma skipn_closed_one (a : ascii) (rest : list ascii) (z x : ascii)
    (more : list ascii) :
  skipn (List.length (rest ++ [z; x])) ([a] ++ (rest ++ [z; x]) ++ more)
  = x :: more.
Proof.
  replace ([a] ++ (rest ++ [z; x]) ++ more) with ((a :: rest ++ [z]) ++ x :: more)
    by (cbn [app]; now rewrite <- !app_assoc).
  replace (List.length (rest ++ [z; x])) with (List.length (a :: rest ++ [z]))
    by (cbn [List.length]; rewrite !length_app; cbn [List.length]; lia).
  apply skipn_exact.
Qed.

Lemma peek_at (front : list ascii) (c : ascii) (more : list ascii) (p : Z) :
  p = Z.of_nat (List.length front) -> peek (front ++ c :: more) p = c.
Proof.
  intros ->. unfold peek. rewrite Nat2Z.id.
  induction front; [reflexivity | exact IHfront].
Qed.

Lemma poke_at (front : list ascii) (c d : ascii) (more : list ascii) (p : Z) :
  p = Z.of_nat (List.length front) ->
  poke (front ++ c :: more) p d = front ++ d :: more.
Proof.
  intros ->. unfold poke. rewrite Nat2Z.id, firstn_exact.
  change (S (List.length front)) with (1 + List.length front)%nat.
  rewrite Nat.add_comm, skipn_past. reflexivity.
Qed.

(** The bytes [moved] lie behind [gap]; memmove puts them where [gap]
    starts and leaves what follows the written bytes as it was. *)
Lemma memmove_within_closes_gap (front gap moved back : list ascii) (dst src n : Z) :
  dst = Z.of_nat (List.length front) ->
  src = Z.of_nat (List.length front + List.length gap) ->
  n = Z.of_nat (List.length moved) ->
  memmove_within (front ++ gap ++ moved ++ back) dst src n
  = front ++ moved ++ skipn (List.length moved) (gap ++ moved ++ back).
Proof.
  intros -> -> ->. unfold memmove_within. rewrite !Nat2Z.id.
  rewrite firstn_exact, (skipn_past front _ (List.length gap)).
  rewrite (skipn_past front _ (List.length moved)).
  rewrite skipn_exact, firstn_exact. reflexivity.
Qed.

Lemma gsize_dec_succ (n : nat) :
  Z.of_nat (S n) < 18446744073709551616 -> gsize_dec (Z.of_nat (S n)) = Z.of_nat n.
Proof.
  intros H. unfold gsize_dec. rewrite Z.mod_small; lia.
Qed.

Lemma convert_to_newlines_loop_step (fuel : nat) (mem : list ascii) (ch left : Z) :
  convert_to_newlines_loop (S fuel) mem ch left
  = if Ascii.eqb (peek mem ch) zero then Returns mem
    else if Ascii.eqb (peek mem ch) backslash then
      if Ascii.eqb (peek mem (ch + 1)) "r" then
        convert_to_newlines_loop fuel
          (memmove_within mem (ch + 1 - 1) (ch + 1 + 1) left)
          (ch + 1 - 2 + 1) (gsize_dec (gsize_dec left))
      else if Ascii.eqb (peek mem (ch + 1)) "n" then
        convert_to_newlines_loop fuel
          (poke (memmove_within mem (ch + 1) (ch + 1 + 1) left) (ch + 1 - 1) newline)
          (ch + 1 - 1 + 1) (gsize_dec (gsize_dec left))
      else convert_to_newlines_loop fuel mem (ch + 1 - 1 + 1) (gsize_dec left)
    else convert_to_newlines_loop fuel mem (ch + 1) (gsize_dec left).
Proof. reflexivity. Qed.

Lemma convert_to_newlines_loop_done (fuel : nat) (mem : list ascii) (ch left : Z) :
  peek mem ch = zero -> convert_to_newlines_loop fuel mem ch left = Returns mem.
Proof.
  intros H. destruct fuel; cbn [convert_to_newlines_loop]; now rewrite H.
Qed.

Lemma newlines_converted_two (c d : ascii) (rest : list ascii) :
  newlines_converted (c :: d :: rest)
  = if Ascii.eqb c backslash && Ascii.eqb d "r" then newlines_converted rest
    else if Ascii.eqb c backslash && Ascii.eqb d "n"
         then newline :: newlines_converted rest
         else c :: newlines_converted (d :: rest).
Proof. reflexivity. Qed.

Lemma newlines_converted_plain (c : ascii) (rest : list ascii) :
  Ascii.eqb c backslash = false ->
  newlines_converted (c :: rest) = c :: newlines_converted rest.
Proof.
  intros H. destruct rest; [reflexivity|].
  now rewrite newlines_converted_two, H.
Qed.

Lemma newlines_converted_other (d : ascii) (rest : list ascii) :
  Ascii.eqb d "r" = false -> Ascii.eqb d "n" = false ->
  newlines_converted (backslash :: d :: rest)
  = backslash :: newlines_converted (d :: rest).
Proof.
  intros Hr Hn. now rewrite newlines_converted_two, Hr, Hn, !andb_false_r.
Qed.

Lemma newlines_converted_no_zero (n : nat) :
  forall text, (List.length text <= n)%nat ->
    ~ In zero text -> ~ In zero (newlines_converted text).
Proof.
  induction n as [|n IH]; intros text Hlen Hzero.
  - destruct text; [exact Hzero | cbn in Hlen; lia].
  - destruct text as [|c [|d rest]]; [exact Hzero | exact Hzero |].
    rewrite newlines_converted_two.
    assert (Hrest : ~ In zero rest) by (intros H; apply Hzero; right; right; exact H).
    assert (Hdrest : ~ In zero (d :: rest)) by (intros H; apply Hzero; right; exact H).
    cbn [List.length] in Hlen.
    destruct (Ascii.eqb c backslash && Ascii.eqb d "r").
    + apply IH; [lia | exact Hrest].
    + destruct (Ascii.eqb c backslash && Ascii.eqb d "n").
      * intros [H|H]; [discriminate|]. revert H. apply IH; [lia | exact Hrest].
      * intros [H|H]; [apply Hzero; left; exact H|].
        revert H. apply IH; [cbn [List.length]; lia | exact Hdrest].
Qed.

Lemma c_string_upto (text more : list ascii) :
  ~ In zero text -> c_string (text ++ zero :: more) = text.
Proof.
  induction text as [|c text IH]; intros Hzero; [reflexivity|].
  cbn [app c_string].
  destruct (Ascii.eqb_spec c zero) as [->|_]; [exfalso; apply Hzero; now left|].
  rewrite IH; [reflexivity|]. intros H. apply Hzero. now right.
Qed.

(** The loop at offset [length done], with [rest] up to the terminator and
    the byte [x] behind the terminator. *)
Lemma convert_to_newlines_loop_converts (fuel : nat) :
  forall (rest done : list ascii) (x : ascii) (more : list ascii),
    (List.length rest <= fuel)%nat -> ~ In zero rest ->
    Z.of_nat (List.length rest) < 18446744073709551616 ->
    exists pre,
      convert_to_newlines_loop fuel (done ++ rest ++ zero :: x :: more)
        (Z.of_nat (List.length done)) (Z.of_nat (List.length rest))
      = Returns (done ++ newlines_converted rest ++ zero :: pre ++ x :: more)
      /\ (List.length (newlines_converted rest) + List.length pre
          = List.length rest)%nat
      /\ (pre = [] /\ newlines_converted rest = rest \/ exists p, pre = x :: p).
Proof.
  induction fuel as [|fuel IH]; intros rest done x more Hfuel Hzero Hsize.
  - destruct rest; [|cbn in Hfuel; lia].
    exists []. split; [|split; [reflexivity | left; split; reflexivity]].
    apply convert_to_newlines_loop_done. now apply peek_at.
  - destruct rest as [|c rest].
    { exists []. split; [|split; [reflexivity | left; split; reflexivity]].
      apply convert_to_newlines_loop_done. now apply peek_at. }
    assert (Hc : Ascii.eqb c zero = false).
    { destruct (Ascii.eqb_spec c zero) as [->|]; [|reflexivity].
      exfalso. apply Hzero. now left. }
    assert (Hrest : ~ In zero rest) by (intros H; apply Hzero; right; exact H).
    cbn [List.length] in Hfuel.
    rewrite convert_to_newlines_loop_step.
    change ((c :: rest) ++ zero :: x :: more) with (c :: rest ++ zero :: x :: more).
    rewrite (peek_at done c) by reflexivity. rewrite Hc.
    assert (Hmem : forall (c : ascii) tail, done ++ c :: tail = (done ++ [c]) ++ tail).
    { intros. now rewrite <- app_assoc. }
    assert (Hnext : forall c : ascii, Z.of_nat (List.length done) + 1
                    = Z.of_nat (List.length (done ++ [c]))).
    { intros. rewrite length_app. cbn [List.length]. lia. }
    destruct (Ascii.eqb_spec c backslash) as [->|Hplain].
    + destruct rest as [|d rest].
      * (* the backslash is the last character *)
        cbn [app]. rewrite (Hmem backslash).
        rewrite (peek_at (done ++ [backslash]) zero) by apply Hnext.
        change (Ascii.eqb zero "r") with false.
        change (Ascii.eqb zero "n") with false. cbv iota.
        exists []. split; [|split; [reflexivity | left; split; reflexivity]].
        rewrite convert_to_newlines_loop_done.
        -- now rewrite <- app_assoc.
        -- apply peek_at. rewrite <- (Hnext backslash). lia.
      * change ((d :: rest) ++ zero :: x :: more) with (d :: rest ++ zero :: x :: more).
        rewrite (Hmem backslash).
        rewrite (peek_at (done ++ [backslash]) d) by apply Hnext.
        rewrite <- (Hmem backslash).
        assert (Hrest2 : ~ In zero rest) by (intros H; apply Hrest; right; exact H).
        assert (Hleft : gsize_dec (gsize_dec (Z.of_nat (List.length (backslash :: d :: rest))))
                        = Z.of_nat (List.length rest)).
        { cbn [List.length] in Hsize |- *.
          rewrite gsize_dec_succ by exact Hsize. apply gsize_dec_succ. lia. }
        cbn [List.length] in Hfuel, Hsize.
        destruct (Ascii.eqb_spec d "r") as [->|Hr].
        -- (* backslash r *)
           rewrite Hleft.
           replace (done ++ backslash :: "r"%char :: rest ++ zero :: x :: more)
             with (done ++ [backslash; "r"%char] ++ (rest ++ [zero; x]) ++ more)
             by (cbn [app]; now rewrite <- app_assoc).
           rewrite (memmove_within_closes_gap done [backslash; "r"%char]
                      (rest ++ [zero; x]) more);
             [ | lia | cbn [List.length]; lia
               | rewrite length_app; cbn [List.length]; lia ].
           rewrite skipn_closed_two.
           replace (Z.of_nat (List.length done) + 1 - 2 + 1)
             with (Z.of_nat (List.length done)) by lia.
           rewrite <- app_assoc. cbn [app].
           destruct (IH rest done x (zero :: x :: more)) as (pre & Hrun & Hlen & Hpre);
             [lia | exact Hrest2 | lia |].
           exists (pre ++ [x; zero]). split; [|split].
           ++ rewrite Hrun. rewrite newlines_converted_two.
              change (Ascii.eqb backslash backslash && Ascii.eqb "r" "r") with true.
              cbv iota. now rewrite <- app_assoc.
           ++ rewrite newlines_converted_two.
              change (Ascii.eqb backslash backslash && Ascii.eqb "r" "r") with true.
              cbv iota. rewrite length_app. cbn [List.length]. lia.
           ++ right. destruct Hpre as [[-> _]|(p & ->)]; cbn [app]; eauto.
        -- destruct (Ascii.eqb_spec d "n") as [->|Hn].
           ++ (* backslash n *)
              rewrite Hleft.
              replace (done ++ backslash :: "n"%char :: rest ++ zero :: x :: more)
                with ((done ++ [backslash]) ++ ["n"%char] ++ (rest ++ [zero; x]) ++ more)
                by (cbn [app]; now rewrite <- !app_assoc).
              rewrite (memmove_within_closes_gap (done ++ [backslash]) ["n"%char]
                         (rest ++ [zero; x]) more);
                [ | apply Hnext | rewrite length_app; cbn [List.length]; lia
                  | rewrite length_app; cbn [List.length]; lia ].
              rewrite skipn_closed_one.
              rewrite <- (app_assoc done [backslash]). cbn [app].
              rewrite (poke_at done backslash newline) by lia.
              replace (Z.of_nat (List.length done) + 1 - 1 + 1)
                with (Z.of_nat (List.length (done ++ [newline])))
                by (rewrite length_app; cbn [List.length]; lia).
              replace (done ++ newline :: (rest ++ [zero; x]) ++ x :: more)
                with ((done ++ [newline]) ++ rest ++ zero :: x :: x :: more)
                by (now rewrite <- !app_assoc).
              destruct (IH rest (done ++ [newline]) x (x :: more))
                as (pre & Hrun & Hlen & Hpre); [lia | exact Hrest2 | lia |].
              exists (pre ++ [x]). split; [|split].
              ** rewrite Hrun. rewrite newlines_converted_two.
                 change (Ascii.eqb backslash backslash && Ascii.eqb "n" "r") with false.
                 change (Ascii.eqb backslash backslash && Ascii.eqb "n" "n") with true.
                 cbv iota. now rewrite <- !app_assoc.
              ** rewrite newlines_converted_two.
                 change (Ascii.eqb backslash backslash && Ascii.eqb "n" "r") with false.
                 change (Ascii.eqb backslash backslash && Ascii.eqb "n" "n") with true.
                 cbv iota. rewrite length_app. cbn [List.length]. lia.
              ** right. destruct Hpre as [[-> _]|(p & ->)]; cbn [app]; eauto.
           ++ (* any other character: the backslash stays *)
              replace (Z.of_nat (List.length done) + 1 - 1 + 1)
                with (Z.of_nat (List.length (done ++ [backslash])))
                by (rewrite <- (Hnext backslash); lia).
              rewrite (Hmem backslash).
              replace (Z.of_nat (List.length (backslash :: d :: rest)))
                with (Z.of_nat (S (List.length (d :: rest)))) by reflexivity.
              rewrite gsize_dec_succ by exact Hsize.
              destruct (IH (d :: rest) (done ++ [backslash]) x more)
                as (pre & Hrun & Hlen & Hpre);
                [cbn [List.length]; lia | exact Hrest | cbn [List.length]; lia |].
              assert (Hr' : Ascii.eqb d "r" = false) by (now destruct (Ascii.eqb_spec d "r")).
              assert (Hn' : Ascii.eqb d "n" = false) by (now destruct (Ascii.eqb_spec d "n")).
              exists pre. rewrite (newlines_converted_other d rest Hr' Hn').
              split; [|split].
              ** change ((d :: rest) ++ zero :: x :: more)
                   with (d :: rest ++ zero :: x :: more) in Hrun.
                 rewrite Hrun. now rewrite <- !app_assoc.
              ** cbn [List.length]. cbn [List.length] in Hlen. lia.
              ** destruct Hpre as [[-> Heq]|Hp]; [left | right; exact Hp].
                 split; [reflexivity | now rewrite Heq].
    + (* a plain character *)
      rewrite (Hnext c), (Hmem c).
      replace (Z.of_nat (List.length (c :: rest)))
        with (Z.of_nat (S (List.length rest))) by reflexivity.
      cbn [List.length] in Hsize.
      rewrite gsize_dec_succ by exact Hsize.
      destruct (IH rest (done ++ [c]) x more) as (pre & Hrun & Hlen & Hpre);
        [lia | exact Hrest | lia |].
      assert (Hc' : Ascii.eqb c backslash = false) by (now destruct (Ascii.eqb_spec c backslash)).
      exists pre. rewrite (newlines_converted_plain c rest Hc').
      split; [|split].
      * rewrite Hrun. now rewrite <- !app_assoc.
      * cbn [List.length]. lia.
      * destruct Hpre as [[-> Heq]|Hp]; [left | right; exact Hp].
        split; [reflexivity | now rewrite Heq].
Qed.

Lemma convert_to_newlines_run (fuel : nat) (text : string) (b0 : ascii)
    (bs : list ascii) :
  (strlen text <= fuel)%nat -> ~ In zero (chars text) ->
  Z.of_nat (strlen text) < 18446744073709551616 ->
  exists pre,
    convert_to_newlines fuel text (b0 :: bs)
    = Returns (newlines_converted (chars text) ++ zero :: pre ++ b0 :: bs)
    /\ (List.length (newlines_converted (chars text)) + List.length pre
        = strlen text)%nat
    /\ (pre = [] /\ newlines_converted (chars text) = chars text
        \/ exists p, pre = b0 :: p).
Proof.
  intros Hfuel Hzero Hsize. rewrite <- chars_length in Hfuel, Hsize.
  destruct (convert_to_newlines_loop_converts fuel (chars text) [] b0 bs
              Hfuel Hzero Hsize) as (pre & Hrun & Hlen & Hpre).
  exists pre. unfold convert_to_newlines.
  rewrite <- chars_length, <- app_assoc.
  split; [exact Hrun | split; [exact Hlen | exact Hpre]].
Qed.

(** X17: [convert_to_newlines] on a text, with any bytes behind its copy:
    with fuel for the length of the text the function returns; the string it
    returns is the text with each backslash-r dropped and each backslash-n
    made one newline, read from left to right; the block of the copy keeps
    its size and nothing behind the block is written. *)
Theorem convert_to_newlines_converts (fuel : nat) (text : string) (b0 : ascii)
    (bs : list ascii) :
  (strlen text <= fuel)%nat -> ~ In zero (chars text) ->
  Z.of_nat (strlen text) < 18446744073709551616 ->
  exists mem,
    convert_to_newlines fuel text (b0 :: bs) = Returns mem
    /\ c_string mem = newlines_converted (chars text)
    /\ List.length mem = (strlen text + 1 + List.length (b0 :: bs))%nat
    /\ skipn (strlen text + 1) mem = b0 :: bs.
Proof.
  intros Hfuel Hzero Hsize.
  destruct (convert_to_newlines_run fuel text b0 bs Hfuel Hzero Hsize)
    as (pre & Hrun & Hlen & _).
  eexists. split; [exact Hrun|]. split; [|split].
  - apply c_string_upto.
    apply (newlines_converted_no_zero (List.length (chars text))); [lia | exact Hzero].
  - rewrite length_app. cbn [List.length]. rewrite length_app. cbn [List.length]. lia.
  - replace (newlines_converted (chars text) ++ zero :: pre ++ b0 :: bs)
      with ((newlines_converted (chars text) ++ zero :: pre) ++ b0 :: bs)
      by (now rewrite <- app_assoc).
    replace (strlen text + 1)%nat
      with (List.length (newlines_converted (chars text) ++ zero :: pre))
      by (rewrite length_app; cbn [List.length]; lia).
    apply skipn_exact.
Qed.

(** X18: Either the text holds no backslash-r and no backslash-n and the
    memory is left as it was, or the byte that lies behind the block of the
    copy has been copied into the block, behind the terminator of the result:
    the first memmove has read one byte beyond the block. *)
Theorem convert_to_newlines_reads_behind (fuel : nat) (text : string) (b0 : ascii)
    (bs : list ascii) :
  (strlen text <= fuel)%nat -> ~ In zero (chars text) ->
  Z.of_nat (strlen text) < 18446744073709551616 ->
  exists mem,
    convert_to_newlines fuel text (b0 :: bs) = Returns mem
    /\ (newlines_converted (chars text) = chars text
        /\ mem = chars text ++ zero :: b0 :: bs
        \/ (List.length (newlines_converted (chars text)) < strlen text)%nat
           /\ peek mem (Z.of_nat (List.length (newlines_converted (chars text))) + 1)
              = b0).
Proof.
  intros Hfuel Hzero Hsize.
  destruct (convert_to_newlines_run fuel text b0 bs Hfuel Hzero Hsize)
    as (pre & Hrun & Hlen & Hpre).
  eexists. split; [exact Hrun|].
  destruct Hpre as [[-> Heq]|(p & ->)].
  - left. split; [exact Heq | now rewrite Heq].
  - right. split; [cbn [List.length] in Hlen; lia|].
    replace (newlines_converted (chars text) ++ zero :: (b0 :: p) ++ b0 :: bs)
      with ((newlines_converted (chars text) ++ [zero]) ++ b0 :: p ++ b0 :: bs)
      by (now rewrite <- app_assoc).
    apply peek_at. rewrite length_app. cbn [List.length]. lia.
Qed.

(** ** More runs of the model *)

Lemma flaky_host_faithful (size : nat) : @faithful_host (flaky_host size).
Proof.
  intros [sent calls] b r c' b' (Hse & He & Hlen) Hw Hr. cbn in Hw.
  destruct calls as [|calls]; injection Hw as <- <- <-; [congruence|].
  split.
  - unfold buffer_ok, drain. cbn in *. lia.
  - unfold output, queued, drain. cbn. now rewrite app_nil_r.
Qed.

Lemma flaky_host_failure_keeps_output (size : nat) :
  @failure_keeps_output (flaky_host size).
Proof.
  intros [sent calls] b c' b' Hb Hw. cbn in Hw.
  destruct calls as [|calls]; [injection Hw as <- <- | discriminate].
  split; [exact Hb | reflexivity].
Qed.

Lemma flaky_empty_buffer_ok (size : nat) :
  @buffer_ok (flaky_host size) (empty_buffer size).
Proof.
  unfold buffer_ok, empty_buffer. cbn. rewrite repeat_length. lia.
Qed.

Lemma authenticate_session_witness :
  exists st',
    @process_omp_client_input demo_host table_library 80
      (authenticate_events "alice" "secret")
      (init_omp_process (@nil ascii : @client demo_host) (empty_buffer 64)
         (demo_table 0 true : @manage_t table_library))
    = Some (Returns (0, st'))
    /\ client_state st' = CLIENT_AUTHENTIC
    /\ current_credentials st' = credentials_read "alice" "secret"
    /\ manage st' = demo_table 0 true
    /\ session_output st'
       = @output demo_host [] (empty_buffer 64) ++ chars (XML_OK "authenticate").
Proof.
  exact (@authenticate_session demo_host table_library 80 "alice" "secret"
           (@nil ascii : @client demo_host) (empty_buffer 64)
           (demo_table 0 true : @manage_t table_library) (demo_table 0 true)
           demo_host_reliable (empty_buffer_ok 64) (le_n 80) eq_refl eq_refl).
Defined.

Lemma failed_reauthentication_witness :
  exists st',
    @process_omp_client_input demo_host table_library 80
      (authenticate_events "alice" "wrong")
      (demo_state CLIENT_AUTHENTIC (demo_credentials "secret") command_data_init
         (demo_table 0 true))
    = Some (Returns (0, st'))
    /\ client_state st' = CLIENT_TOP
    /\ current_credentials st' = {| username := None; password := None |}
    /\ manage st' = demo_table 0 true
    /\ session_output st'
       = session_output
           (demo_state CLIENT_AUTHENTIC (demo_credentials "secret") command_data_init
              (demo_table 0 true))
         ++ chars (XML_ERROR_AUTH_FAILED "authenticate").
Proof.
  exact (@failed_reauthentication demo_host table_library 80 "alice" "wrong"
           (demo_state CLIENT_AUTHENTIC (demo_credentials "secret") command_data_init
              (demo_table 0 true))
           (demo_table 0 true)
           demo_host_reliable (demo_entry _ _ _ _) (le_n 80) eq_refl eq_refl eq_refl).
Defined.


Lemma start_task_session_witness :
  exists st',
    @process_omp_client_input demo_host table_library 200
      (task_command_events "START_TASK" "t1")
      (demo_state CLIENT_AUTHENTIC no_credentials command_data_init (demo_table 0 true))
    = Some (Returns (3, st'))
    /\ forked st' = 1 /\ client_state st' = CLIENT_AUTHENTIC
    /\ manage st' = snd (table_start_task (demo_table 0 true) 1)
    /\ session_output st'
       = session_output
           (demo_state CLIENT_AUTHENTIC no_credentials command_data_init
              (demo_table 0 true))
         ++ chars (requested_with_report "start_task" "report-t1").
Proof.
  refine (proj1 (@start_task_session demo_host table_library 200 "t1" "report-t1" 1
                   (demo_state CLIENT_AUTHENTIC no_credentials command_data_init
                      (demo_table 0 true))
                   (snd (table_start_task (demo_table 0 true) 1)) 0
                   demo_host_reliable (demo_entry _ _ _ _) _ eq_refl eq_refl _
                   eq_refl _ eq_refl) eq_refl).
  - apply Nat.leb_le. reflexivity.
  - discriminate.
  - discriminate.
Defined.


Lemma send_to_client_without_write_witness :
  exists b',
    @send_to_client (stalled_host 16) 0 "hello world" [] (empty_buffer 16)
    = Returns (false, [], b')
    /\ @buffer_ok (stalled_host 16) b'
    /\ queued b' = queued (empty_buffer 16) ++ chars "hello world"
    /\ to_client_start b' = 0%nat
    /\ to_client_end b' = 11%nat.
Proof.
  refine (@send_to_client_without_write (stalled_host 16) 0 "hello world" []
            (empty_buffer 16) _ _).
  - unfold buffer_ok, empty_buffer. cbn. repeat split; repeat constructor.
  - apply Nat.leb_le. reflexivity.
Defined.

Lemma send_to_client_failure_truncates_witness :
  exists k,
    (k < strlen "hello world")%nat
    /\ @output (flaky_host 4) ([], 0%nat)
         {| to_client := chars "hell"; to_client_start := 0; to_client_end := 4 |}
       = @output (flaky_host 4) ([], 1%nat) (empty_buffer 4)
         ++ firstn k (chars "hello world").
Proof.
  exact (@send_to_client_failure_truncates (flaky_host 4) 11 "hello world"
           ([], 1%nat) ([], 0%nat) (empty_buffer 4)
           {| to_client := chars "hell"; to_client_start := 0; to_client_end := 4 |}
           (flaky_host_faithful 4) (flaky_host_failure_keeps_output 4)
           (flaky_empty_buffer_ok 4) eq_refl).
Defined.

Lemma interval_from_strings_edges_witness :
  interval_from_strings (Some "-1") None None = Some (-1, None)
  /\ interval_from_strings (Some "-1") (Some "second") None = Some (-1, None)
  /\ interval_from_strings (Some "-1") (Some "fortnight") None = Some (-1, None).
Proof.
  exact (proj2 (proj2 (interval_from_strings_edges "-1" None)) eq_refl).
Defined.

Lemma max_hosts_plain_list_witness :
  max_hosts dotted_quad 0 "10.0.0.1,10.0.0.2," = Returns 3.
Proof.
  exact (max_hosts_plain_list dotted_quad 0 "10.0.0.1,10.0.0.2," eq_refl).
Defined.

Lemma max_hosts_netmask_witness :
  max_hosts dotted_quad 2 "192.168.200.0/255.255.255.252" = Returns 3.
Proof.
  refine (proj1 (max_hosts_netmask dotted_quad 2 "192.168.200.0" "255.255.255.252"
                   eq_refl eq_refl eq_refl _)
            (255, 255, 255, 252) 1073741823 2%nat eq_refl eq_refl eq_refl eq_refl
            (le_n 2)).
  discriminate.
Defined.

Lemma max_hosts_of_joined_witness :
  max_hosts dotted_quad 0 "10.0.0.1,192.168.200.0/30" = Returns 4
  /\ max_hosts dotted_quad 0 "10.0.0.1," = Returns 2.
Proof.
  refine (max_hosts_of_joined dotted_quad 0 "10.0.0.1" "192.168.200.0/30" 1 3
            _ _ eq_refl _ eq_refl _); try discriminate.
Defined.

Lemma convert_to_newlines_converts_witness :
  exists mem,
    convert_to_newlines 4 "a\nb" ["X"%char] = Returns mem
    /\ c_string mem = ["a"%char; newline; "b"%char]
    /\ List.length mem = 6%nat
    /\ skipn 5 mem = ["X"%char].
Proof.
  refine (convert_to_newlines_converts 4 "a\nb" "X" [] (le_n 4) _ eq_refl).
  cbn. intros H. repeat (destruct H as [H|H]; [discriminate|]). exact H.
Defined.

Lemma convert_to_newlines_reads_behind_witness :
  exists mem,
    convert_to_newlines 4 "a\nb" ["X"%char] = Returns mem
    /\ (["a"%char; newline; "b"%char] = chars "a\nb"
        /\ mem = chars "a\nb" ++ [zero; "X"%char]
        \/ (3 < 4)%nat /\ peek mem 4 = "X"%char).
Proof.
  refine (convert_to_newlines_reads_behind 4 "a\nb" "X" [] (le_n 4) _ eq_refl).
  cbn. intros H. repeat (destruct H as [H|H]; [discriminate|]). exact H.
Defined.
